(** * Account inventory bot: allocation, permissions, dispatch and login

    A shallow embedding of the TypeScript sources
      - the Discord bot, [createDiscordBot] (src/server/db.ts, from the
        import of "./storage" on): the message handler, [isAdmin],
        [hasPermission] and the command handlers for generate, add, stock,
        cooldown, remove, blacklist and setcooldown;
      - the storage layer, class [DatabaseStorage] (src/server/routes.ts,
        from the import of "@shared/schema" on), which is the exported
        [storage];
      - authentication (src/unnamed/part_005): [hashPassword],
        [comparePasswords], [login], [register];
      - the tables (src/setup-admin.js, from the import of
        "drizzle-orm/pg-core" on);
    followed by the properties of the allocation logic.

    Conventions of the embedding.
      - JavaScript numbers that hold ids, timestamps (milliseconds) and
        seconds are [Z]; text columns are [string]; a nullable column is an
        [option]; an optional field of a [Partial<..>] payload is an [option]
        around the field's type.
      - A table is the list of its rows in the order a [select] without
        [ORDER BY] returns them on the store: [insert] appends, [delete]
        leaves the other rows where they are, and [update] writes the new
        version of a row after the rows it leaves alone.
      - An [async] function is a value of [Prog]: a tree whose nodes are the
        awaited database statements and transport calls.  Each call is one
        atomic action on the [World]; between two of them another handler may
        run.
      - A rejected promise is [Throw] and [try]/[catch] is [tryCatch].
        An [update] is rejected by the database when its payload holds a
        value outside the 32-bit integer column it is written to; the other
        statements do not reject.  [send] rejects when the recipient refuses
        private messages, and the code paths that dereference a missing row
        or compare buffers of different lengths throw as in JavaScript.
      - Reply and private-message texts are kept as values of [ReplyText]
        and [DmText] that carry what the texts interpolate; log messages are
        the strings of the source.  Strings are ASCII: [toLowerCase] and
        [trim] act on ASCII letters and white space. *)

From Stdlib Require Import ZArith List String Ascii Bool Lia DecimalString.
From Stdlib Require Import Permutation.
Import ListNotations.

Set Default Proof Using "Type".

Local Open Scope Z_scope.
Local Open Scope string_scope.
Local Open Scope list_scope.

(** ** Strings, as the JavaScript string methods the sources call *)

Definition lowerAscii (c : ascii) : ascii :=
  let n := nat_of_ascii c in
  if ((65 <=? n)%nat && (n <=? 90)%nat)%bool then ascii_of_nat (n + 32) else c.

(** [s.toLowerCase()] *)
Fixpoint toLowerCase (s : string) : string :=
  match s with
  | EmptyString => EmptyString
  | String c r => String (lowerAscii c) (toLowerCase r)
  end.

(** [s.startsWith(p)] *)
Definition startsWith (s p : string) : bool := String.prefix p s.

(** [s.slice(n)] for [0 <= n] *)
Fixpoint slice (n : nat) (s : string) : string :=
  match n, s with
  | O, _ => s
  | S n', String _ r => slice n' r
  | S _, EmptyString => EmptyString
  end.

Definition isWhite (c : ascii) : bool :=
  let n := nat_of_ascii c in
  ((n =? 32)%nat || ((9 <=? n)%nat && (n <=? 13)%nat))%bool.

Definition isEmpty (s : string) : bool :=
  match s with EmptyString => true | String _ _ => false end.

Fixpoint trimStart (s : string) : string :=
  match s with
  | EmptyString => EmptyString
  | String c r => if isWhite c then trimStart r else s
  end.

Fixpoint trimEnd (s : string) : string :=
  match s with
  | EmptyString => EmptyString
  | String c r =>
      let r' := trimEnd r in
      if (isWhite c && isEmpty r')%bool then EmptyString else String c r'
  end.

(** [s.trim()] *)
Definition trim (s : string) : string := trimEnd (trimStart s).

(** [s.split(/ +/)]: the pieces between maximal runs of spaces.  [inRun]
    tells that the previous character was a space of the current run. *)
Fixpoint splitSpacesFrom (inRun : bool) (s : string) : list string :=
  match s with
  | EmptyString => [EmptyString]
  | String c r =>
      if Ascii.eqb c " "%char then
        if inRun then splitSpacesFrom true r
        else EmptyString :: splitSpacesFrom true r
      else
        match splitSpacesFrom false r with
        | t :: ts => String c t :: ts
        | [] => [String c EmptyString]
        end
  end.

Definition splitSpaces (s : string) : list string :=
  match s with
  | EmptyString => [EmptyString]
  | String c r =>
      if Ascii.eqb c " "%char then EmptyString :: splitSpacesFrom true r
      else splitSpacesFrom false s
  end.

(** [s.split(sep)] for a one-character separator *)
Fixpoint splitOn (sep : ascii) (s : string) : list string :=
  match s with
  | EmptyString => [EmptyString]
  | String c r =>
      if Ascii.eqb c sep then EmptyString :: splitOn sep r
      else
        match splitOn sep r with
        | t :: ts => String c t :: ts
        | [] => [String c EmptyString]
        end
  end.

(** [s.includes(c)] for a one-character needle *)
Fixpoint includes (c : ascii) (s : string) : bool :=
  match s with
  | EmptyString => false
  | String d r => (Ascii.eqb d c || includes c r)%bool
  end.

(** [`${n}`] for an integer *)
Definition showZ (n : Z) : string := NilZero.string_of_int (Z.to_int n).

(** ** Rows of shared/schema.ts *)

Record User := mkUser {
  usr_id : Z;
  usr_username : string;
  usr_password : string;
  usr_isAdmin : bool;
  usr_createdAt : Z
}.

Record AccountCategory := mkCategory {
  cat_id : Z;
  cat_name : string;
  cat_description : option string;
  cat_createdAt : Z
}.

Record InsertAccountCategory := mkInsertCategory {
  icat_name : string;
  icat_description : option string
}.

Record Account := mkAccount {
  acc_id : Z;
  acc_email : string;
  acc_password : string;
  acc_categoryId : Z;
  acc_status : string;            (* available, generated, expired *)
  acc_expiresAt : option Z;
  acc_generatedBy : option string;
  acc_generatedAt : option Z;
  acc_createdAt : Z;
  acc_updatedAt : Z
}.

(** [InsertAccount]: [status] may be left out, the column default is
    ['available']. *)
Record InsertAccount := mkInsertAccount {
  ia_email : string;
  ia_password : string;
  ia_categoryId : Z;
  ia_status : option string;
  ia_expiresAt : option Z;
  ia_generatedBy : option string;
  ia_generatedAt : option Z
}.

(** [Partial<InsertAccount>]: [None] is an absent key. *)
Record AccountUpdate := mkAccountUpdate {
  up_email : option string;
  up_password : option string;
  up_categoryId : option Z;
  up_status : option string;
  up_expiresAt : option (option Z);
  up_generatedBy : option (option string);
  up_generatedAt : option (option Z)
}.

Record BotSettings := mkBotSettings {
  bs_id : Z;
  bs_guildId : string;
  bs_prefix : string;
  bs_allowedRoles : option (list string);
  bs_adminRoles : option (list string);
  bs_cooldown : Z;                (* seconds *)
  bs_createdAt : Z;
  bs_updatedAt : Z
}.

Record InsertBotSettings := mkInsertBotSettings {
  ibs_guildId : string;
  ibs_prefix : string;
  ibs_allowedRoles : option (list string);
  ibs_adminRoles : option (list string);
  ibs_cooldown : Z
}.

Record Log := mkLog {
  log_id : Z;
  log_type : string;              (* info, warning, error, success *)
  log_action : string;
  log_message : string;
  log_metadata : option string;
  log_userId : option Z;
  log_createdAt : Z
}.

Record InsertLog := mkInsertLog {
  il_type : string;
  il_action : string;
  il_message : string;
  il_metadata : option string;
  il_userId : option Z
}.

Definition logEntry (type action message : string) : InsertLog :=
  mkInsertLog type action message None None.

(** ** Chat transport *)

Record Guild := mkGuild { guild_id : string; guild_name : string }.

Record Member := mkMember {
  mem_roles : list string;        (* member.roles.cache *)
  mem_administrator : bool        (* member.permissions.has("Administrator") *)
}.

Record Message := mkMessage {
  author_bot : bool;
  author_id : string;
  author_tag : string;
  guild : option Guild;
  member : option Member;
  content : string;
  acceptsDM : bool                (* whether author.send resolves *)
}.

(** The texts [handleGenerateCommand] and [handleAddCommand] reply with,
    with the values they interpolate. *)
Inductive ReplyText :=
| RAccessDenied                                   (* Acces Refuse *)
| RAdminDenied                                    (* Acces Refuse, admin *)
| RGenerateUsage (prefix : string)                (* Veuillez specifier un service *)
| RServiceNotFound (serviceName : string) (available : list string)
| RStockExhausted (categoryName : string)         (* Stock Epuise *)
| RGenerated (categoryName : string)              (* Succes *)
| RDmError                                        (* Erreur DM *)
| RAddUsage (prefix : string)                     (* Format Incorrect *)
| RAddBadFormat                                   (* Format Invalide *)
| RAccountAdded (serviceName email : string)      (* Compte Ajoute *)
| RSystemError.                                   (* Erreur Systeme *)

Record DmText := mkDm {
  dm_categoryName : string;
  dm_email : string;
  dm_password : string;
  dm_expiresAt : option Z
}.

Inductive Effect :=
| Reply (toAuthor : string) (text : ReplyText)         (* message.reply *)
| DirectMessage (toAuthor : string) (text : DmText).   (* message.author.send *)

(** ** The world: the five tables, their serial counters, the clock read by
    [new Date()] and [defaultNow()], and what the transport has delivered. *)

Record World := mkWorld {
  users : list User;
  accounts : list Account;
  categories : list AccountCategory;
  botSettings : list BotSettings;
  logs : list Log;
  nextAccountId : Z;
  nextCategoryId : Z;
  nextSettingsId : Z;
  nextLogId : Z;
  clock : Z;
  outbox : list Effect
}.

Definition setAccounts (l : list Account) (n : Z) (w : World) : World :=
  mkWorld (users w) l (categories w) (botSettings w) (logs w)
          n (nextCategoryId w) (nextSettingsId w) (nextLogId w)
          (clock w) (outbox w).

Definition setCategories (l : list AccountCategory) (n : Z) (w : World) : World :=
  mkWorld (users w) (accounts w) l (botSettings w) (logs w)
          (nextAccountId w) n (nextSettingsId w) (nextLogId w)
          (clock w) (outbox w).

Definition setBotSettings (l : list BotSettings) (n : Z) (w : World) : World :=
  mkWorld (users w) (accounts w) (categories w) l (logs w)
          (nextAccountId w) (nextCategoryId w) n (nextLogId w)
          (clock w) (outbox w).

Definition setLogs (l : list Log) (n : Z) (w : World) : World :=
  mkWorld (users w) (accounts w) (categories w) (botSettings w) l
          (nextAccountId w) (nextCategoryId w) (nextSettingsId w) n
          (clock w) (outbox w).

Definition setOutbox (l : list Effect) (w : World) : World :=
  mkWorld (users w) (accounts w) (categories w) (botSettings w) (logs w)
          (nextAccountId w) (nextCategoryId w) (nextSettingsId w) (nextLogId w)
          (clock w) l.

(** Time passing between two handlers. *)
Definition setClock (t : Z) (w : World) : World :=
  mkWorld (users w) (accounts w) (categories w) (botSettings w) (logs w)
          (nextAccountId w) (nextCategoryId w) (nextSettingsId w) (nextLogId w)
          t (outbox w).

(** ** Asynchronous programs

    A rejected promise is [Throw]; [tryCatch] is [try { .. } catch (e) { .. }]. *)

Inductive Exn :=
| ZodError (message : string)     (* error instanceof z.ZodError *)
| Error (message : string).       (* any other Error *)

Definition exnMessage (e : Exn) : string :=
  match e with ZodError m => m | Error m => m end.

Inductive Result (A : Type) : Type :=
| Ok (a : A)
| Err (e : Exn).

Arguments Ok {A} a.
Arguments Err {A} e.

Inductive Prog (A : Type) : Type :=
| Ret (a : A)
| Throw (e : Exn)
| Await (X : Type) (call : World -> X * World) (k : X -> Prog A).

Arguments Ret {A} a.
Arguments Throw {A} e.
Arguments Await {A X} call k.

Fixpoint bind {A B : Type} (p : Prog A) (f : A -> Prog B) : Prog B :=
  match p with
  | Ret a => f a
  | Throw e => Throw e
  | Await call k => Await call (fun x => bind (k x) f)
  end.

Fixpoint tryCatch {A : Type} (p : Prog A) (handler : Exn -> Prog A) : Prog A :=
  match p with
  | Ret a => Ret a
  | Throw e => handler e
  | Await call k => Await call (fun x => tryCatch (k x) handler)
  end.

Definition await {X : Type} (call : World -> X * World) : Prog X :=
  Await call Ret.

Notation "x <- p ;; q" := (bind p (fun x => q))
  (at level 61, p at next level, right associativity).
Notation "p ;;; q" := (bind p (fun _ => q))
  (at level 61, right associativity).
Infix "+++" := String.append (at level 60, right associativity).

(** Running a handler alone, from its first call to its return. *)
Fixpoint run {A : Type} (p : Prog A) (w : World) : Result A * World :=
  match p with
  | Ret a => (Ok a, w)
  | Throw e => (Err e, w)
  | Await call k => let (x, w') := call w in run (k x) w'
  end.

(** One scheduling step: the next awaited call, if any. *)
Definition step {A : Type} (p : Prog A) (w : World) : Prog A * World :=
  match p with
  | Await call k => let (x, w') := call w in (k x, w')
  | _ => (p, w)
  end.

Fixpoint steps {A : Type} (n : nat) (p : Prog A) (w : World) : Prog A * World :=
  match n with
  | O => (p, w)
  | S n' => let (p', w') := step p w in steps n' p' w'
  end.

(** The number of calls a handler makes when it runs alone from [w]. *)
Fixpoint calls {A : Type} (p : Prog A) (w : World) : nat :=
  match p with
  | Await call k => let (x, w') := call w in S (calls (k x) w')
  | _ => O
  end.

(** Two handlers in flight; the schedule says which one performs the next
    call ([true]: the first). *)
Fixpoint interleave {A B : Type} (schedule : list bool)
    (p1 : Prog A) (p2 : Prog B) (w : World) : Prog A * Prog B * World :=
  match schedule with
  | [] => (p1, p2, w)
  | true :: s => let (p1', w') := step p1 w in interleave s p1' p2 w'
  | false :: s => let (p2', w') := step p2 w in interleave s p1 p2' w'
  end.

(** ** server/storage.ts: [DatabaseStorage]

    One definition per SQL statement ([World -> X * World]), and the methods
    of the class as the programs that await them. *)

Record AccountFilters := mkFilters {
  f_categoryId : option Z;
  f_status : option string;
  f_search : option string
}.

(** A non-empty string is truthy. *)
Definition truthy (s : string) : bool := negb (isEmpty s).

Definition insertLog (l : InsertLog) (w : World) : Log * World :=
  let row := mkLog (nextLogId w) (il_type l) (il_action l) (il_message l)
                   (il_metadata l) (il_userId l) (clock w) in
  (row, setLogs (logs w ++ [row]) (nextLogId w + 1) w).

Definition createLog (l : InsertLog) : Prog Log := await (insertLog l).

Definition selectUserByUsername (username : string) (w : World)
  : option User * World :=
  (find (fun u => String.eqb (usr_username u) username) (users w), w).

Definition getUserByUsername (username : string) : Prog (option User) :=
  await (selectUserByUsername username).

Definition selectAccountsById (id : Z) (w : World) : list Account * World :=
  (filter (fun a => Z.eqb (acc_id a) id) (accounts w), w).

Definition orElse {A : Type} (o : option A) (d : A) : A :=
  match o with Some x => x | None => d end.

(** [.set({ ...updateData, updatedAt: now })] on one row *)
Definition applyUpdate (u : AccountUpdate) (now : Z) (a : Account) : Account :=
  mkAccount (acc_id a)
            (orElse (up_email u) (acc_email a))
            (orElse (up_password u) (acc_password a))
            (orElse (up_categoryId u) (acc_categoryId a))
            (orElse (up_status u) (acc_status a))
            (orElse (up_expiresAt u) (acc_expiresAt a))
            (orElse (up_generatedBy u) (acc_generatedBy a))
            (orElse (up_generatedAt u) (acc_generatedAt a))
            (acc_createdAt a)
            now.

(** The table after [update accounts set .. where id = ?]: the rows of
    other ids stay where they are, and the new versions of the rows of the
    id come after them. *)
Definition updatedTable (id : Z) (u : AccountUpdate) (now : Z)
    (rows : list Account) : list Account :=
  filter (fun a => negb (Z.eqb (acc_id a) id)) rows ++
  map (applyUpdate u now) (filter (fun a => Z.eqb (acc_id a) id) rows).

(** The values of a 32-bit [integer] column. *)
Definition int4 (z : Z) : bool := ((-2147483648 <=? z) && (z <=? 2147483647))%Z.

(** [category_id] is the integer column an account payload can write. *)
Definition acceptedUpdate (u : AccountUpdate) : bool :=
  match up_categoryId u with
  | Some c => int4 c
  | None => true
  end.

(** A statement that the database rejects: a call that leaves the world as
    it is and throws. *)
Definition rejected {A : Type} (message : string) : Prog A :=
  Await (fun w => (tt, w)) (fun _ => Throw (Error message)).

(** What an accepted [update accounts set .. where id = ? returning *]
    does: it returns the new versions of the rows of the id. *)
Definition updateRowsById (id : Z) (u : AccountUpdate) (w : World)
  : list Account * World :=
  (map (applyUpdate u (clock w)) (filter (fun a => Z.eqb (acc_id a) id) (accounts w)),
   setAccounts (updatedTable id u (clock w) (accounts w)) (nextAccountId w) w).

(** [update accounts set .. where id = ? returning *] *)
Definition updateAccountsById (id : Z) (u : AccountUpdate) : Prog (list Account) :=
  if acceptedUpdate u then await (updateRowsById id u)
  else rejected "value is out of range for type integer".

Definition updateAccount (id : Z) (updateData : AccountUpdate)
  : Prog (option Account) :=
  found <- await (selectAccountsById id) ;;
  match found with
  | [] => Ret None
  | _ :: _ =>
      updated <- updateAccountsById id updateData ;;
      match updated with
      | [] =>
          (* updatedAccount is undefined *)
          Throw (Error "Cannot read properties of undefined (reading 'email')")
      | updatedAccount :: _ =>
          createLog (logEntry "info" "ACCOUNT_UPDATED"
            ("Account updated: " +++ acc_email updatedAccount +++ " (" +++
             showZ (acc_id updatedAccount) +++ ")")) ;;;
          Ret (Some updatedAccount)
      end
  end.

Definition insertAccount (i : InsertAccount) (w : World) : Account * World :=
  let row := mkAccount (nextAccountId w) (ia_email i) (ia_password i)
                       (ia_categoryId i) (orElse (ia_status i) "available")
                       (ia_expiresAt i) (ia_generatedBy i) (ia_generatedAt i)
                       (clock w) (clock w) in
  (row, setAccounts (accounts w ++ [row]) (nextAccountId w + 1) w).

Definition createAccount (insertAccount0 : InsertAccount) : Prog Account :=
  account <- await (insertAccount insertAccount0) ;;
  createLog (logEntry "info" "ACCOUNT_CREATED"
    ("Account created: " +++ acc_email account +++ " (" +++
     showZ (acc_id account) +++ ")")) ;;;
  Ret account.

Definition selectCategoryByName (name : string) (w : World)
  : option AccountCategory * World :=
  (find (fun c => String.eqb (toLowerCase (cat_name c)) (toLowerCase name))
        (categories w), w).

Definition getCategoryByName (name : string) : Prog (option AccountCategory) :=
  await (selectCategoryByName name).

Definition getCategories : Prog (list AccountCategory) :=
  await (fun w => (categories w, w)).

Definition insertCategory (i : InsertAccountCategory) (w : World)
  : AccountCategory * World :=
  let row := mkCategory (nextCategoryId w) (icat_name i) (icat_description i)
                        (clock w) in
  (row, setCategories (categories w ++ [row]) (nextCategoryId w + 1) w).

Definition createCategory (i : InsertAccountCategory) : Prog AccountCategory :=
  await (insertCategory i).

Definition selectBotSettings (guildId : string) (w : World)
  : option BotSettings * World :=
  (find (fun s => String.eqb (bs_guildId s) guildId) (botSettings w), w).

Definition getBotSettings (guildId : string) : Prog (option BotSettings) :=
  await (selectBotSettings guildId).

Definition insertBotSettings (i : InsertBotSettings) (w : World)
  : BotSettings * World :=
  let row := mkBotSettings (nextSettingsId w) (ibs_guildId i) (ibs_prefix i)
                           (ibs_allowedRoles i) (ibs_adminRoles i)
                           (ibs_cooldown i) (clock w) (clock w) in
  (row, setBotSettings (botSettings w ++ [row]) (nextSettingsId w + 1) w).

Definition createBotSettings (i : InsertBotSettings) : Prog BotSettings :=
  await (insertBotSettings i).

(** [new Date()]: reads the clock.  It is a call that leaves the world as
    it is; a schedule may switch handlers there, to no effect, since no
    handler sets the clock. *)
Definition newDate : Prog Z := await (fun w => (clock w, w)).

(** ** Transport calls *)

Definition reply (m : Message) (text : ReplyText) : Prog unit :=
  await (fun w => (tt, setOutbox (outbox w ++ [Reply (author_id m) text]) w)).

Definition deliver (m : Message) (text : DmText) (w : World) : bool * World :=
  if acceptsDM m
  then (true, setOutbox (outbox w ++ [DirectMessage (author_id m) text]) w)
  else (false, w).

(** [message.author.send(..)] *)
Definition send (m : Message) (text : DmText) : Prog unit :=
  delivered <- await (deliver m text) ;;
  if (delivered : bool) then Ret tt
  else Throw (Error "Cannot send messages to this user").

(** ** Scenarios

    Concrete data for the examples: one guild whose settings allow everyone
    (cooldown 3600 s), one guild that allows a single role, the category
    Streaming, and a clock at 100 s. *)

Definition noLike (subject pattern : string) : bool := false.
Definition noScrypt (password salt : string) : list Z := [].
Definition idle1 (m : Message) : Prog unit := Ret tt.
Definition idle2 {X : Type} (m : Message) (x : X) : Prog unit := Ret tt.
Definition idle3 {X Y : Type} (m : Message) (x : X) (y : Y) : Prog unit := Ret tt.

Definition streaming : AccountCategory := mkCategory 1 "Streaming" None 0.

Definition guildOne : Guild := mkGuild "g1" "Guild One".
Definition guildTwo : Guild := mkGuild "g2" "Guild Two".

Definition openSettings : BotSettings :=
  mkBotSettings 1 "g1" "!" (Some []) (Some []) 3600 0 0.
Definition membersOnly : BotSettings :=
  mkBotSettings 2 "g2" "!" (Some ["member"]) (Some []) 3600 0 0.

Definition accountA : Account :=
  mkAccount 1 "a@x.com" "pw1" 1 "available" None None None 10000 10000.
Definition accountB : Account :=
  mkAccount 2 "b@x.com" "pw2" 1 "available" None None None 20000 20000.
Definition accountC : Account :=
  mkAccount 3 "c@x.com" "pw3" 1 "available" None None None 30000 30000.
(** Stored as available, expired since 50 s. *)
Definition accountOld : Account :=
  mkAccount 1 "old@x.com" "pw0" 1 "available" (Some 50000) None None 10000 10000.

Definition legacyAdmin : User := mkUser 1 "admin" "admin123" true 0.

Definition stock (rows : list Account) : World :=
  mkWorld [legacyAdmin] rows [streaming] [openSettings; membersOnly] []
          10 2 3 1 100000 [].

Definition requester (id tag : string) (dm : bool) : Message :=
  mkMessage false id tag (Some guildOne) (Some (mkMember [] false))
            "!generate streaming" dm.

Definition userOne : Message := requester "U1" "U1#0001" true.
Definition userTwo : Message := requester "U2" "U2#0002" true.
(** A requester who refuses private messages. *)
Definition userClosed : Message := requester "U3" "U3#0003" false.
(** A requester of the second guild who holds none of its roles. *)
Definition outsider : Message :=
  mkMessage false "U4" "U4#0004" (Some guildTwo) (Some (mkMember [] false))
            "!generate streaming" true.
Definition guildAdmin : Message :=
  mkMessage false "U5" "U5#0005" (Some guildOne) (Some (mkMember [] true))
            "!add netflix john@example.com:password123" true.
Definition chatter : Message :=
  mkMessage false "U1" "U1#0001" (Some guildOne) (Some (mkMember [] false))
            "!hello there" true.

(** The first message of a guild without settings, and the row it gets. *)
Definition newcomer : Message :=
  mkMessage false "U6" "U6#0006" (Some (mkGuild "g3" "Guild Three"))
            (Some (mkMember [] false)) "!hello there" true.
Definition defaultSettings : InsertBotSettings :=
  mkInsertBotSettings "g3" "!" (Some []) (Some []) 3600.
Definition firstSettings (w : World) : BotSettings :=
  fst (insertBotSettings defaultSettings w).

(** Both claims select before either marks. *)
Definition raceSchedule : list bool :=
  repeat true 3 ++ repeat false 3 ++ repeat true 7 ++ repeat false 7.

(** The payload of the dashboard's restock action:
    [{ status: 'available', generatedAt: null, generatedBy: null }]. *)
Definition restockUpdate : AccountUpdate :=
  mkAccountUpdate None None None (Some "available") None (Some None) (Some None).

Section Model.

(** What the sources take from outside the repository: the [LIKE] operator
    of the database ([subject], [pattern]), the configured owner
    ([process.env.DISCORD_OWNER_ID]) and [scrypt] with a 64-byte key. *)
Variable sqlLike : string -> string -> bool.
Variable ownerId : option string.
Variable scrypt : string -> string -> list Z.

(** The condition of the query [getAccounts] builds.  The method calls
    [query.where(..)] once per filter that is present and never [and(..)];
    each call sets the condition of the query anew, so the condition that
    reaches the database is that of the last filter present: the search,
    else the status, else the category.  ([MemStorage.getAccounts] narrows
    the rows filter by filter instead.) *)
Definition matchesFilters (filters : option AccountFilters) (a : Account) : bool :=
  match filters with
  | None => true
  | Some f =>
      let query0 := fun _ : Account => true in
      let query1 :=
        match f_categoryId f with
        | Some c => fun a => Z.eqb (acc_categoryId a) c
        | None => query0
        end in
      let query2 :=
        match f_status f with
        | Some s =>
            if truthy s && negb (String.eqb s "all")
            then fun a => String.eqb (acc_status a) s
            else query1
        | None => query1
        end in
      let query3 :=
        match f_search f with
        | Some q =>
            if truthy q
            then fun a =>
                   sqlLike (toLowerCase (acc_email a)) ("%" +++ toLowerCase q +++ "%")
            else query2
        | None => query2
        end in
      query3 a
  end.

Definition selectAccounts (filters : option AccountFilters) (w : World)
  : list Account * World :=
  (filter (matchesFilters filters) (accounts w), w).

Definition getAccounts (filters : option AccountFilters) : Prog (list Account) :=
  await (selectAccounts filters).

(** ** server/discordBot.ts *)

Definition memberHasRole (m : Message) (roleId : string) : bool :=
  match member m with
  | Some mem => existsb (String.eqb roleId) (mem_roles mem)
  | None => false
  end.

Definition memberIsAdministrator (m : Message) : bool :=
  match member m with
  | Some mem => mem_administrator mem
  | None => false
  end.

Definition isAdmin (m : Message) : Prog bool :=
  match guild m with
  | None =>
      Ret (match ownerId with
           | Some owner => String.eqb (author_id m) owner
           | None => false
           end)
  | Some g =>
      settings <- getBotSettings (guild_id g) ;;
      match settings with
      | None => Ret (memberIsAdministrator m)
      | Some s =>
          match bs_adminRoles s with
          | None | Some [] => Ret (memberIsAdministrator m)
          | Some adminRoles =>
              Ret (existsb (memberHasRole m) adminRoles
                   || memberIsAdministrator m)
          end
      end
  end.

Definition hasPermission (m : Message) : Prog bool :=
  match guild m with
  | None => Ret true
  | Some g =>
      settings <- getBotSettings (guild_id g) ;;
      match settings with
      | None => Ret true
      | Some s =>
          match bs_allowedRoles s with
          | None | Some [] => Ret true
          | Some allowedRoles =>
              if existsb (memberHasRole m) allowedRoles then Ret true
              else isAdmin m
          end
      end
  end.

Definition generatedUpdate (by_ : string) (at_ : Z) : AccountUpdate :=
  mkAccountUpdate None None None (Some "generated") None
                  (Some (Some by_)) (Some (Some at_)).

(** The payload of the revert after a failed private delivery:
    [{ status: "available" }]. *)
Definition revertUpdate : AccountUpdate :=
  mkAccountUpdate None None None (Some "available") None None None.

Definition handleGenerateCommand (m : Message) (args : list string)
    (settings : BotSettings) : Prog unit :=
  allowed <- hasPermission m ;;
  if negb allowed then reply m RAccessDenied
  else
    match option_map toLowerCase (nth_error args 0) with
    | None => reply m (RGenerateUsage (bs_prefix settings))
    | Some serviceName =>
        if isEmpty serviceName then reply m (RGenerateUsage (bs_prefix settings))
        else
          tryCatch
            (category <- getCategoryByName serviceName ;;
             match category with
             | None =>
                 categories <- getCategories ;;
                 reply m (RServiceNotFound serviceName (map cat_name categories))
             | Some category =>
                 accounts <- getAccounts
                   (Some (mkFilters (Some (cat_id category)) (Some "available") None)) ;;
                 match accounts with
                 | [] =>
                     createLog (logEntry "warning" "ACCOUNT_GENERATION_FAILED"
                       ("No available accounts for " +++ serviceName)) ;;;
                     reply m (RStockExhausted (cat_name category))
                 | account :: _ =>
                     now <- newDate ;;
                     updateAccount (acc_id account)
                       (generatedUpdate (author_tag m) now) ;;;
                     createLog (logEntry "success" "ACCOUNT_GENERATED"
                       ("Account generated for " +++ author_tag m +++ ": " +++
                        acc_email account +++ " (" +++ cat_name category +++ ")")) ;;;
                     tryCatch
                       (send m (mkDm (cat_name category) (acc_email account)
                                     (acc_password account) (acc_expiresAt account)) ;;;
                        reply m (RGenerated (cat_name category)))
                       (fun _ =>
                          updateAccount (acc_id account) revertUpdate ;;;
                          reply m RDmError)
                 end
             end)
            (fun error =>
               createLog (logEntry "error" "ACCOUNT_GENERATION_ERROR"
                 ("Error generating account: " +++ exnMessage error)) ;;;
               reply m RSystemError)
    end.

Definition handleAddCommand (m : Message) (args : list string)
    (settings : BotSettings) : Prog unit :=
  admin <- isAdmin m ;;
  if negb admin then reply m RAdminDenied
  else
    match args with
    | serviceName :: accountDetails :: _ =>
        if negb (includes ":" accountDetails) then reply m RAddBadFormat
        else
          match splitOn ":" accountDetails with
          | email :: password :: _ =>
              tryCatch
                (found <- getCategoryByName serviceName ;;
                 category <-
                   match found with
                   | Some c => Ret c
                   | None =>
                       createCategory
                         (mkInsertCategory serviceName
                            (Some (serviceName +++ " accounts")))
                   end ;;
                 createAccount
                   (mkInsertAccount email password (cat_id category)
                      (Some "available") None None None) ;;;
                 createLog (logEntry "success" "ACCOUNT_ADDED"
                   ("Admin " +++ author_tag m +++ " added account: " +++ email +++
                    " (" +++ cat_name category +++ ")")) ;;;
                 reply m (RAccountAdded serviceName email))
                (fun error =>
                   createLog (logEntry "error" "ACCOUNT_ADD_ERROR"
                     ("Error adding account: " +++ exnMessage error)) ;;;
                   reply m RSystemError)
          | _ =>
              (* no second piece: excluded by the test on ':' above *)
              Throw (Error "password is undefined")
          end
    | _ => reply m (RAddUsage (bs_prefix settings))
    end.

(** The settings of the scope of a message: the guild's row, created with
    the defaults on the first message of a guild, or the defaults of a
    direct message. *)
Definition resolveSettings (m : Message) : Prog BotSettings :=
  match guild m with
  | Some g =>
      settings <- getBotSettings (guild_id g) ;;
      match settings with
      | Some s => Ret s
      | None => createBotSettings (mkInsertBotSettings (guild_id g) "!" (Some []) (Some []) 3600)
      end
  | None =>
      now <- newDate ;;
      Ret (mkBotSettings 0 "dm" "!" (Some []) (Some []) 3600 now now)
  end.

Definition knownCommands : list string :=
  ["generate"; "stock"; "add"; "status"; "help"; "profile"; "cooldown";
   "info"; "remove"; "blacklist"; "setcooldown"].

Section Router.

(** The handlers of the commands that no property below is about; the
    dispatch is verified for any implementation of them. *)
Variable handleStockCommand : Message -> list string -> Prog unit.
Variable handleStatusCommand : Message -> Prog unit.
Variable handleHelpCommand : Message -> string -> Prog unit.
Variable handleProfileCommand : Message -> Prog unit.
Variable handleCooldownCommand : Message -> BotSettings -> Prog unit.
Variable handleInfoCommand : Message -> list string -> Prog unit.
Variable handleRemoveCommand : Message -> list string -> BotSettings -> Prog unit.
Variable handleBlacklistCommand : Message -> list string -> Prog unit.
Variable handleSetCooldownCommand : Message -> list string -> BotSettings -> Prog unit.

(** [switch (command)], [command] being [args.shift()?.toLowerCase()]. *)
Definition dispatch (m : Message) (command : option string) (args : list string)
    (settings : BotSettings) : Prog unit :=
  match command with
  | None => Ret tt
  | Some c =>
      if String.eqb c "generate" then handleGenerateCommand m args settings
      else if String.eqb c "stock" then handleStockCommand m args
      else if String.eqb c "add" then handleAddCommand m args settings
      else if String.eqb c "status" then handleStatusCommand m
      else if String.eqb c "help" then handleHelpCommand m (bs_prefix settings)
      else if String.eqb c "profile" then handleProfileCommand m
      else if String.eqb c "cooldown" then handleCooldownCommand m settings
      else if String.eqb c "info" then handleInfoCommand m args
      else if String.eqb c "remove" then handleRemoveCommand m args settings
      else if String.eqb c "blacklist" then handleBlacklistCommand m args
      else if String.eqb c "setcooldown" then handleSetCooldownCommand m args settings
      else Ret tt
  end.

(** The parsed command of a message text, given the prefix. *)
Definition parseCommand (prefix text : string) : option string * list string :=
  let args := splitSpaces (trim (slice (String.length prefix) text)) in
  (option_map toLowerCase (hd_error args), tl args).

(** [client.on(Events.MessageCreate, ..)] *)
Definition onMessage (m : Message) : Prog unit :=
  tryCatch
    (if author_bot m then Ret tt
     else
       settings <- resolveSettings m ;;
       let prefix := bs_prefix settings in
       if negb (startsWith (content m) prefix) then Ret tt
       else
         let (command, args) := parseCommand prefix (content m) in
         dispatch m command args settings)
    (fun error =>
       createLog (logEntry "error" "BOT_ERROR"
         ("Error processing message: " +++ exnMessage error)) ;;;
       Ret tt).

End Router.

(** ** server/auth.ts *)

Definition hexVal (c : ascii) : option Z :=
  let n := Z.of_nat (nat_of_ascii c) in
  if ((48 <=? n) && (n <=? 57))%Z then Some (n - 48)
  else if ((97 <=? n) && (n <=? 102))%Z then Some (n - 87)
  else if ((65 <=? n) && (n <=? 70))%Z then Some (n - 55)
  else None.

(** [Buffer.from(s, "hex")]: whole pairs of hex digits, up to the first
    pair that is not one. *)
Fixpoint bufferFromHex (s : string) : list Z :=
  match s with
  | String a (String b r) =>
      match hexVal a, hexVal b with
      | Some x, Some y => (16 * x + y) :: bufferFromHex r
      | _, _ => []
      end
  | _ => []
  end.

Fixpoint bufferEqb (a b : list Z) : bool :=
  match a, b with
  | [], [] => true
  | x :: a', y :: b' => Z.eqb x y && bufferEqb a' b'
  | _, _ => false
  end.

(** [crypto.timingSafeEqual]: throws on buffers of different lengths. *)
Definition timingSafeEqual (a b : list Z) : Prog bool :=
  if Nat.eqb (List.length a) (List.length b) then Ret (bufferEqb a b)
  else Throw (Error "Input buffers must have the same byte length").

Definition comparePasswords (supplied stored : string) : Prog bool :=
  if negb (includes "." stored) then Ret (String.eqb supplied stored)
  else
    let parts := splitOn "." stored in
    let hashed := nth 0 parts "" in
    let salt := nth 1 parts "" in
    let hashedBuf := bufferFromHex hashed in
    let suppliedBuf := scrypt supplied salt in
    timingSafeEqual hashedBuf suppliedBuf.

Record LoginBody := mkLoginBody {
  body_username : option string;
  body_password : option string
}.

(** [loginSchema.parse(req.body)]; the message is that of the first issue. *)
Definition loginSchema_parse (body : LoginBody) : Prog (string * string) :=
  match body_username body with
  | None => Throw (ZodError "Required")
  | Some username =>
      if isEmpty username then Throw (ZodError "Username is required")
      else
        match body_password body with
        | None => Throw (ZodError "Required")
        | Some password =>
            if isEmpty password then Throw (ZodError "Password is required")
            else Ret (username, password)
        end
  end.

Record SessionUser := mkSessionUser {
  su_id : Z;
  su_username : string;
  su_isAdmin : bool
}.

Inductive Response :=
| Status200 (user : SessionUser)      (* { success: true, user } *)
| Status400 (message : string)
| Status401                           (* Invalid username or password *)
| Status500.                          (* An error occurred during login *)

(** [login]: the response and what [req.session.user] holds afterwards. *)
Definition login (body : LoginBody) : Prog (Response * option SessionUser) :=
  tryCatch
    (parsed <- loginSchema_parse body ;;
     let (username, password) := (parsed : string * string) in
     user <- getUserByUsername username ;;
     match user with
     | None => Ret (Status401, None)
     | Some user =>
         isValidPassword <- comparePasswords password (usr_password user) ;;
         if negb isValidPassword then Ret (Status401, None)
         else
           let sessionUser :=
             mkSessionUser (usr_id user) (usr_username user) (usr_isAdmin user) in
           createLog (mkInsertLog "success" "USER_LOGIN"
             ("User " +++ usr_username user +++ " logged in")
             None (Some (usr_id user))) ;;;
           Ret (Status200 sessionUser, Some sessionUser)
     end)
    (fun error =>
       match error with
       | ZodError message => Ret (Status400 message, None)
       | Error _ => Ret (Status500, None)
       end).

(** ** Words of the specification, for comparison with the code *)

(** An account is past its expiry at time [now]. *)
Definition expiredAt (now : Z) (a : Account) : bool :=
  match acc_expiresAt a with
  | Some t => (t <? now)%Z
  | None => false
  end.

(** [RemainingCooldown = max(0, cooldownSeconds - (now - lastClaim))],
    times in seconds. *)
Definition spec_RemainingCooldown (cooldownSeconds lastClaim now : Z) : Z :=
  Z.max 0 (cooldownSeconds - (now - lastClaim)).

(** The status invariant of an account. *)
Definition statusInvariant (a : Account) : Prop :=
  (acc_status a = "available" <->
     acc_generatedBy a = None /\ acc_generatedAt a = None) /\
  (acc_status a = "generated" <->
     acc_generatedBy a <> None /\ acc_generatedAt a <> None).

(** [a] comes before [b] in FIFO order: older [createdAt], then lower id. *)
Definition fifoBefore (a b : Account) : bool :=
  ((acc_createdAt a <? acc_createdAt b) ||
   ((acc_createdAt a =? acc_createdAt b) && (acc_id a <=? acc_id b)))%Z.

(** The rows of a table come in creation order. *)
Fixpoint inCreationOrder (rows : list Account) : bool :=
  match rows with
  | [] => true
  | a :: l => forallb (fifoBefore a) l && inCreationOrder l
  end.

(** ** Observations on a world *)

(** How a handler that ran alone ended. *)
Definition settle {A : Type} (p : Prog A) (w : World) : Prog A :=
  match fst (run p w) with Ok a => Ret a | Err e => Throw e end.

(** What [isAdmin] and [hasPermission] answer for a message in a world. *)
Definition adminAt (w : World) (m : Message) : bool :=
  match fst (run (isAdmin m) w) with Ok b => b | Err _ => false end.

Definition permittedAt (w : World) (m : Message) : bool :=
  match fst (run (hasPermission m) w) with Ok b => b | Err _ => false end.

(** The [allowedRoles] list of the scope of a message: empty outside a
    guild, for a guild without settings and for a null column. *)
Definition scopeAllowedRoles (w : World) (m : Message) : list string :=
  match guild m with
  | None => []
  | Some g =>
      match fst (selectBotSettings (guild_id g) w) with
      | None => []
      | Some s => orElse (bs_allowedRoles s) []
      end
  end.

(** The filter of [handleGenerateCommand] for a category. *)
Definition availableIn (c : AccountCategory) : option AccountFilters :=
  Some (mkFilters (Some (cat_id c)) (Some "available") None).

(** The accounts [handleGenerateCommand] chooses from: what its query
    returns. *)
Definition candidates (w : World) (c : AccountCategory) : list Account :=
  fst (selectAccounts (availableIn c) w).

(** The accounts of a category whose stored status is 'available', in the
    order of the table. *)
Definition availableOf (w : World) (c : AccountCategory) : list Account :=
  filter (fun a => Z.eqb (acc_categoryId a) (cat_id c)
                   && String.eqb (acc_status a) "available") (accounts w).

(** Every account of the table whose stored status is 'available' belongs
    to the category. *)
Definition noOtherStock (w : World) (c : AccountCategory) : bool :=
  forallb (fun a => negb (String.eqb (acc_status a) "available")
                    || Z.eqb (acc_categoryId a) (cat_id c)) (accounts w).

(** A table with the rows of one id rewritten where they stand. *)
Definition rewrittenTable (id : Z) (u : AccountUpdate) (now : Z)
    (rows : list Account) : list Account :=
  map (fun a => if Z.eqb (acc_id a) id then applyUpdate u now a else a) rows.

(** The type and the action of a log entry. *)
Definition logKind (l : Log) : string * string := (log_type l, log_action l).

(** The private message that carries an account. *)
Definition credentials (c : AccountCategory) (a : Account) : DmText :=
  mkDm (cat_name c) (acc_email a) (acc_password a) (acc_expiresAt a).

Definition isReply (e : Effect) : bool :=
  match e with Reply _ _ => true | DirectMessage _ _ => false end.

Definition replyCount (l : list Effect) : nat := List.length (filter isReply l).

(** The log entries each reply of [handleGenerateCommand] comes with, by
    type and action, in the order they are appended. *)
Definition entriesWith (text : ReplyText) : list (string * string) :=
  match text with
  | RStockExhausted _ => [("warning", "ACCOUNT_GENERATION_FAILED")]
  | RGenerated _ => [("info", "ACCOUNT_UPDATED"); ("success", "ACCOUNT_GENERATED")]
  | RDmError =>
      [("info", "ACCOUNT_UPDATED"); ("success", "ACCOUNT_GENERATED");
       ("info", "ACCOUNT_UPDATED")]
  | _ => []
  end.

(** ** Running programs *)

Lemma run_bind {A B : Type} (p : Prog A) (f : A -> Prog B) (w : World) :
  run (bind p f) w =
  match run p w with
  | (Ok a, w') => run (f a) w'
  | (Err e, w') => (Err e, w')
  end.
Proof.
  revert w; induction p as [a | e | X call k IH]; intros w; simpl; auto.
  destruct (call w) as [x w']. apply IH.
Qed.

Lemma run_tryCatch {A : Type} (p : Prog A) (h : Exn -> Prog A) (w : World) :
  run (tryCatch p h) w =
  match run p w with
  | (Ok a, w') => (Ok a, w')
  | (Err e, w') => run (h e) w'
  end.
Proof.
  revert w; induction p as [a | e | X call k IH]; intros w; simpl; auto.
  destruct (call w) as [x w']. apply IH.
Qed.

Lemma run_await {X : Type} (call : World -> X * World) (w : World) :
  run (await call) w = (Ok (fst (call w)), snd (call w)).
Proof. unfold await; simpl. destruct (call w); reflexivity. Qed.

Lemma calls_bind {A B : Type} (p : Prog A) (f : A -> Prog B) (w : World) :
  calls (bind p f) w =
  (calls p w +
   match run p w with
   | (Ok a, w') => calls (f a) w'
   | (Err _, _) => 0
   end)%nat.
Proof.
  revert w; induction p as [a | e | X call k IH]; intros w; simpl; auto.
  destruct (call w) as [x w']. rewrite IH. reflexivity.
Qed.

Lemma calls_tryCatch {A : Type} (p : Prog A) (h : Exn -> Prog A) (w : World) :
  calls (tryCatch p h) w =
  (calls p w +
   match run p w with
   | (Ok _, _) => 0
   | (Err e, w') => calls (h e) w'
   end)%nat.
Proof.
  revert w; induction p as [a | e | X call k IH]; intros w; simpl; auto.
  destruct (call w) as [x w']. rewrite IH. reflexivity.
Qed.

Lemma run_isAdmin (m : Message) (w : World) :
  run (isAdmin m) w = (Ok (adminAt w m), w).
Proof.
  unfold adminAt, isAdmin.
  destruct (guild m) as [g|]; simpl; auto.
  destruct (find _ _) as [s|]; simpl; auto.
  destruct (bs_adminRoles s) as [[|r l]|]; simpl; auto.
Qed.

Lemma run_hasPermission (m : Message) (w : World) :
  run (hasPermission m) w = (Ok (permittedAt w m), w).
Proof.
  unfold permittedAt, hasPermission.
  destruct (guild m) as [g|] eqn:G; simpl; auto.
  destruct (find _ _) as [s|]; simpl; auto.
  destruct (bs_allowedRoles s) as [[|r l]|]; simpl; auto.
  destruct (memberHasRole m r || existsb (memberHasRole m) l); simpl; auto.
  rewrite run_isAdmin; reflexivity.
Qed.

Lemma filter_head_In {A : Type} (f : A -> bool) (l : list A) (a : A) (rest : list A) :
  filter f l = a :: rest -> In a l /\ f a = true.
Proof.
  intros H. apply filter_In. rewrite H. left; reflexivity.
Qed.

Lemma updatedTable_In (id : Z) (u : AccountUpdate) (now : Z)
    (rows : list Account) (a : Account) :
  In a rows -> acc_id a = id -> In (applyUpdate u now a) (updatedTable id u now rows).
Proof.
  intros Hin Hid. unfold updatedTable. apply in_or_app. right.
  apply in_map. apply filter_In. split; auto. apply Z.eqb_eq. exact Hid.
Qed.

(** Up to the order of the rows, an update rewrites the rows of the id and
    leaves the others alone. *)
Lemma updatedTable_rewritten (id : Z) (u : AccountUpdate) (now : Z)
    (rows : list Account) :
  Permutation (rewrittenTable id u now rows) (updatedTable id u now rows).
Proof.
  unfold rewrittenTable, updatedTable.
  induction rows as [|x l IH]; simpl; [constructor|].
  destruct (Z.eqb (acc_id x) id); simpl.
  - apply Permutation_cons_app. exact IH.
  - apply perm_skip. exact IH.
Qed.

(** [updateAccount] on the id of a stored row, with a payload the database
    accepts: the rows of that id are rewritten and one ACCOUNT_UPDATED entry
    is logged. *)
Lemma run_updateAccount (a : Account) (u : AccountUpdate) (w : World) :
  In a (accounts w) -> acceptedUpdate u = true ->
  exists a' l,
    run (updateAccount (acc_id a) u) w =
    (Ok (Some a'),
     setLogs (logs w ++ [l]) (nextLogId w + 1)
       (setAccounts (updatedTable (acc_id a) u (clock w) (accounts w))
                    (nextAccountId w) w)) /\
    logKind l = ("info", "ACCOUNT_UPDATED").
Proof.
  intros Hin Hacc. unfold updateAccount.
  rewrite run_bind, run_await. unfold selectAccountsById. simpl fst. simpl snd.
  destruct (filter (fun b => Z.eqb (acc_id b) (acc_id a)) (accounts w))
    as [|x xs] eqn:F.
  - exfalso.
    assert (In a (filter (fun b => Z.eqb (acc_id b) (acc_id a)) (accounts w))) as HI.
    { apply filter_In. split; auto. apply Z.eqb_refl. }
    rewrite F in HI. inversion HI.
  - cbv iota. unfold updateAccountsById. rewrite Hacc.
    rewrite run_bind, run_await. unfold updateRowsById. simpl fst. simpl snd.
    rewrite F. simpl map. cbv iota.
    eexists. eexists. split; [simpl; reflexivity | reflexivity].
Qed.

(** The service name [handleGenerateCommand] reads from its arguments:
    [args[0]?.toLowerCase()], when it is a non-empty string. *)
Lemma serviceName_cases (args : list string) :
  (exists n, option_map toLowerCase (nth_error args 0) = Some n /\ isEmpty n = false)
  \/ option_map toLowerCase (nth_error args 0) = None
  \/ option_map toLowerCase (nth_error args 0) = Some "".
Proof.
  destruct (option_map toLowerCase (nth_error args 0)) as [n|]; auto.
  destruct n; auto. left. eexists; split; reflexivity.
Qed.

(** *** The six ways [handleGenerateCommand] ends *)

Lemma generate_denied (m : Message) (args : list string) (s : BotSettings) (w : World) :
  permittedAt w m = false ->
  run (handleGenerateCommand m args s) w =
  (Ok tt, setOutbox (outbox w ++ [Reply (author_id m) RAccessDenied]) w).
Proof.
  intros P. unfold handleGenerateCommand.
  rewrite run_bind, run_hasPermission, P. reflexivity.
Qed.

Lemma generate_usage (m : Message) (args : list string) (s : BotSettings) (w : World) :
  permittedAt w m = true ->
  option_map toLowerCase (nth_error args 0) = None \/
  option_map toLowerCase (nth_error args 0) = Some "" ->
  run (handleGenerateCommand m args s) w =
  (Ok tt, setOutbox (outbox w ++ [Reply (author_id m) (RGenerateUsage (bs_prefix s))]) w).
Proof.
  intros P H. unfold handleGenerateCommand.
  rewrite run_bind, run_hasPermission, P. simpl negb. cbv iota.
  destruct H as [H | H]; rewrite H; reflexivity.
Qed.

Lemma generate_not_found (m : Message) (args : list string) (s : BotSettings)
    (w : World) (n : string) :
  permittedAt w m = true ->
  option_map toLowerCase (nth_error args 0) = Some n -> isEmpty n = false ->
  fst (selectCategoryByName n w) = None ->
  run (handleGenerateCommand m args s) w =
  (Ok tt, setOutbox (outbox w ++
            [Reply (author_id m) (RServiceNotFound n (map cat_name (categories w)))]) w).
Proof.
  intros P H E C. unfold handleGenerateCommand.
  rewrite run_bind, run_hasPermission, P. simpl negb. cbv iota.
  rewrite H, E. rewrite run_tryCatch, run_bind.
  unfold getCategoryByName. rewrite run_await, C. reflexivity.
Qed.

Lemma generate_exhausted (m : Message) (args : list string) (s : BotSettings)
    (w : World) (n : string) (c : AccountCategory) :
  permittedAt w m = true ->
  option_map toLowerCase (nth_error args 0) = Some n -> isEmpty n = false ->
  fst (selectCategoryByName n w) = Some c ->
  candidates w c = [] ->
  exists l,
    run (handleGenerateCommand m args s) w =
    (Ok tt, setOutbox (outbox w ++ [Reply (author_id m) (RStockExhausted (cat_name c))])
              (setLogs (logs w ++ [l]) (nextLogId w + 1) w)) /\
    logKind l = ("warning", "ACCOUNT_GENERATION_FAILED").
Proof.
  intros P H E C K. unfold handleGenerateCommand.
  rewrite run_bind, run_hasPermission, P. simpl negb. cbv iota.
  rewrite H, E. rewrite run_tryCatch, run_bind.
  unfold getCategoryByName. rewrite run_await, C.
  cbv iota. simpl snd. rewrite run_bind. unfold getAccounts. rewrite run_await.
  unfold candidates, availableIn in K. rewrite K. cbv iota.
  eexists. simpl. split; reflexivity.
Qed.

Lemma generate_delivered (m : Message) (args : list string) (s : BotSettings)
    (w : World) (n : string) (c : AccountCategory) (a : Account) (rest : list Account) :
  permittedAt w m = true ->
  option_map toLowerCase (nth_error args 0) = Some n -> isEmpty n = false ->
  fst (selectCategoryByName n w) = Some c ->
  candidates w c = a :: rest ->
  acceptsDM m = true ->
  exists l1 l2,
    run (handleGenerateCommand m args s) w =
    (Ok tt,
     setOutbox (outbox w ++ [DirectMessage (author_id m) (credentials c a);
                             Reply (author_id m) (RGenerated (cat_name c))])
       (setLogs (logs w ++ [l1; l2]) (nextLogId w + 2)
          (setAccounts
             (updatedTable (acc_id a) (generatedUpdate (author_tag m) (clock w))
                           (clock w) (accounts w))
             (nextAccountId w) w))) /\
    logKind l1 = ("info", "ACCOUNT_UPDATED") /\
    logKind l2 = ("success", "ACCOUNT_GENERATED").
Proof.
  intros P H E C K D. unfold handleGenerateCommand.
  rewrite run_bind, run_hasPermission, P. simpl negb. cbv iota.
  rewrite H, E. rewrite run_tryCatch, run_bind.
  unfold getCategoryByName. rewrite run_await, C.
  cbv iota. simpl snd. rewrite run_bind. unfold getAccounts. rewrite run_await.
  unfold candidates, availableIn in K. rewrite K. cbv iota. simpl snd.
  apply filter_head_In in K. destruct K as [Hin _].
  rewrite run_bind. unfold newDate. rewrite run_await. simpl fst. simpl snd. cbv iota.
  rewrite run_bind.
  destruct (run_updateAccount a (generatedUpdate (author_tag m) (clock w)) w Hin eq_refl)
    as (a' & l1 & R & L1).
  rewrite R. cbv iota.
  rewrite run_bind. unfold createLog at 1. rewrite run_await. cbv iota.
  rewrite run_tryCatch, run_bind. unfold send. rewrite run_bind, run_await.
  unfold deliver. rewrite D. simpl.
  eexists. eexists.
  unfold setOutbox, setLogs, setAccounts. simpl.
  rewrite <- !app_assoc. simpl.
  replace (nextLogId w + 1 + 1) with (nextLogId w + 2) by lia.
  split; [reflexivity|]. split; [exact L1 | reflexivity].
Qed.

Lemma generate_undelivered (m : Message) (args : list string) (s : BotSettings)
    (w : World) (n : string) (c : AccountCategory) (a : Account) (rest : list Account) :
  permittedAt w m = true ->
  option_map toLowerCase (nth_error args 0) = Some n -> isEmpty n = false ->
  fst (selectCategoryByName n w) = Some c ->
  candidates w c = a :: rest ->
  acceptsDM m = false ->
  exists l1 l2 l3,
    run (handleGenerateCommand m args s) w =
    (Ok tt,
     setOutbox (outbox w ++ [Reply (author_id m) RDmError])
       (setLogs (logs w ++ [l1; l2; l3]) (nextLogId w + 3)
          (setAccounts
             (updatedTable (acc_id a) revertUpdate (clock w)
                (updatedTable (acc_id a) (generatedUpdate (author_tag m) (clock w))
                              (clock w) (accounts w)))
             (nextAccountId w) w))) /\
    logKind l1 = ("info", "ACCOUNT_UPDATED") /\
    logKind l2 = ("success", "ACCOUNT_GENERATED") /\
    logKind l3 = ("info", "ACCOUNT_UPDATED").
Proof.
  intros P H E C K D. unfold handleGenerateCommand.
  rewrite run_bind, run_hasPermission, P. simpl negb. cbv iota.
  rewrite H, E. rewrite run_tryCatch, run_bind.
  unfold getCategoryByName. rewrite run_await, C.
  cbv iota. simpl snd. rewrite run_bind. unfold getAccounts. rewrite run_await.
  unfold candidates, availableIn in K. rewrite K. cbv iota. simpl snd.
  apply filter_head_In in K. destruct K as [Hin _].
  rewrite run_bind. unfold newDate. rewrite run_await. simpl fst. simpl snd. cbv iota.
  rewrite run_bind.
  destruct (run_updateAccount a (generatedUpdate (author_tag m) (clock w)) w Hin eq_refl)
    as (a' & l1 & R & L1).
  rewrite R. cbv iota.
  rewrite run_bind. unfold createLog at 1. rewrite run_await. cbv iota.
  rewrite run_tryCatch, run_bind. unfold send. rewrite run_bind, run_await.
  unfold deliver. rewrite D. simpl fst. simpl snd. cbv iota. simpl run at 1. cbv iota.
  rewrite run_bind.
  match goal with
  | |- context [run (updateAccount _ revertUpdate) ?W] =>
      assert (In (applyUpdate (generatedUpdate (author_tag m) (clock w)) (clock w) a)
                 (accounts W)) as Hin2
  end.
  { simpl. apply updatedTable_In; auto. }
  destruct (run_updateAccount _ revertUpdate _ Hin2 eq_refl) as (a'' & l3 & R2 & L3).
  simpl acc_id in R2. rewrite R2. cbv iota.
  eexists. eexists. eexists.
  unfold reply. rewrite run_await.
  unfold setOutbox, setLogs, setAccounts. simpl.
  rewrite <- !app_assoc. simpl.
  replace (nextLogId w + 1 + 1 + 1) with (nextLogId w + 3) by lia.
  split; [reflexivity|]. split; [exact L1|]. split; [reflexivity | exact L3].
Qed.

(** ** Properties *)

(** C6.  The user-level permission check answers true when the scope's
    list of allowed roles is empty, and answers false exactly when that list
    is non-empty, the requester holds none of its roles and the requester is
    not an admin.  The check reads the settings and changes nothing. *)
Theorem hasPermission_user_level (m : Message) (w : World) :
  exists allowed admin,
    run (hasPermission m) w = (Ok allowed, w) /\
    run (isAdmin m) w = (Ok admin, w) /\
    (scopeAllowedRoles w m = [] -> allowed = true) /\
    (allowed = false <->
       scopeAllowedRoles w m <> [] /\
       (forall r, In r (scopeAllowedRoles w m) -> memberHasRole m r = false) /\
       admin = false).
Proof.
  exists (permittedAt w m), (adminAt w m).
  split; [apply run_hasPermission|]. split; [apply run_isAdmin|].
  unfold permittedAt, scopeAllowedRoles, hasPermission.
  destruct (guild m) as [g|] eqn:G; simpl.
  2:{ split; auto. split; [discriminate | intros (H & _); congruence]. }
  destruct (find _ (botSettings w)) as [s|] eqn:F; simpl.
  2:{ split; auto. split; [discriminate | intros (H & _); congruence]. }
  destruct (bs_allowedRoles s) as [roles|]; simpl.
  2:{ split; auto. split; [discriminate | intros (H & _); congruence]. }
  destruct roles as [|r roles]; simpl.
  { split; auto. split; [discriminate | intros (H & _); congruence]. }
  split; [discriminate|].
  destruct (memberHasRole m r || existsb (memberHasRole m) roles) eqn:E; simpl.
  - split; [discriminate|]. intros (_ & H & _).
    apply orb_true_iff in E. destruct E as [E | E].
    + rewrite H in E by (left; reflexivity). discriminate.
    + apply existsb_exists in E. destruct E as (x & Hx & E).
      rewrite H in E by (right; exact Hx). discriminate.
  - rewrite run_isAdmin. simpl.
    apply orb_false_iff in E. destruct E as [E1 E2].
    split.
    + intros A. split; [discriminate|]. split; auto.
      intros x [Hx | Hx]; [subst; exact E1|].
      destruct (memberHasRole m x) eqn:Mx; auto.
      assert (existsb (memberHasRole m) roles = true) as C
        by (apply existsb_exists; exists x; auto).
      congruence.
    + intros (_ & _ & A). exact A.
Qed.

(** C7, as the code has it.  Every run of [handleGenerateCommand] ends
    normally with exactly one reply to the requester, placed after the
    private message if one was sent.  The log entries it appends depend on
    the outcome: none for a refusal, a missing service name or an unknown
    service; one warning ACCOUNT_GENERATION_FAILED for exhausted stock; for a
    delivered account the info ACCOUNT_UPDATED of the store, then the success
    ACCOUNT_GENERATED; and when the private delivery fails these two, then
    the ACCOUNT_UPDATED of the revert. *)
Theorem generate_one_reply_logs_by_outcome
    (m : Message) (args : list string) (s : BotSettings) (w : World) :
  exists text dms entries w',
    run (handleGenerateCommand m args s) w = (Ok tt, w') /\
    outbox w' = outbox w ++ dms ++ [Reply (author_id m) text] /\
    replyCount dms = 0%nat /\
    replyCount (outbox w') = S (replyCount (outbox w)) /\
    logs w' = logs w ++ entries /\
    map logKind entries = entriesWith text /\
    text <> RSystemError.
Proof.
  assert (forall (l d : list Effect) t, replyCount d = 0%nat ->
            replyCount (l ++ d ++ [Reply (author_id m) t]) = S (replyCount l)) as RC.
  { intros l d t Hd. unfold replyCount in *.
    rewrite !filter_app, !length_app, Hd. simpl. lia. }
  destruct (permittedAt w m) eqn:P.
  2:{ exists RAccessDenied, [], [],
             (setOutbox (outbox w ++ [Reply (author_id m) RAccessDenied]) w).
      split; [apply generate_denied; auto|].
      simpl. rewrite app_nil_r. repeat split; auto; try discriminate.
      apply (RC _ []); reflexivity. }
  destruct (serviceName_cases args) as [(n & H & E) | H].
  2:{ eexists (RGenerateUsage (bs_prefix s)), [], [], _.
      split; [apply generate_usage; auto|].
      simpl. rewrite app_nil_r. repeat split; auto; try discriminate.
      apply (RC _ []); reflexivity. }
  destruct (fst (selectCategoryByName n w)) as [c|] eqn:C.
  2:{ eexists (RServiceNotFound n _), [], [], _.
      split; [eapply generate_not_found; eauto|].
      simpl. rewrite app_nil_r. repeat split; auto; try discriminate.
      apply (RC _ []); reflexivity. }
  destruct (candidates w c) as [|a rest] eqn:K.
  { destruct (generate_exhausted m args s w n c P H E C K) as (l & R & L).
    eexists (RStockExhausted (cat_name c)), [], [l], _.
    split; [exact R|].
    simpl. rewrite L. repeat split; auto; try discriminate.
    apply (RC _ []); reflexivity. }
  destruct (acceptsDM m) eqn:D.
  - destruct (generate_delivered m args s w n c a rest P H E C K D)
      as (l1 & l2 & R & L1 & L2).
    eexists (RGenerated (cat_name c)), [DirectMessage (author_id m) (credentials c a)],
            [l1; l2], _.
    split; [exact R|].
    simpl. rewrite L1, L2. repeat split; auto; try discriminate.
    apply (RC _ [DirectMessage _ _]); reflexivity.
  - destruct (generate_undelivered m args s w n c a rest P H E C K D)
      as (l1 & l2 & l3 & R & L1 & L2 & L3).
    eexists RDmError, [], [l1; l2; l3], _.
    split; [exact R|].
    simpl. rewrite L1, L2, L3. repeat split; auto; try discriminate.
    apply (RC _ []); reflexivity.
Qed.

(** *** What the checks of a claim read *)

Lemma permittedAt_settings (w1 w2 : World) (m : Message) :
  botSettings w1 = botSettings w2 -> permittedAt w1 m = permittedAt w2 m.
Proof.
  intros H. unfold permittedAt, hasPermission, isAdmin.
  destruct (guild m) as [g|]; simpl; auto.
  rewrite H.
  destruct (find _ (botSettings w2)) as [s|] eqn:F; simpl; auto.
  destruct (bs_allowedRoles s) as [[|r l]|]; simpl; auto.
  destruct (memberHasRole m r || existsb (memberHasRole m) l); simpl; auto.
  rewrite H, F. simpl.
  destruct (bs_adminRoles s) as [[|r' l']|]; simpl; auto.
Qed.

Lemma selectCategoryByName_categories (w1 w2 : World) (n : string) :
  categories w1 = categories w2 ->
  fst (selectCategoryByName n w1) = fst (selectCategoryByName n w2).
Proof. intros H. unfold selectCategoryByName. simpl. rewrite H. reflexivity. Qed.

(** The query of a claim: the status test is the last [where], and the only
    one that reaches the database. *)
Lemma matches_availableIn (c : AccountCategory) (a : Account) :
  matchesFilters (availableIn c) a = String.eqb (acc_status a) "available".
Proof. reflexivity. Qed.

Lemma candidates_accounts (w : World) (c : AccountCategory) :
  candidates w c =
  filter (fun a => String.eqb (acc_status a) "available") (accounts w).
Proof. reflexivity. Qed.

(** Where no other category holds a status-available account, the query
    returns the status-available accounts of the category. *)
Lemma candidates_availableOf (w : World) (c : AccountCategory) :
  noOtherStock w c = true -> candidates w c = availableOf w c.
Proof.
  intros N. rewrite candidates_accounts. unfold availableOf.
  apply filter_ext_in. intros a Hin.
  unfold noOtherStock in N. rewrite forallb_forall in N. specialize (N a Hin).
  destruct (String.eqb (acc_status a) "available"); simpl in *.
  - rewrite N. reflexivity.
  - apply eq_sym, andb_false_r.
Qed.

Lemma filter_swap {A : Type} (f g : A -> bool) (l : list A) :
  filter f (filter g l) = filter g (filter f l).
Proof.
  induction l as [|x l IH]; simpl; auto.
  destruct (f x) eqn:Fx, (g x) eqn:Gx; simpl; rewrite ?Fx, ?Gx, IH; reflexivity.
Qed.

(** The candidates after the rows of one id were rewritten: the former
    candidates of the other ids, then the new versions that are
    status-available. *)
Lemma candidates_after_update (w w' : World) (c : AccountCategory)
    (id : Z) (u : AccountUpdate) (now : Z) :
  accounts w' = updatedTable id u now (accounts w) ->
  candidates w' c =
  filter (fun x => negb (Z.eqb (acc_id x) id)) (candidates w c) ++
  filter (fun a => String.eqb (acc_status a) "available")
         (map (applyUpdate u now)
              (filter (fun a => Z.eqb (acc_id a) id) (accounts w))).
Proof.
  intros H. rewrite !candidates_accounts, H. unfold updatedTable.
  rewrite filter_app. f_equal. apply filter_swap.
Qed.

(** After a claim of the rows of one id, the candidates are the former
    candidates of the other ids. *)
Lemma candidates_after_claim (w w' : World) (c : AccountCategory)
    (id : Z) (by_ : string) (at_ now : Z) :
  accounts w' = updatedTable id (generatedUpdate by_ at_) now (accounts w) ->
  candidates w' c = filter (fun x => negb (Z.eqb (acc_id x) id)) (candidates w c).
Proof.
  intros H. rewrite (candidates_after_update w w' c id _ now H).
  rewrite <- app_nil_r. f_equal.
  induction (filter (fun a => Z.eqb (acc_id a) id) (accounts w)) as [|x l IH];
    simpl; auto.
Qed.

(** C2, as the code has it.  [handleGenerateCommand] has no cooldown check
    and keeps no cooldown tracker: whatever the scope's cooldown is, a
    permitted requester who has just received an account receives the next
    status-available account of the category at any later (or equal) time.
    The time of a successful claim is recorded as [generatedAt], with the
    requester as [generatedBy], on the rows of the claimed id and on no other
    row, and the settings of the scope are left as they were.  (For a table
    whose status-available accounts all belong to the category.) *)
Theorem generate_twice_in_a_row
    (m : Message) (args : list string) (s : BotSettings) (w : World)
    (n : string) (c : AccountCategory) (a1 a2 : Account) (rest : list Account)
    (later : Z) :
  permittedAt w m = true ->
  option_map toLowerCase (nth_error args 0) = Some n -> isEmpty n = false ->
  fst (selectCategoryByName n w) = Some c ->
  noOtherStock w c = true ->
  availableOf w c = a1 :: a2 :: rest ->
  acc_id a2 <> acc_id a1 ->
  acceptsDM m = true ->
  exists w1 w2,
    run (handleGenerateCommand m args s) w = (Ok tt, w1) /\
    run (handleGenerateCommand m args s) (setClock later w1) = (Ok tt, w2) /\
    outbox w2 = outbox w ++
      [DirectMessage (author_id m) (credentials c a1);
       Reply (author_id m) (RGenerated (cat_name c));
       DirectMessage (author_id m) (credentials c a2);
       Reply (author_id m) (RGenerated (cat_name c))] /\
    In (applyUpdate (generatedUpdate (author_tag m) (clock w)) (clock w) a1)
       (accounts w1) /\
    Permutation
      (rewrittenTable (acc_id a1) (generatedUpdate (author_tag m) (clock w))
                      (clock w) (accounts w))
      (accounts w1) /\
    botSettings w1 = botSettings w /\
    botSettings w2 = botSettings w.
Proof.
  intros P H E C N K I D.
  rewrite <- (candidates_availableOf w c N) in K.
  destruct (generate_delivered m args s w n c a1 (a2 :: rest) P H E C K D)
    as (l1 & l2 & R1 & _).
  match type of R1 with _ = (_, ?W) => set (w1 := W) in R1 end.
  assert (accounts (setClock later w1) =
          updatedTable (acc_id a1) (generatedUpdate (author_tag m) (clock w))
                       (clock w) (accounts w)) as HA by reflexivity.
  assert (candidates (setClock later w1) c =
          a2 :: filter (fun x => negb (Z.eqb (acc_id x) (acc_id a1))) rest) as K2.
  { rewrite (candidates_after_claim w _ c _ _ _ _ HA), K. simpl.
    rewrite Z.eqb_refl. simpl.
    destruct (Z.eqb (acc_id a2) (acc_id a1)) eqn:Q; simpl; auto.
    apply Z.eqb_eq in Q. contradiction. }
  assert (permittedAt (setClock later w1) m = true) as P2.
  { rewrite <- P. apply permittedAt_settings. reflexivity. }
  assert (fst (selectCategoryByName n (setClock later w1)) = Some c) as C2.
  { rewrite <- C. apply selectCategoryByName_categories. reflexivity. }
  destruct (generate_delivered m args s _ n c a2 _ P2 H E C2 K2 D)
    as (k1 & k2 & R2 & _).
  exists w1. eexists. split; [exact R1|].
  split; [exact R2|].
  split.
  { simpl. rewrite <- app_assoc. reflexivity. }
  split.
  { simpl. apply updatedTable_In; auto.
    apply filter_head_In in K. destruct K as [K1 _]. exact K1. }
  split; [apply updatedTable_rewritten|].
  split; reflexivity.
Qed.

(** C3, as the code has it.  [expiresAt] is not read when a claim selects:
    the first status-available account of the category is sent whether or
    not its expiry lies in the past, and the requester is told that stock is
    exhausted exactly when the category has no status-available account.
    (For a table whose status-available accounts all belong to the
    category.) *)
Theorem generate_selects_by_stored_status
    (m : Message) (args : list string) (s : BotSettings) (w : World)
    (n : string) (c : AccountCategory) :
  permittedAt w m = true ->
  option_map toLowerCase (nth_error args 0) = Some n -> isEmpty n = false ->
  fst (selectCategoryByName n w) = Some c ->
  noOtherStock w c = true ->
  exists news,
    outbox (snd (run (handleGenerateCommand m args s) w)) = outbox w ++ news /\
    (news = [Reply (author_id m) (RStockExhausted (cat_name c))] <->
     availableOf w c = []) /\
    (forall a rest, availableOf w c = a :: rest ->
       news =
       if acceptsDM m
       then [DirectMessage (author_id m)
               (mkDm (cat_name c) (acc_email a) (acc_password a) (acc_expiresAt a));
             Reply (author_id m) (RGenerated (cat_name c))]
       else [Reply (author_id m) RDmError]).
Proof.
  intros P H E C N. rewrite <- (candidates_availableOf w c N).
  destruct (candidates w c) as [|a rest] eqn:K.
  - destruct (generate_exhausted m args s w n c P H E C K) as (l & R & _).
    rewrite R. eexists. split; [reflexivity|].
    split; [split; reflexivity | discriminate].
  - destruct (acceptsDM m) eqn:D.
    + destruct (generate_delivered m args s w n c a rest P H E C K D)
        as (l1 & l2 & R & _).
      rewrite R. eexists. split; [reflexivity|].
      split; [split; discriminate|].
      intros a' rest' Q. inversion Q; subst. reflexivity.
    + destruct (generate_undelivered m args s w n c a rest P H E C K D)
        as (l1 & l2 & l3 & R & _).
      rewrite R. eexists. split; [reflexivity|].
      split; [split; discriminate|].
      intros a' rest' Q. inversion Q; subst. reflexivity.
Qed.

(** *** Order of the candidates *)

Lemma filter_head_split {A : Type} (f : A -> bool) (l : list A) (a : A) (rest : list A) :
  filter f l = a :: rest ->
  exists pre post, l = pre ++ a :: post /\ forallb (fun x => negb (f x)) pre = true
                   /\ filter f post = rest.
Proof.
  induction l as [|x l IH]; simpl; [discriminate|].
  destruct (f x) eqn:Fx; intros H.
  - inversion H; subst. exists [], l. simpl. auto.
  - destruct (IH H) as (pre & post & -> & Hpre & Hpost).
    exists (x :: pre), post. simpl. rewrite Fx. simpl. auto.
Qed.

Lemma fifoBefore_refl (a : Account) : fifoBefore a a = true.
Proof.
  unfold fifoBefore. rewrite Z.eqb_refl, Z.leb_refl. apply orb_true_r.
Qed.

Lemma sorted_filter_head (f : Account -> bool) (l : list Account)
    (a : Account) (rest : list Account) :
  inCreationOrder l = true ->
  filter f l = a :: rest ->
  forall b, In b l -> f b = true -> fifoBefore a b = true.
Proof.
  induction l as [|x l IH]; simpl; [discriminate|].
  intros S F b Hb Fb.
  apply andb_true_iff in S. destruct S as [S1 S2].
  destruct (f x) eqn:Fx.
  - inversion F; subst.
    destruct Hb as [-> | Hb]; [apply fifoBefore_refl|].
    rewrite forallb_forall in S1. apply S1; auto.
  - destruct Hb as [-> | Hb]; [congruence|].
    apply IH; auto.
Qed.

(** C5, as the code has it.  With one or more status-available accounts
    in the category, the account sent is the first row of the accounts table,
    in the order the query returns the rows (no ORDER BY is issued), that
    belongs to the category and has stored status 'available'; expired rows
    take part.  When the table is in creation order, that row is the
    oldest-created status-available account of the category, ties broken by
    lowest id.  The choice depends on the accounts table alone.  (For a table
    whose status-available accounts all belong to the category.) *)
Theorem generate_takes_first_candidate
    (m : Message) (args : list string) (s : BotSettings) (w : World)
    (n : string) (c : AccountCategory) (a : Account) (rest : list Account) :
  permittedAt w m = true ->
  option_map toLowerCase (nth_error args 0) = Some n -> isEmpty n = false ->
  fst (selectCategoryByName n w) = Some c ->
  noOtherStock w c = true ->
  availableOf w c = a :: rest ->
  acceptsDM m = true ->
  outbox (snd (run (handleGenerateCommand m args s) w)) =
    outbox w ++ [DirectMessage (author_id m) (credentials c a);
                 Reply (author_id m) (RGenerated (cat_name c))] /\
  (exists pre post,
     accounts w = pre ++ a :: post /\
     forall b, In b pre ->
       Z.eqb (acc_categoryId b) (cat_id c) && String.eqb (acc_status b) "available"
       = false) /\
  (inCreationOrder (accounts w) = true ->
   forall b, In b (accounts w) ->
     acc_categoryId b = cat_id c -> acc_status b = "available" ->
     fifoBefore a b = true) /\
  (forall w2 s2,
     accounts w2 = accounts w -> categories w2 = categories w ->
     permittedAt w2 m = true ->
     outbox (snd (run (handleGenerateCommand m args s2) w2)) =
       outbox w2 ++ [DirectMessage (author_id m) (credentials c a);
                     Reply (author_id m) (RGenerated (cat_name c))]).
Proof.
  intros P H E C N K D.
  assert (candidates w c = a :: rest) as K'
    by (rewrite (candidates_availableOf w c N); exact K).
  split.
  { destruct (generate_delivered m args s w n c a rest P H E C K' D)
      as (l1 & l2 & R & _).
    rewrite R. reflexivity. }
  unfold availableOf in K.
  split.
  { destruct (filter_head_split _ _ _ _ K) as (pre & post & L & Hpre & _).
    exists pre, post. split; auto.
    intros b Hb. rewrite forallb_forall in Hpre.
    specialize (Hpre b Hb). apply negb_true_iff in Hpre. exact Hpre. }
  split.
  { intros S b Hb Hc Hs.
    apply (sorted_filter_head _ _ _ _ S K b Hb).
    rewrite Hc, Hs, Z.eqb_refl. reflexivity. }
  intros w2 s2 Ha Hc P2.
  assert (fst (selectCategoryByName n w2) = Some c) as C2.
  { rewrite <- C. apply selectCategoryByName_categories. exact Hc. }
  assert (candidates w2 c = a :: rest) as K2.
  { rewrite candidates_accounts, Ha, <- (candidates_accounts w c). exact K'. }
  destruct (generate_delivered m args s2 w2 n c a rest P2 H E C2 K2 D)
    as (l1 & l2 & R & _).
  rewrite R. reflexivity.
Qed.

(** *** Schedules *)

Lemma steps_calls {A : Type} (p : Prog A) (w : World) :
  steps (calls p w) p w = (settle p w, snd (run p w)).
Proof.
  revert w. induction p as [a | e | X call k IH]; intros w; simpl; auto.
  unfold settle. simpl.
  destruct (call w) as [x w'] eqn:Q. simpl. rewrite Q.
  rewrite IH. reflexivity.
Qed.

Lemma interleave_first {A B : Type} (k : nat) (sched : list bool)
    (p1 : Prog A) (p2 : Prog B) (w : World) :
  interleave (repeat true k ++ sched) p1 p2 w =
  interleave sched (fst (steps k p1 w)) p2 (snd (steps k p1 w)).
Proof.
  revert p1 w. induction k as [|k IH]; intros p1 w; simpl; auto.
  destruct (step p1 w) as [p1' w']. apply IH.
Qed.

Lemma interleave_second {A B : Type} (k : nat)
    (p1 : Prog A) (p2 : Prog B) (w : World) :
  interleave (repeat false k) p1 p2 w =
  (p1, fst (steps k p2 w), snd (steps k p2 w)).
Proof.
  revert p2 w. induction k as [|k IH]; intros p2 w; simpl; auto.
  destruct (step p2 w) as [p2' w']. apply IH.
Qed.

(** The schedule that lets the first handler finish before the second starts
    gives the same result as running them one after the other. *)
Lemma interleave_serial {A B : Type} (p1 : Prog A) (p2 : Prog B) (w : World) :
  interleave (repeat true (calls p1 w) ++ repeat false (calls p2 (snd (run p1 w))))
             p1 p2 w =
  (settle p1 w, settle p2 (snd (run p1 w)), snd (run p2 (snd (run p1 w)))).
Proof.
  rewrite interleave_first, steps_calls. simpl.
  rewrite interleave_second, steps_calls. reflexivity.
Qed.

(** C1, as the code has it.  A category holds the one status-available
    account of the table and two permitted requesters claim it.  When the
    calls of the first claim all come before the calls of the second, the
    first requester is sent the account and the second is told that stock is
    exhausted.  Selecting the account and marking it are separate calls, so
    nothing is promised here for schedules that let the two claims
    overlap. *)
Theorem generate_last_account_serial
    (m1 m2 : Message) (args1 args2 : list string) (s1 s2 : BotSettings)
    (w : World) (n : string) (c : AccountCategory) (a : Account) :
  permittedAt w m1 = true -> permittedAt w m2 = true ->
  option_map toLowerCase (nth_error args1 0) = Some n ->
  option_map toLowerCase (nth_error args2 0) = Some n ->
  isEmpty n = false ->
  fst (selectCategoryByName n w) = Some c ->
  noOtherStock w c = true ->
  availableOf w c = [a] ->
  acceptsDM m1 = true ->
  let p1 := handleGenerateCommand m1 args1 s1 in
  let p2 := handleGenerateCommand m2 args2 s2 in
  exists w2,
    interleave (repeat true (calls p1 w) ++ repeat false (calls p2 (snd (run p1 w))))
               p1 p2 w = (Ret tt, Ret tt, w2) /\
    outbox w2 = outbox w ++
      [DirectMessage (author_id m1) (credentials c a);
       Reply (author_id m1) (RGenerated (cat_name c));
       Reply (author_id m2) (RStockExhausted (cat_name c))].
Proof.
  intros P1 P2 H1 H2 E C N K D p1 p2.
  rewrite <- (candidates_availableOf w c N) in K.
  rewrite interleave_serial. unfold settle, p1, p2.
  destruct (generate_delivered m1 args1 s1 w n c a [] P1 H1 E C K D)
    as (l1 & l2 & R1 & _).
  rewrite R1. simpl fst. simpl snd.
  match goal with |- context [run _ ?W] => set (w1 := W) end.
  assert (candidates w1 c = []) as K2.
  { rewrite (candidates_after_claim w w1 c (acc_id a) (author_tag m1) (clock w) (clock w))
      by reflexivity.
    rewrite K. simpl. rewrite Z.eqb_refl. reflexivity. }
  assert (permittedAt w1 m2 = true) as P2'.
  { rewrite <- P2. apply permittedAt_settings. reflexivity. }
  assert (fst (selectCategoryByName n w1) = Some c) as C2.
  { rewrite <- C. apply selectCategoryByName_categories. reflexivity. }
  destruct (generate_exhausted m2 args2 s2 w1 n c P2' H2 E C2 K2) as (l & R2 & _).
  rewrite R2. simpl fst. simpl snd.
  eexists. split; [reflexivity|].
  simpl. rewrite <- app_assoc. reflexivity.
Qed.

(** *** Dispatch *)

Lemma run_resolveSettings (m : Message) (w : World) :
  exists settings w1,
    run (resolveSettings m) w = (Ok settings, w1) /\
    users w1 = users w /\ accounts w1 = accounts w /\
    categories w1 = categories w /\ logs w1 = logs w /\
    outbox w1 = outbox w /\
    (guild m = None -> w1 = w) /\
    (forall g s, guild m = Some g ->
       fst (selectBotSettings (guild_id g) w) = Some s -> w1 = w /\ settings = s).
Proof.
  unfold resolveSettings.
  destruct (guild m) as [g|]; simpl.
  - destruct (find _ (botSettings w)) as [s|] eqn:F; simpl.
    + exists s, w. do 6 (split; [reflexivity|]).
      split; [discriminate|].
      intros g' s' G S. inversion G; subst.
      rewrite F in S. inversion S. auto.
    + eexists. eexists. do 6 (split; [reflexivity|]).
      split; [discriminate|].
      intros g' s' G S. inversion G; subst.
      rewrite F in S. discriminate.
  - eexists. eexists. do 6 (split; [reflexivity|]).
    split; [reflexivity|]. discriminate.
Qed.

Lemma not_known (c k : string) :
  ~ In c knownCommands -> In k knownCommands -> String.eqb c k = false.
Proof.
  intros N K. apply String.eqb_neq. intros ->. contradiction.
Qed.

(** C8.  A message that starts with the prefix of its scope and whose
    first word, in lower case, is none of the command names is dropped.  The
    command switch makes no call at all: no handler runs, nothing is read
    from or written to the store, nothing is replied or sent, and it ends
    normally.  For the message handler as a whole, the only calls are those
    that resolve the settings of the scope, which come before the prefix
    test for every message and leave users, accounts, categories, logs and
    outbox as they were; no error is logged. *)
Theorem unknown_command_ignored
    (handleStockCommand : Message -> list string -> Prog unit)
    (handleStatusCommand : Message -> Prog unit)
    (handleHelpCommand : Message -> string -> Prog unit)
    (handleProfileCommand : Message -> Prog unit)
    (handleCooldownCommand : Message -> BotSettings -> Prog unit)
    (handleInfoCommand : Message -> list string -> Prog unit)
    (handleRemoveCommand : Message -> list string -> BotSettings -> Prog unit)
    (handleBlacklistCommand : Message -> list string -> Prog unit)
    (handleSetCooldownCommand : Message -> list string -> BotSettings -> Prog unit)
    (m : Message) (w : World) (settings : BotSettings) (w1 : World) :
  author_bot m = false ->
  run (resolveSettings m) w = (Ok settings, w1) ->
  startsWith (content m) (bs_prefix settings) = true ->
  (forall c, fst (parseCommand (bs_prefix settings) (content m)) = Some c ->
             ~ In c knownCommands) ->
  dispatch handleStockCommand handleStatusCommand handleHelpCommand
           handleProfileCommand handleCooldownCommand handleInfoCommand
           handleRemoveCommand handleBlacklistCommand handleSetCooldownCommand
           m (fst (parseCommand (bs_prefix settings) (content m)))
           (snd (parseCommand (bs_prefix settings) (content m))) settings
    = Ret tt /\
  run (onMessage handleStockCommand handleStatusCommand handleHelpCommand
                 handleProfileCommand handleCooldownCommand handleInfoCommand
                 handleRemoveCommand handleBlacklistCommand
                 handleSetCooldownCommand m) w = (Ok tt, w1) /\
  calls (onMessage handleStockCommand handleStatusCommand handleHelpCommand
                   handleProfileCommand handleCooldownCommand handleInfoCommand
                   handleRemoveCommand handleBlacklistCommand
                   handleSetCooldownCommand m) w = calls (resolveSettings m) w /\
  outbox w1 = outbox w /\ logs w1 = logs w /\
  accounts w1 = accounts w /\ categories w1 = categories w /\
  users w1 = users w.
Proof.
  intros B R S U.
  destruct (run_resolveSettings m w) as (s' & w1' & R' & Hu & Ha & Hc & Hl & Ho & _).
  rewrite R in R'. inversion R'; subst s' w1'.
  assert (dispatch handleStockCommand handleStatusCommand handleHelpCommand
            handleProfileCommand handleCooldownCommand handleInfoCommand
            handleRemoveCommand handleBlacklistCommand handleSetCooldownCommand
            m (fst (parseCommand (bs_prefix settings) (content m)))
            (snd (parseCommand (bs_prefix settings) (content m))) settings
          = Ret tt) as Dp.
  { unfold dispatch.
    destruct (fst (parseCommand (bs_prefix settings) (content m))) as [c|];
      [|reflexivity].
    specialize (U c eq_refl).
    rewrite !(not_known c _ U) by (simpl; auto 20).
    reflexivity. }
  split; [exact Dp|].
  split; [|split; [|repeat split; assumption]].
  - unfold onMessage. rewrite run_tryCatch, B, run_bind, R. cbv iota.
    rewrite S. simpl negb. cbv iota.
    destruct (parseCommand (bs_prefix settings) (content m)) as [command args].
    simpl in Dp. rewrite Dp. reflexivity.
  - unfold onMessage. rewrite calls_tryCatch, B, run_bind, calls_bind, R. cbv iota.
    rewrite S. simpl negb. cbv iota.
    destruct (parseCommand (bs_prefix settings) (content m)) as [command args].
    simpl in Dp. rewrite Dp. simpl. lia.
Qed.

(** *** Login *)

Lemma run_comparePasswords_legacy (supplied stored : string) (w : World) :
  includes "." stored = false ->
  run (comparePasswords supplied stored) w = (Ok (String.eqb supplied stored), w).
Proof.
  intros H. unfold comparePasswords. rewrite H. reflexivity.
Qed.

Lemma run_loginSchema_parse (username password : string) (w : World) :
  isEmpty username = false -> isEmpty password = false ->
  run (loginSchema_parse (mkLoginBody (Some username) (Some password))) w =
  (Ok (username, password), w).
Proof.
  intros Eu Ep. unfold loginSchema_parse. simpl. rewrite Eu, Ep. reflexivity.
Qed.

(** C9.  For a stored password without a '.', [comparePasswords] answers
    by plain string equality, whatever the hash function is; a login whose
    body passes validation, for a user with such a stored password, is
    answered 200 with the session set exactly when the supplied password is
    the stored one, and 401 otherwise. *)
Theorem legacy_password_plain_comparison
    (supplied stored : string) (w : World) :
  includes "." stored = false ->
  run (comparePasswords supplied stored) w = (Ok (String.eqb supplied stored), w) /\
  (String.eqb supplied stored = true <-> supplied = stored) /\
  (forall username user,
     isEmpty username = false -> isEmpty supplied = false ->
     fst (selectUserByUsername username w) = Some user ->
     usr_password user = stored ->
     fst (run (login (mkLoginBody (Some username) (Some supplied))) w) =
     Ok (if String.eqb supplied stored
         then
           let sessionUser :=
             mkSessionUser (usr_id user) (usr_username user) (usr_isAdmin user) in
           (Status200 sessionUser, Some sessionUser)
         else (Status401, None))).
Proof.
  intros H. split; [apply run_comparePasswords_legacy; exact H|].
  split; [apply String.eqb_eq|].
  intros username user Eu Es F Pw.
  unfold login. rewrite run_tryCatch, run_bind.
  rewrite run_loginSchema_parse by assumption. cbv iota.
  rewrite run_bind. unfold getUserByUsername. rewrite run_await, F. cbv iota.
  rewrite run_bind, Pw, run_comparePasswords_legacy by exact H. cbv iota.
  destruct (String.eqb supplied stored); reflexivity.
Qed.

(** *** Adding an account *)

Lemma splitOn_includes (sep : ascii) (s : string) :
  includes sep s = true ->
  exists first second more, splitOn sep s = first :: second :: more.
Proof.
  induction s as [|d r IH]; simpl; [discriminate|].
  intros H. destruct (Ascii.eqb d sep) eqn:Q; simpl in H.
  - destruct r; simpl.
    + exists "", "", []. reflexivity.
    + destruct (Ascii.eqb a sep).
      * eexists. eexists. eexists. reflexivity.
      * destruct (splitOn sep r); eexists; eexists; eexists; reflexivity.
  - destruct (IH H) as (f & s2 & mo & ->).
    eexists. eexists. eexists. reflexivity.
Qed.

(** C10.  An add command from an admin, with a service name and an
    [email:password] argument, for a service that no category is named
    after: the category is created first, named as given and described as
    '<name> accounts', then the account is stored in it with status
    'available', and the admin is told that the account was added. *)
Theorem add_creates_missing_category
    (m : Message) (serviceName accountDetails : string) (more : list string)
    (s : BotSettings) (w : World) :
  adminAt w m = true ->
  includes ":" accountDetails = true ->
  fst (selectCategoryByName serviceName w) = None ->
  exists email password rest w',
    splitOn ":" accountDetails = email :: password :: rest /\
    run (handleAddCommand m (serviceName :: accountDetails :: more) s) w = (Ok tt, w') /\
    categories w' = categories w ++
      [mkCategory (nextCategoryId w) serviceName (Some (serviceName +++ " accounts"))
                  (clock w)] /\
    accounts w' = accounts w ++
      [mkAccount (nextAccountId w) email password (nextCategoryId w) "available"
                 None None None (clock w) (clock w)] /\
    outbox w' = outbox w ++ [Reply (author_id m) (RAccountAdded serviceName email)] /\
    List.length (logs w') = (List.length (logs w) + 2)%nat.
Proof.
  intros A I C.
  destruct (splitOn_includes ":" accountDetails I) as (email & password & rest & Sp).
  exists email, password, rest.
  unfold handleAddCommand.
  rewrite run_bind, run_isAdmin, A. simpl negb. cbv iota.
  rewrite I. simpl negb. cbv iota. rewrite Sp.
  rewrite run_tryCatch, run_bind. unfold getCategoryByName. rewrite run_await, C.
  cbv iota. simpl snd.
  eexists. split; [reflexivity|]. split; [simpl; reflexivity|].
  simpl. repeat split; auto.
  rewrite !length_app. simpl. lia.
Qed.

End Model.

(** ** The properties on the scenarios *)

(** C1, counterexample.  One account in stock and two requesters.  Under
    [raceSchedule] both claims select before either marks: both handlers end
    normally, both requesters are sent [accountA], and no one is told that
    stock is exhausted. *)
Lemma generate_race_same_account :
  interleave raceSchedule
    (handleGenerateCommand noLike None userOne ["streaming"] openSettings)
    (handleGenerateCommand noLike None userTwo ["streaming"] openSettings)
    (stock [accountA])
  = (Ret tt, Ret tt,
     snd (interleave raceSchedule
            (handleGenerateCommand noLike None userOne ["streaming"] openSettings)
            (handleGenerateCommand noLike None userTwo ["streaming"] openSettings)
            (stock [accountA]))) /\
  candidates noLike (stock [accountA]) streaming = [accountA] /\
  outbox (snd (interleave raceSchedule
            (handleGenerateCommand noLike None userOne ["streaming"] openSettings)
            (handleGenerateCommand noLike None userTwo ["streaming"] openSettings)
            (stock [accountA])))
  = [DirectMessage "U1" (credentials streaming accountA);
     Reply "U1" (RGenerated "Streaming");
     DirectMessage "U2" (credentials streaming accountA);
     Reply "U2" (RGenerated "Streaming")].
Proof. vm_compute. repeat split. Qed.

Lemma generate_last_account_serial_witness :
  exists w2,
    interleave
      (repeat true
         (calls (handleGenerateCommand noLike None userOne ["streaming"] openSettings)
                (stock [accountA])) ++
       repeat false
         (calls (handleGenerateCommand noLike None userTwo ["streaming"] openSettings)
                (snd (run (handleGenerateCommand noLike None userOne ["streaming"]
                             openSettings) (stock [accountA])))))
      (handleGenerateCommand noLike None userOne ["streaming"] openSettings)
      (handleGenerateCommand noLike None userTwo ["streaming"] openSettings)
      (stock [accountA]) = (Ret tt, Ret tt, w2) /\
    outbox w2 = outbox (stock [accountA]) ++
      [DirectMessage (author_id userOne) (credentials streaming accountA);
       Reply (author_id userOne) (RGenerated (cat_name streaming));
       Reply (author_id userTwo) (RStockExhausted (cat_name streaming))].
Proof.
  apply (generate_last_account_serial noLike None userOne userTwo
           ["streaming"] ["streaming"] openSettings openSettings
           (stock [accountA]) "streaming" streaming accountA);
    reflexivity.
Defined.

(** C2, counterexample.  [userOne] claims at 100 s and again at 101 s in a
    scope whose cooldown is 3600 s: by the formula of the specification 3599 s
    of cooldown remain, and the second claim delivers the next account. *)
Lemma generate_again_within_cooldown :
  spec_RemainingCooldown (bs_cooldown openSettings) 100 101 = 3599 /\
  outbox
    (snd (run (handleGenerateCommand noLike None userOne ["streaming"] openSettings)
            (setClock 101000
               (snd (run (handleGenerateCommand noLike None userOne ["streaming"]
                            openSettings)
                         (stock [accountA; accountB]))))))
  = [DirectMessage "U1" (credentials streaming accountA);
     Reply "U1" (RGenerated "Streaming");
     DirectMessage "U1" (credentials streaming accountB);
     Reply "U1" (RGenerated "Streaming")].
Proof. vm_compute. split; reflexivity. Qed.

Lemma generate_twice_in_a_row_witness :
  exists w1 w2,
    run (handleGenerateCommand noLike None userOne ["streaming"] openSettings)
        (stock [accountA; accountB]) = (Ok tt, w1) /\
    run (handleGenerateCommand noLike None userOne ["streaming"] openSettings)
        (setClock 101000 w1) = (Ok tt, w2) /\
    outbox w2 = outbox (stock [accountA; accountB]) ++
      [DirectMessage (author_id userOne) (credentials streaming accountA);
       Reply (author_id userOne) (RGenerated (cat_name streaming));
       DirectMessage (author_id userOne) (credentials streaming accountB);
       Reply (author_id userOne) (RGenerated (cat_name streaming))] /\
    In (applyUpdate (generatedUpdate (author_tag userOne)
                       (clock (stock [accountA; accountB])))
                    (clock (stock [accountA; accountB])) accountA)
       (accounts w1) /\
    Permutation
      (rewrittenTable (acc_id accountA)
         (generatedUpdate (author_tag userOne) (clock (stock [accountA; accountB])))
         (clock (stock [accountA; accountB])) (accounts (stock [accountA; accountB])))
      (accounts w1) /\
    botSettings w1 = botSettings (stock [accountA; accountB]) /\
    botSettings w2 = botSettings (stock [accountA; accountB]).
Proof.
  apply (generate_twice_in_a_row noLike None userOne ["streaming"] openSettings
           (stock [accountA; accountB]) "streaming" streaming accountA accountB []
           101000);
    try reflexivity.
  simpl. lia.
Defined.

(** C3, counterexample.  The only account of the category is stored as
    available and expired at 50 s; at 100 s a claim sends it instead of
    reporting exhausted stock. *)
Lemma generate_serves_expired_account :
  expiredAt (clock (stock [accountOld])) accountOld = true /\
  acc_status accountOld = "available" /\
  outbox (snd (run (handleGenerateCommand noLike None userOne ["streaming"] openSettings)
                   (stock [accountOld])))
  = [DirectMessage "U1" (credentials streaming accountOld);
     Reply "U1" (RGenerated "Streaming")].
Proof. vm_compute. repeat split. Qed.

Lemma generate_selects_by_stored_status_witness :
  exists news,
    outbox (snd (run (handleGenerateCommand noLike None userOne ["streaming"]
                        openSettings) (stock [accountOld]))) =
      outbox (stock [accountOld]) ++ news /\
    (news = [Reply (author_id userOne) (RStockExhausted (cat_name streaming))] <->
     availableOf (stock [accountOld]) streaming = []) /\
    (forall a rest, availableOf (stock [accountOld]) streaming = a :: rest ->
       news =
       if acceptsDM userOne
       then [DirectMessage (author_id userOne)
               (mkDm (cat_name streaming) (acc_email a) (acc_password a)
                     (acc_expiresAt a));
             Reply (author_id userOne) (RGenerated (cat_name streaming))]
       else [Reply (author_id userOne) RDmError]).
Proof.
  apply (generate_selects_by_stored_status noLike None userOne ["streaming"]
           openSettings (stock [accountOld]) "streaming" streaming);
    reflexivity.
Defined.

(** C4, at the failing input.  [userClosed] refuses private messages.  The
    claim marks [accountA], the delivery fails, and the revert writes the
    status alone: the row ends as available with [generatedBy] and
    [generatedAt] still set, against the status invariant that held before.
    The restock payload of the dashboard, applied to that row, restores the
    invariant. *)
Theorem generate_undelivered_breaks_status_invariant :
  statusInvariant accountA /\
  accounts (snd (run (handleGenerateCommand noLike None userClosed ["streaming"]
                        openSettings) (stock [accountA])))
  = [mkAccount 1 "a@x.com" "pw1" 1 "available" None
               (Some "U3#0003") (Some 100000) 10000 100000] /\
  ~ statusInvariant
      (mkAccount 1 "a@x.com" "pw1" 1 "available" None
                 (Some "U3#0003") (Some 100000) 10000 100000) /\
  statusInvariant
    (applyUpdate restockUpdate 100000
       (mkAccount 1 "a@x.com" "pw1" 1 "available" None
                  (Some "U3#0003") (Some 100000) 10000 100000)).
Proof.
  split.
  { unfold statusInvariant; simpl. split; split; intros H;
      try discriminate; auto. destruct H as [H _]. congruence. }
  split; [vm_compute; reflexivity|].
  split.
  { unfold statusInvariant; simpl. intros [[H _] _].
    destruct (H eq_refl) as [H1 _]. discriminate. }
  unfold statusInvariant; simpl. split; split; intros H;
    try discriminate; auto. destruct H as [H _]. congruence.
Qed.

(** C5, counterexample.  Three stored-available accounts in creation order,
    the oldest expired since 50 s: two non-expired candidates remain, the
    older being [accountB], and the claim sends [accountOld]. *)
Lemma generate_prefers_expired_first_row :
  filter (fun a => negb (expiredAt (clock (stock [accountOld; accountB; accountC])) a))
         (candidates noLike (stock [accountOld; accountB; accountC]) streaming)
  = [accountB; accountC] /\
  outbox (snd (run (handleGenerateCommand noLike None userOne ["streaming"] openSettings)
                   (stock [accountOld; accountB; accountC])))
  = [DirectMessage "U1" (credentials streaming accountOld);
     Reply "U1" (RGenerated "Streaming")].
Proof. vm_compute. split; reflexivity. Qed.

(** The choice follows the order of the rows: with the younger row first,
    the younger account is sent. *)
Example generate_follows_row_order :
  outbox (snd (run (handleGenerateCommand noLike None userOne ["streaming"] openSettings)
                   (stock [accountB; accountA])))
  = [DirectMessage "U1" (credentials streaming accountB);
     Reply "U1" (RGenerated "Streaming")].
Proof. vm_compute. reflexivity. Qed.

Lemma generate_takes_first_candidate_witness :
  outbox (snd (run (handleGenerateCommand noLike None userOne ["streaming"] openSettings)
                   (stock [accountA; accountB]))) =
    outbox (stock [accountA; accountB]) ++
      [DirectMessage (author_id userOne) (credentials streaming accountA);
       Reply (author_id userOne) (RGenerated (cat_name streaming))] /\
  (exists pre post,
     accounts (stock [accountA; accountB]) = pre ++ accountA :: post /\
     forall b, In b pre ->
       Z.eqb (acc_categoryId b) (cat_id streaming)
       && String.eqb (acc_status b) "available" = false) /\
  (inCreationOrder (accounts (stock [accountA; accountB])) = true ->
   forall b, In b (accounts (stock [accountA; accountB])) ->
     acc_categoryId b = cat_id streaming -> acc_status b = "available" ->
     fifoBefore accountA b = true) /\
  (forall w2 s2,
     accounts w2 = accounts (stock [accountA; accountB]) ->
     categories w2 = categories (stock [accountA; accountB]) ->
     permittedAt None w2 userOne = true ->
     outbox (snd (run (handleGenerateCommand noLike None userOne ["streaming"] s2) w2)) =
       outbox w2 ++ [DirectMessage (author_id userOne) (credentials streaming accountA);
                     Reply (author_id userOne) (RGenerated (cat_name streaming))]).
Proof.
  apply (generate_takes_first_candidate noLike None userOne ["streaming"]
           openSettings (stock [accountA; accountB]) "streaming" streaming
           accountA [accountB]);
    reflexivity.
Defined.

(** C7, counterexample.  A delivered claim appends two log entries and a
    refused one appends none; each is answered by one reply. *)
Lemma generate_logs_two_or_none :
  logs (stock [accountA]) = [] /\
  map log_action
      (logs (snd (run (handleGenerateCommand noLike None userOne ["streaming"]
                         openSettings) (stock [accountA]))))
  = ["ACCOUNT_UPDATED"; "ACCOUNT_GENERATED"] /\
  outbox (snd (run (handleGenerateCommand noLike None outsider ["streaming"]
                      membersOnly) (stock [accountA])))
  = [Reply "U4" RAccessDenied] /\
  logs (snd (run (handleGenerateCommand noLike None outsider ["streaming"]
                    membersOnly) (stock [accountA])))
  = [].
Proof. vm_compute. repeat split. Qed.

(** [newcomer] writes in a guild that has no settings yet. *)
Lemma unknown_command_ignored_witness :
  dispatch noLike None idle2 idle1 idle2 idle1 idle2 idle2 idle3 idle2 idle3
           newcomer
           (fst (parseCommand (bs_prefix (firstSettings (stock [accountA])))
                              (content newcomer)))
           (snd (parseCommand (bs_prefix (firstSettings (stock [accountA])))
                              (content newcomer)))
           (firstSettings (stock [accountA]))
    = Ret tt /\
  run (onMessage noLike None idle2 idle1 idle2 idle1 idle2 idle2 idle3 idle2 idle3
                 newcomer) (stock [accountA]) =
    (Ok tt, snd (insertBotSettings defaultSettings (stock [accountA]))) /\
  calls (onMessage noLike None idle2 idle1 idle2 idle1 idle2 idle2 idle3 idle2 idle3
                   newcomer) (stock [accountA]) =
    calls (resolveSettings newcomer) (stock [accountA]) /\
  outbox (snd (insertBotSettings defaultSettings (stock [accountA]))) =
    outbox (stock [accountA]) /\
  logs (snd (insertBotSettings defaultSettings (stock [accountA]))) =
    logs (stock [accountA]) /\
  accounts (snd (insertBotSettings defaultSettings (stock [accountA]))) =
    accounts (stock [accountA]) /\
  categories (snd (insertBotSettings defaultSettings (stock [accountA]))) =
    categories (stock [accountA]) /\
  users (snd (insertBotSettings defaultSettings (stock [accountA]))) =
    users (stock [accountA]).
Proof.
  apply (unknown_command_ignored noLike None idle2 idle1 idle2 idle1 idle2 idle2
           idle3 idle2 idle3 newcomer (stock [accountA])
           (firstSettings (stock [accountA]))
           (snd (insertBotSettings defaultSettings (stock [accountA])))).
  - reflexivity.
  - reflexivity.
  - reflexivity.
  - intros c H. vm_compute in H. inversion H; subst. clear H.
    unfold knownCommands. simpl. intros K.
    repeat (destruct K as [K | K]; [discriminate K|]). exact K.
Defined.

(** In a guild that has its settings the same text changes nothing at all. *)
Example unknown_command_leaves_world :
  run (onMessage noLike None idle2 idle1 idle2 idle1 idle2 idle2 idle3 idle2 idle3
                 chatter) (stock [accountA]) = (Ok tt, stock [accountA]).
Proof. vm_compute. reflexivity. Qed.

Lemma legacy_password_plain_comparison_witness :
  run (comparePasswords noScrypt "admin123" "admin123") (stock []) =
    (Ok (String.eqb "admin123" "admin123"), stock []) /\
  (String.eqb "admin123" "admin123" = true <-> "admin123" = "admin123") /\
  (forall username user,
     isEmpty username = false -> isEmpty "admin123" = false ->
     fst (selectUserByUsername username (stock [])) = Some user ->
     usr_password user = "admin123" ->
     fst (run (login noScrypt (mkLoginBody (Some username) (Some "admin123")))
              (stock [])) =
     Ok (if String.eqb "admin123" "admin123"
         then
           let sessionUser :=
             mkSessionUser (usr_id user) (usr_username user) (usr_isAdmin user) in
           (Status200 sessionUser, Some sessionUser)
         else (Status401, None))).
Proof.
  apply (legacy_password_plain_comparison noScrypt "admin123" "admin123" (stock [])).
  reflexivity.
Defined.

(** The legacy admin logs in with the stored text and with nothing else. *)
Example login_legacy_admin :
  fst (run (login noScrypt (mkLoginBody (Some "admin") (Some "admin123"))) (stock []))
  = Ok (Status200 (mkSessionUser 1 "admin" true), Some (mkSessionUser 1 "admin" true)) /\
  fst (run (login noScrypt (mkLoginBody (Some "admin") (Some "Admin123"))) (stock []))
  = Ok (Status401, None).
Proof. vm_compute. split; reflexivity. Qed.

Lemma add_creates_missing_category_witness :
  exists email password rest w',
    splitOn ":" "john@example.com:password123" = email :: password :: rest /\
    run (handleAddCommand None guildAdmin
           ("netflix" :: "john@example.com:password123" :: []) openSettings)
        (stock [accountA]) = (Ok tt, w') /\
    categories w' = categories (stock [accountA]) ++
      [mkCategory (nextCategoryId (stock [accountA])) "netflix"
                  (Some ("netflix" +++ " accounts")) (clock (stock [accountA]))] /\
    accounts w' = accounts (stock [accountA]) ++
      [mkAccount (nextAccountId (stock [accountA])) email password
                 (nextCategoryId (stock [accountA])) "available"
                 None None None (clock (stock [accountA])) (clock (stock [accountA]))] /\
    outbox w' = outbox (stock [accountA]) ++
      [Reply (author_id guildAdmin) (RAccountAdded "netflix" email)] /\
    List.length (logs w') = (List.length (logs (stock [accountA])) + 2)%nat.
Proof.
  apply (add_creates_missing_category None guildAdmin "netflix"
           "john@example.com:password123" [] openSettings (stock [accountA]));
    reflexivity.
Defined.

(** The same command, evaluated. *)
Example add_netflix_account :
  map cat_name
      (categories (snd (run (handleAddCommand None guildAdmin
                               ["netflix"; "john@example.com:password123"] openSettings)
                            (stock [accountA]))))
  = ["Streaming"; "netflix"] /\
  map (fun a => (acc_email a, acc_password a, acc_categoryId a, acc_status a))
      (accounts (snd (run (handleAddCommand None guildAdmin
                             ["netflix"; "john@example.com:password123"] openSettings)
                          (stock [accountA]))))
  = [("a@x.com", "pw1", 1, "available");
     ("john@example.com", "password123", 2, "available")].
Proof. vm_compute. split; reflexivity. Qed.

(** * The rest of the storage layer, the other commands and registration

    The remaining methods of [DatabaseStorage] that the handlers use, the
    command handlers for remove, blacklist, setcooldown, cooldown and stock,
    and [hashPassword] and [register], with what the code guarantees about
    them.  A handler of this part yields, as its value, the text it passes to
    [message.reply]. *)

(** ** [DatabaseStorage], continued *)


(** [delete from accounts where id = ?] *)
Definition deleteAccountsById (id : Z) (w : World) : unit * World :=
  (tt, setAccounts (filter (fun a => negb (Z.eqb (acc_id a) id)) (accounts w))
                   (nextAccountId w) w).

Definition deleteAccount (id : Z) : Prog bool :=
  found <- await (selectAccountsById id) ;;
  match found with
  | [] => Ret false
  | account :: _ =>
      await (deleteAccountsById id) ;;;
      createLog (logEntry "info" "ACCOUNT_DELETED"
        ("Account deleted: " +++ acc_email account +++ " (" +++
         showZ (acc_id account) +++ ")")) ;;;
      Ret true
  end.



(** [Partial<InsertBotSettings>] *)
Record BotSettingsUpdate := mkBotSettingsUpdate {
  ubs_guildId : option string;
  ubs_prefix : option string;
  ubs_allowedRoles : option (option (list string));
  ubs_adminRoles : option (option (list string));
  ubs_cooldown : option Z
}.

Definition applySettingsUpdate (u : BotSettingsUpdate) (now : Z) (s : BotSettings)
  : BotSettings :=
  mkBotSettings (bs_id s)
                (orElse (ubs_guildId u) (bs_guildId s))
                (orElse (ubs_prefix u) (bs_prefix s))
                (orElse (ubs_allowedRoles u) (bs_allowedRoles s))
                (orElse (ubs_adminRoles u) (bs_adminRoles s))
                (orElse (ubs_cooldown u) (bs_cooldown s))
                (bs_createdAt s)
                now.

(** The table after [update bot_settings set .. where guild_id = ?]: the
    rows of other guilds stay where they are, and the new versions of the
    rows of the guild come after them. *)
Definition updatedSettings (guildId : string) (u : BotSettingsUpdate) (now : Z)
    (rows : list BotSettings) : list BotSettings :=
  filter (fun s => negb (String.eqb (bs_guildId s) guildId)) rows ++
  map (applySettingsUpdate u now)
      (filter (fun s => String.eqb (bs_guildId s) guildId) rows).

(** [cooldown] is the integer column a settings payload can write. *)
Definition acceptedSettings (u : BotSettingsUpdate) : bool :=
  match ubs_cooldown u with
  | Some seconds => int4 seconds
  | None => true
  end.

(** What an accepted [update bot_settings set .. where guild_id = ?
    returning *] does. *)
Definition updateSettingsRows (guildId : string) (u : BotSettingsUpdate)
    (w : World) : list BotSettings * World :=
  (map (applySettingsUpdate u (clock w))
       (filter (fun s => String.eqb (bs_guildId s) guildId) (botSettings w)),
   setBotSettings (updatedSettings guildId u (clock w) (botSettings w))
                  (nextSettingsId w) w).

(** [update bot_settings set .. where guild_id = ? returning *] *)
Definition updateBotSettingsByGuild (guildId : string) (u : BotSettingsUpdate)
  : Prog (list BotSettings) :=
  if acceptedSettings u then await (updateSettingsRows guildId u)
  else rejected "value is out of range for type integer".

Definition updateBotSettings (guildId : string) (updateData : BotSettingsUpdate)
  : Prog (option BotSettings) :=
  settings <- getBotSettings guildId ;;
  match settings with
  | None => Ret None
  | Some _ =>
      updated <- updateBotSettingsByGuild guildId updateData ;;
      Ret (hd_error updated)
  end.

(** The cooldown alone: [{ cooldown: cooldownSeconds }]. *)
Definition cooldownUpdate (cooldownSeconds : Z) : BotSettingsUpdate :=
  mkBotSettingsUpdate None None None None (Some cooldownSeconds).

(** [InsertUser] *)
Record InsertUser := mkInsertUser {
  iu_username : string;
  iu_password : string;
  iu_isAdmin : bool
}.

(** [insert into users .. returning *]; [id] is the value the sequence of
    the table yields. *)
Definition insertUser (id : Z) (i : InsertUser) (w : World) : User * World :=
  let row := mkUser id (iu_username i) (iu_password i) (iu_isAdmin i) (clock w) in
  (row,
   mkWorld (users w ++ [row]) (accounts w) (categories w) (botSettings w) (logs w)
           (nextAccountId w) (nextCategoryId w) (nextSettingsId w) (nextLogId w)
           (clock w) (outbox w)).

Definition createUser (id : Z) (i : InsertUser) : Prog User :=
  await (insertUser id i).

(** The ids of the accounts are pairwise different and below the counter of
    the table. *)
Definition accountIdsFresh (w : World) : Prop :=
  NoDup (map acc_id (accounts w)) /\
  Forall (fun a => (acc_id a < nextAccountId w)%Z) (accounts w).

(** What identifies an account and its secret: everything but the status,
    the generation marks and the update time. *)
Definition accountCore (a : Account)
  : Z * string * string * Z * option Z * Z :=
  (acc_id a, acc_email a, acc_password a, acc_categoryId a, acc_expiresAt a,
   acc_createdAt a).

Definition isDirectMessage (e : Effect) : bool := negb (isReply e).

(** ** The other command handlers

    Each of them ends in [return message.reply(text)] on every path; the
    text it replies with is the value of the program here, one constructor
    per text of the source. *)

Inductive RemoveReply :=
| RmDenied                                      (* Acces Refuse, admin *)
| RmUsage (prefix : string)                     (* Format Incorrect *)
| RmServiceNotFound (serviceName : string)      (* Service Non Trouve *)
| RmAccountNotFound (email serviceName : string) (* Compte Non Trouve *)
| RmRemoved (email serviceName : string)        (* Compte Supprime *)
| RmDeleteFailed (email : string)               (* Erreur de Suppression *)
| RmSystemError.                                (* Erreur Systeme *)

Inductive BlacklistReply :=
| BlDenied
| BlUsage
| BlListed (userId reason : string)             (* Utilisateur Blackliste *)
| BlSystemError.

Inductive SetCooldownReply :=
| ScDenied
| ScUsage (prefix : string)
| ScInvalid                                     (* Valeur Invalide *)
| ScUpdated (minutes : Z)                       (* Cooldown Mis a Jour *)
| ScUpdateFailed                                (* Erreur de Mise a Jour *)
| ScGuildOnly                                   (* only in a server *)
| ScSystemError.

(** The cooldown text shows the remaining minutes and seconds, the total
    ([cooldownSeconds / 60] minutes) and the time of the next claim. *)
Inductive CooldownReply :=
| CdDenied
| CdOver                                        (* Cooldown Termine *)
| CdActive (remainingMinutes remainingSeconds cooldownSeconds nextAt : Z)
| CdSystemError.

Record StockInfo := mkStockInfo {
  si_name : string;
  si_total : Z;
  si_available : Z
}.

(** The stock text lists [name: available/total] per category and ends with
    the totals. *)
Inductive StockReply :=
| StDenied
| StServiceNotFound (serviceName : string)
| StInventory (stockInfo : list StockInfo) (totalAvailable totalAccounts : Z)
| StSystemError.

Section Commands.

Variable sqlLike : string -> string -> bool.
Variable ownerId : option string.
(** [parseInt(s)]: [None] is NaN. *)
Variable parseInt : string -> option Z.

Definition handleRemoveCommand (m : Message) (args : list string)
    (settings : BotSettings) : Prog RemoveReply :=
  admin <- isAdmin ownerId m ;;
  if negb admin then Ret RmDenied
  else
    match args with
    | serviceName :: email :: _ =>
        tryCatch
          (category <- getCategoryByName serviceName ;;
           match category with
           | None => Ret (RmServiceNotFound serviceName)
           | Some category =>
               accounts <- getAccounts sqlLike
                 (Some (mkFilters (Some (cat_id category)) None (Some email))) ;;
               match find (fun a => String.eqb (acc_email a) email) accounts with
               | None => Ret (RmAccountNotFound email serviceName)
               | Some account =>
                   success <- deleteAccount (acc_id account) ;;
                   if (success : bool) then
                     createLog (logEntry "success" "ACCOUNT_REMOVED"
                       ("Admin " +++ author_tag m +++ " removed account: " +++
                        email +++ " (" +++ serviceName +++ ")")) ;;;
                     Ret (RmRemoved email serviceName)
                   else Ret (RmDeleteFailed email)
               end
           end)
          (fun error =>
             createLog (logEntry "error" "ACCOUNT_REMOVE_ERROR"
               ("Error removing account: " +++ exnMessage error)) ;;;
             Ret RmSystemError)
    | _ => Ret (RmUsage (bs_prefix settings))
    end.

Definition handleBlacklistCommand (m : Message) (args : list string)
  : Prog BlacklistReply :=
  admin <- isAdmin ownerId m ;;
  if negb admin then Ret BlDenied
  else
    match args with
    | userId :: more =>
        match more with
        | [] => Ret BlUsage
        | _ :: _ =>
            let reason := String.concat " " more in
            tryCatch
              (createLog (logEntry "warning" "USER_BLACKLISTED"
                 ("Admin " +++ author_tag m +++ " blacklisted user: " +++ userId +++
                  " for: " +++ reason)) ;;;
               Ret (BlListed userId reason))
              (fun error =>
                 createLog (logEntry "error" "BLACKLIST_ERROR"
                   ("Error blacklisting user: " +++ exnMessage error)) ;;;
                 Ret BlSystemError)
        end
    | [] => Ret BlUsage
    end.

Definition handleSetCooldownCommand (m : Message) (args : list string)
    (settings : BotSettings) : Prog SetCooldownReply :=
  admin <- isAdmin ownerId m ;;
  if negb admin then Ret ScDenied
  else
    match args with
    | [] => Ret (ScUsage (bs_prefix settings))
    | first :: _ =>
        match parseInt first with
        | None => Ret ScInvalid
        | Some minutes =>
            if (minutes <? 0)%Z then Ret ScInvalid
            else
              tryCatch
                (let cooldownSeconds := minutes * 60 in
                 match guild m with
                 | Some g =>
                     updatedSettings <-
                       updateBotSettings (guild_id g) (cooldownUpdate cooldownSeconds) ;;
                     match updatedSettings with
                     | Some _ =>
                         createLog (logEntry "success" "COOLDOWN_UPDATED"
                           ("Admin " +++ author_tag m +++ " updated cooldown to " +++
                            showZ minutes +++ " minutes in guild " +++ guild_name g)) ;;;
                         Ret (ScUpdated minutes)
                     | None => Ret ScUpdateFailed
                     end
                 | None => Ret ScGuildOnly
                 end)
                (fun error =>
                   createLog (logEntry "error" "COOLDOWN_UPDATE_ERROR"
                     ("Error updating cooldown: " +++ exnMessage error)) ;;;
                   Ret ScSystemError)
        end
    end.

(** The last generation is taken to be two hours before now, whoever asks.
    [Date.now()] is read twice, for [lastGenerationTime] and for
    [remainingTime]. *)
Definition handleCooldownCommand (m : Message) (settings : BotSettings)
  : Prog CooldownReply :=
  allowed <- hasPermission ownerId m ;;
  if negb allowed then Ret CdDenied
  else
    tryCatch
      (started <- newDate ;;
       let lastGenerationTime := started - 1000 * 60 * 60 * 2 in
       let cooldownPeriod := bs_cooldown settings * 1000 in
       now <- newDate ;;
       let remainingTime := Z.max 0 (cooldownPeriod - (now - lastGenerationTime)) in
       let remainingMinutes := remainingTime / (1000 * 60) in
       let remainingSeconds := (remainingTime mod (1000 * 60)) / 1000 in
       if (remainingTime <=? 0)%Z then Ret CdOver
       else Ret (CdActive remainingMinutes remainingSeconds (bs_cooldown settings)
                          (lastGenerationTime + cooldownPeriod)))
      (fun error =>
         createLog (logEntry "error" "COOLDOWN_CHECK_ERROR"
           ("Error checking cooldown: " +++ exnMessage error)) ;;;
         Ret CdSystemError).

(** [Promise.all(targetCategories.map(async (category) => ..))] *)
Fixpoint stockOf (cs : list AccountCategory) : Prog (list StockInfo) :=
  match cs with
  | [] => Ret []
  | category :: rest =>
      accounts <- getAccounts sqlLike
        (Some (mkFilters (Some (cat_id category)) None None)) ;;
      let available :=
        List.length (filter (fun a => String.eqb (acc_status a) "available") accounts) in
      more <- stockOf rest ;;
      Ret (mkStockInfo (cat_name category) (Z.of_nat (List.length accounts))
                       (Z.of_nat available) :: more)
  end.

Definition handleStockCommand (m : Message) (args : list string) : Prog StockReply :=
  allowed <- hasPermission ownerId m ;;
  if negb allowed then Ret StDenied
  else
    let serviceName := option_map toLowerCase (nth_error args 0) in
    let wanted :=
      match serviceName with
      | Some n => if isEmpty n then None else Some n
      | None => None
      end in
    tryCatch
      (categories <- getCategories ;;
       let targetCategories :=
         match wanted with
         | Some n => filter (fun c => String.eqb (toLowerCase (cat_name c)) n) categories
         | None => categories
         end in
       match wanted, targetCategories with
       | Some n, [] => Ret (StServiceNotFound n)
       | _, _ =>
           stockInfo <- stockOf targetCategories ;;
           let totalAccounts := fold_left (fun sum info => sum + si_total info) stockInfo 0 in
           let totalAvailable :=
             fold_left (fun sum info => sum + si_available info) stockInfo 0 in
           Ret (StInventory stockInfo totalAvailable totalAccounts)
       end)
      (fun error =>
         createLog (logEntry "error" "STOCK_CHECK_ERROR"
           ("Error checking stock: " +++ exnMessage error)) ;;;
         Ret StSystemError).

End Commands.

(** ** Registration *)

Definition hexDigit (n : Z) : ascii :=
  if (n <? 10)%Z then ascii_of_nat (Z.to_nat (48 + n))
  else ascii_of_nat (Z.to_nat (87 + n)).

(** [buf.toString("hex")] *)
Fixpoint toHex (buf : list Z) : string :=
  match buf with
  | [] => EmptyString
  | b :: rest => String (hexDigit (b / 16)) (String (hexDigit (b mod 16)) (toHex rest))
  end.

Definition isByte (b : Z) : Prop := (0 <= b < 256)%Z.

Inductive RegisterResponse :=
| Status201 (user : SessionUser)        (* { success: true, user } *)
| Invalid400 (message : string)         (* the message of the first issue *)
| Taken400                               (* Ce nom d'utilisateur est deja pris *)
| Failed500.                             (* Une erreur est survenue .. *)

Record RegisterBody := mkRegisterBody {
  reg_username : option string;
  reg_password : option string
}.

Section Registration.

Variable scrypt : string -> string -> list Z.

(** [hashPassword]; [random] is what [randomBytes(16)] yields. *)
Definition hashPassword (random : list Z) (password : string) : string :=
  let salt := toHex random in
  let buf := scrypt password salt in
  toHex buf +++ "." +++ salt.

(** [registerSchema.parse(req.body)] *)
Definition registerSchema_parse (body : RegisterBody) : Prog (string * string) :=
  match reg_username body with
  | None => Throw (ZodError "Required")
  | Some username =>
      if (String.length username <? 3)%nat
      then Throw (ZodError "Username must be at least 3 characters")
      else
        match reg_password body with
        | None => Throw (ZodError "Required")
        | Some password =>
            if (String.length password <? 6)%nat
            then Throw (ZodError "Password must be at least 6 characters")
            else Ret (username, password)
        end
  end.

(** [register]; [id] is the id the users table gives the new row. *)
Definition register (id : Z) (random : list Z) (body : RegisterBody)
  : Prog (RegisterResponse * option SessionUser) :=
  tryCatch
    (userData <- registerSchema_parse body ;;
     let (username, password) := (userData : string * string) in
     existingUser <- getUserByUsername username ;;
     match existingUser with
     | Some _ => Ret (Taken400, None)
     | None =>
         let hashedPassword := hashPassword random password in
         newUser <- createUser id (mkInsertUser username hashedPassword false) ;;
         let sessionUser :=
           mkSessionUser (usr_id newUser) (usr_username newUser) (usr_isAdmin newUser) in
         createLog (mkInsertLog "success" "USER_REGISTERED"
           ("New user registered: " +++ usr_username newUser)
           None (Some (usr_id newUser))) ;;;
         Ret (Status201 sessionUser, Some sessionUser)
     end)
    (fun error =>
       match error with
       | ZodError message => Ret (Invalid400 message, None)
       | Error _ => Ret (Failed500, None)
       end).

End Registration.

(** ** Properties of the storage layer *)

(** The three ways [updateAccount] ends: no row of the id, a payload the
    database rejects, and the update carried out. *)
Lemma run_updateAccount_cases (id : Z) (u : AccountUpdate) (w : World) :
  ((forall a, In a (accounts w) -> acc_id a <> id) /\
   run (updateAccount id u) w = (Ok None, w))
  \/
  (exists a e,
     In a (accounts w) /\ acc_id a = id /\ acceptedUpdate u = false /\
     run (updateAccount id u) w = (Err e, w))
  \/
  (exists a a' l,
     In a (accounts w) /\ acc_id a = id /\ acceptedUpdate u = true /\
     run (updateAccount id u) w =
     (Ok (Some a'),
      setLogs (logs w ++ [l]) (nextLogId w + 1)
        (setAccounts (updatedTable id u (clock w) (accounts w))
                     (nextAccountId w) w))).
Proof.
  destruct (filter (fun b => Z.eqb (acc_id b) id) (accounts w)) as [|x xs] eqn:F.
  - left. split.
    + intros a Hin Hid.
      assert (In a (filter (fun b => Z.eqb (acc_id b) id) (accounts w))) as HI.
      { apply filter_In. split; auto. apply Z.eqb_eq; exact Hid. }
      rewrite F in HI. inversion HI.
    + unfold updateAccount. simpl. rewrite F. reflexivity.
  - right. pose proof (filter_head_In _ _ _ _ F) as [Hin Hid].
    apply Z.eqb_eq in Hid.
    destruct (acceptedUpdate u) eqn:Q.
    + right. destruct (run_updateAccount x u w Hin Q) as (a' & l & R & _).
      rewrite Hid in R. exists x, a', l. auto.
    + left. exists x. eexists. split; [exact Hin|]. split; [exact Hid|].
      split; [reflexivity|].
      unfold updateAccount. rewrite run_bind, run_await.
      unfold selectAccountsById. simpl fst. simpl snd. rewrite F. cbv iota.
      unfold updateAccountsById. rewrite Q. reflexivity.
Qed.

Lemma rewrittenTable_ids (id : Z) (u : AccountUpdate) (now : Z) (rows : list Account) :
  map acc_id (rewrittenTable id u now rows) = map acc_id rows /\
  map acc_createdAt (rewrittenTable id u now rows) = map acc_createdAt rows.
Proof.
  unfold rewrittenTable. rewrite !map_map. split; apply map_ext;
    intros a; destruct (Z.eqb (acc_id a) id); reflexivity.
Qed.


(** An update keeps the ids and the creation times of the table. *)
Lemma updatedTable_ids (id : Z) (u : AccountUpdate) (now : Z) (rows : list Account) :
  Permutation (map acc_id rows) (map acc_id (updatedTable id u now rows)) /\
  Permutation (map acc_createdAt rows) (map acc_createdAt (updatedTable id u now rows)).
Proof.
  destruct (rewrittenTable_ids id u now rows) as [I C].
  rewrite <- I at 1. rewrite <- C at 1.
  split; apply Permutation_map; apply updatedTable_rewritten.
Qed.




(** The payload [{ categoryId: 2147483648 }] on the id of a stored row. *)
Example updateAccount_rejects_wide_category :
  exists e,
    run (updateAccount 1 (mkAccountUpdate None None (Some 2147483648) None None None None))
        (stock [accountA]) = (Err e, stock [accountA]).
Proof. eexists. reflexivity. Qed.


Lemma run_deleteAccount_missing (id : Z) (w : World) :
  (forall a, In a (accounts w) -> acc_id a <> id) ->
  run (deleteAccount id) w = (Ok false, w).
Proof.
  intros H. unfold deleteAccount. simpl.
  destruct (filter (fun b => Z.eqb (acc_id b) id) (accounts w)) as [|x xs] eqn:F.
  - reflexivity.
  - exfalso. apply filter_head_In in F. destruct F as [Hin Hid].
    apply Z.eqb_eq in Hid. exact (H x Hin Hid).
Qed.

Lemma run_deleteAccount_cases (id : Z) (w : World) :
  ((forall a, In a (accounts w) -> acc_id a <> id) /\
   run (deleteAccount id) w = (Ok false, w))
  \/
  (exists a l,
     In a (accounts w) /\ acc_id a = id /\
     run (deleteAccount id) w =
     (Ok true,
      setLogs (logs w ++ [l]) (nextLogId w + 1)
        (setAccounts (filter (fun b => negb (Z.eqb (acc_id b) id)) (accounts w))
                     (nextAccountId w) w))).
Proof.
  destruct (filter (fun b => Z.eqb (acc_id b) id) (accounts w)) as [|x xs] eqn:F.
  - left.
    assert (forall a, In a (accounts w) -> acc_id a <> id) as H.
    { intros a Hin Hid.
      assert (In a (filter (fun b => Z.eqb (acc_id b) id) (accounts w))) as HI.
      { apply filter_In. split; auto. apply Z.eqb_eq; exact Hid. }
      rewrite F in HI. inversion HI. }
    split; [exact H | apply run_deleteAccount_missing; exact H].
  - right. pose proof (filter_head_In _ _ _ _ F) as [Hin Hid].
    apply Z.eqb_eq in Hid.
    exists x. eexists. split; [exact Hin|]. split; [exact Hid|].
    unfold deleteAccount. simpl. rewrite F. simpl. reflexivity.
Qed.








(** ** Properties of the permission checks and of claims *)

(** X6.  Whoever [isAdmin] accepts is accepted by [hasPermission] too:
    an admin is never locked out of the user commands by the list of allowed
    roles. *)
Theorem admin_is_permitted (ownerId : option string) (w : World) (m : Message) :
  adminAt ownerId w m = true -> permittedAt ownerId w m = true.
Proof.
  intros A. unfold permittedAt, hasPermission.
  destruct (guild m) as [g|] eqn:G; simpl; auto.
  destruct (find _ (botSettings w)) as [s|] eqn:F; simpl; auto.
  destruct (bs_allowedRoles s) as [[|r l]|]; simpl; auto.
  destruct (memberHasRole m r || existsb (memberHasRole m) l); simpl; auto.
Qed.

Lemma applyUpdate_core (u : AccountUpdate) (now : Z) (a : Account) :
  up_email u = None -> up_password u = None -> up_categoryId u = None ->
  up_expiresAt u = None ->
  accountCore (applyUpdate u now a) = accountCore a.
Proof.
  intros E P C X. unfold accountCore, applyUpdate. simpl.
  rewrite E, P, C, X. reflexivity.
Qed.

(** A payload without email, password, category and expiry keeps what
    identifies the accounts, up to the order of the rows. *)
Lemma updatedTable_core (id : Z) (u : AccountUpdate) (now : Z) (rows : list Account) :
  up_email u = None -> up_password u = None -> up_categoryId u = None ->
  up_expiresAt u = None ->
  Permutation (map accountCore rows) (map accountCore (updatedTable id u now rows)).
Proof.
  intros E P C X.
  assert (map accountCore (rewrittenTable id u now rows) = map accountCore rows) as Q.
  { unfold rewrittenTable. rewrite map_map. apply map_ext.
    intros a. destruct (Z.eqb (acc_id a) id); auto.
    apply applyUpdate_core; assumption. }
  rewrite <- Q. apply Permutation_map. apply updatedTable_rewritten.
Qed.

(** The ways [handleGenerateCommand] ends, with what each leaves behind. *)
Lemma generate_cases (sqlLike : string -> string -> bool) (ownerId : option string)
    (m : Message) (args : list string) (s : BotSettings) (w : World) :
  exists w' news,
    run (handleGenerateCommand sqlLike ownerId m args s) w = (Ok tt, w') /\
    outbox w' = outbox w ++ news /\
    users w' = users w /\ categories w' = categories w /\
    botSettings w' = botSettings w /\ clock w' = clock w /\
    nextAccountId w' = nextAccountId w /\ nextCategoryId w' = nextCategoryId w /\
    nextSettingsId w' = nextSettingsId w /\
    ((accounts w' = accounts w /\ filter isDirectMessage news = [])
     \/
     (exists c a rest,
        candidates sqlLike w c = a :: rest /\
        (accounts w' =
           updatedTable (acc_id a) (generatedUpdate (author_tag m) (clock w))
                        (clock w) (accounts w) /\
         news = [DirectMessage (author_id m) (credentials c a);
                 Reply (author_id m) (RGenerated (cat_name c))]
         \/
         accounts w' =
           updatedTable (acc_id a) revertUpdate (clock w)
             (updatedTable (acc_id a) (generatedUpdate (author_tag m) (clock w))
                           (clock w) (accounts w)) /\
         news = [Reply (author_id m) RDmError]))).
Proof.
  destruct (permittedAt ownerId w m) eqn:P.
  2:{ eexists. eexists. split; [apply generate_denied; exact P|].
      simpl. repeat split; auto. }
  destruct (serviceName_cases args) as [(n & H & E) | H].
  2:{ eexists. eexists. split; [apply generate_usage; assumption|].
      simpl. repeat split; auto. }
  destruct (fst (selectCategoryByName n w)) as [c|] eqn:C.
  2:{ eexists. eexists. split; [eapply generate_not_found; eassumption|].
      simpl. repeat split; auto. }
  destruct (candidates sqlLike w c) as [|a rest] eqn:K.
  { destruct (generate_exhausted sqlLike ownerId m args s w n c P H E C K)
      as (l & R & _).
    eexists. eexists. split; [exact R|]. simpl. repeat split; auto. }
  destruct (acceptsDM m) eqn:D.
  - destruct (generate_delivered sqlLike ownerId m args s w n c a rest P H E C K D)
      as (l1 & l2 & R & _).
    eexists. eexists. split; [exact R|].
    do 8 (split; [reflexivity|]).
    right. exists c, a, rest. split; [exact K|]. left. split; reflexivity.
  - destruct (generate_undelivered sqlLike ownerId m args s w n c a rest P H E C K D)
      as (l1 & l2 & l3 & R & _).
    eexists. eexists. split; [exact R|].
    do 8 (split; [reflexivity|]).
    right. exists c, a, rest. split; [exact K|]. right. split; reflexivity.
Qed.

(** X7.  A run of [handleGenerateCommand], whatever its outcome, adds
    and removes no account and changes no account's id, email, password,
    category, expiry or creation time: the accounts are the same up to the
    order of the rows and to the status, the generation marks and the update
    time.  Users, categories and settings stay as they were. *)
Theorem generate_keeps_inventory (sqlLike : string -> string -> bool)
    (ownerId : option string) (m : Message) (args : list string)
    (s : BotSettings) (w : World) :
  exists w',
    run (handleGenerateCommand sqlLike ownerId m args s) w = (Ok tt, w') /\
    Permutation (map accountCore (accounts w)) (map accountCore (accounts w')) /\
    users w' = users w /\ categories w' = categories w /\
    botSettings w' = botSettings w /\ nextAccountId w' = nextAccountId w.
Proof.
  destruct (generate_cases sqlLike ownerId m args s w)
    as (w' & news & R & _ & U & C & B & _ & NA & _ & _ & Hacc).
  exists w'. split; [exact R|]. split; [|auto].
  destruct Hacc as [[Ha _] | (c & a & rest & _ & [[Ha _] | [Ha _]])]; rewrite Ha.
  - apply Permutation_refl.
  - apply updatedTable_core; reflexivity.
  - eapply Permutation_trans; apply updatedTable_core; reflexivity.
Qed.

(** X8.  A run of [handleGenerateCommand] sends at most one private
    message.  It goes to the author of the command and carries the email and
    password of a stored account that had status 'available', and that
    account is then marked as generated by the author at the time of the
    claim. *)
Theorem generate_private_message_to_author (sqlLike : string -> string -> bool)
    (ownerId : option string) (m : Message) (args : list string)
    (s : BotSettings) (w : World) :
  exists w' news,
    run (handleGenerateCommand sqlLike ownerId m args s) w = (Ok tt, w') /\
    outbox w' = outbox w ++ news /\
    (List.length (filter isDirectMessage news) <= 1)%nat /\
    (forall to text, In (DirectMessage to text) news ->
       to = author_id m /\
       exists a,
         In a (accounts w) /\ acc_status a = "available" /\
         dm_email text = acc_email a /\ dm_password text = acc_password a /\
         In (applyUpdate (generatedUpdate (author_tag m) (clock w)) (clock w) a)
            (accounts w')).
Proof.
  destruct (generate_cases sqlLike ownerId m args s w)
    as (w' & news & R & O & _ & _ & _ & _ & _ & _ & _ & Hacc).
  exists w', news. split; [exact R|]. split; [exact O|].
  destruct Hacc as [[Ha Hd] | (c & a & rest & K & [[Ha Hn] | [Ha Hn]])].
  - split; [rewrite Hd; simpl; lia|].
    intros to text Hin.
    assert (In (DirectMessage to text) (filter isDirectMessage news)) as HI
      by (apply filter_In; split; auto).
    rewrite Hd in HI. inversion HI.
  - subst news. split; [simpl; lia|].
    intros to text [Hin | [Hin | []]]; [|discriminate].
    inversion Hin; subst. split; auto.
    rewrite candidates_accounts in K. apply filter_head_In in K.
    destruct K as [Hin' Hs]. apply String.eqb_eq in Hs.
    exists a. repeat split; auto.
    rewrite Ha. apply updatedTable_In; auto.
  - subst news. split; [simpl; lia|].
    intros to text [Hin | []]. discriminate.
Qed.

(** ** Properties of [handleAddCommand] *)

Lemma lowerAscii_idem (c : ascii) : lowerAscii (lowerAscii c) = lowerAscii c.
Proof.
  destruct c as [[] [] [] [] [] [] [] []]; vm_compute; reflexivity.
Qed.

Lemma toLowerCase_idem (s : string) : toLowerCase (toLowerCase s) = toLowerCase s.
Proof.
  induction s as [|c r IH]; simpl; auto. rewrite lowerAscii_idem, IH. reflexivity.
Qed.

Lemma toLowerCase_isEmpty (s : string) : isEmpty (toLowerCase s) = isEmpty s.
Proof. destruct s; reflexivity. Qed.

(** X9.  An add command that is refused changes nothing in the store
    and is answered by one reply: the refusal for a requester who is not an
    admin, the usage for fewer than two arguments, and the format error when
    the second argument has no ':'. *)
Theorem add_rejected_changes_nothing (ownerId : option string)
    (m : Message) (args : list string) (s : BotSettings) (w : World) :
  adminAt ownerId w m = false \/
  (List.length args < 2)%nat \/
  (exists serviceName accountDetails more,
     args = serviceName :: accountDetails :: more /\
     includes ":" accountDetails = false) ->
  exists text,
    run (handleAddCommand ownerId m args s) w =
      (Ok tt, setOutbox (outbox w ++ [Reply (author_id m) text]) w) /\
    (text = RAdminDenied \/ text = RAddUsage (bs_prefix s) \/ text = RAddBadFormat).
Proof.
  intros H. unfold handleAddCommand. rewrite run_bind, run_isAdmin.
  destruct (adminAt ownerId w m) eqn:A; simpl negb; cbv iota.
  2:{ exists RAdminDenied. split; [reflexivity | auto]. }
  destruct H as [H | [H | (sn & ad & more & -> & I)]]; [discriminate| |].
  - destruct args as [|x [|y args]]; simpl in H; try lia;
      exists (RAddUsage (bs_prefix s)); split; auto.
  - rewrite I. simpl negb. cbv iota.
    exists RAddBadFormat. split; [reflexivity | auto].
Qed.

Lemma run_add_accepted (ownerId : option string) (m : Message)
    (serviceName accountDetails : string) (more : list string)
    (s : BotSettings) (w : World) :
  adminAt ownerId w m = true ->
  includes ":" accountDetails = true ->
  exists email password rest l1 l2,
    splitOn ":" accountDetails = email :: password :: rest /\
    let w0 :=
      match fst (selectCategoryByName serviceName w) with
      | Some _ => w
      | None =>
          snd (insertCategory
                 (mkInsertCategory serviceName (Some (serviceName +++ " accounts"))) w)
      end in
    let c :=
      match fst (selectCategoryByName serviceName w) with
      | Some c => c
      | None =>
          fst (insertCategory
                 (mkInsertCategory serviceName (Some (serviceName +++ " accounts"))) w)
      end in
    run (handleAddCommand ownerId m (serviceName :: accountDetails :: more) s) w =
    (Ok tt,
     setOutbox (outbox w ++ [Reply (author_id m) (RAccountAdded serviceName email)])
       (setLogs (logs w ++ [l1; l2]) (nextLogId w + 2)
          (setAccounts
             (accounts w ++
              [mkAccount (nextAccountId w) email password (cat_id c) "available"
                         None None None (clock w) (clock w)])
             (nextAccountId w + 1) w0))).
Proof.
  intros A I.
  destruct (splitOn_includes ":" accountDetails I) as (email & password & rest & Sp).
  exists email, password, rest.
  unfold handleAddCommand.
  rewrite run_bind, run_isAdmin, A. simpl negb. cbv iota.
  rewrite I. simpl negb. cbv iota. rewrite Sp.
  rewrite run_tryCatch, run_bind. unfold getCategoryByName. rewrite run_await.
  destruct (fst (selectCategoryByName serviceName w)) as [c|] eqn:C; cbv iota;
    simpl snd; eexists; eexists; (split; [reflexivity|]); cbv zeta; simpl;
    unfold setOutbox, setLogs, setAccounts, setCategories; simpl;
    rewrite <- ?app_assoc; simpl;
    replace (nextLogId w + 1 + 1) with (nextLogId w + 2) by lia;
    reflexivity.
Qed.

(** X10.  When a category is named like the service, in any letter
    case, an accepted add command creates no category: the account is stored
    in the category that exists, with status 'available', no expiry and no
    generation marks, under the next account id. *)
Theorem add_into_existing_category (ownerId : option string) (m : Message)
    (serviceName accountDetails : string) (more : list string)
    (s : BotSettings) (w : World) (c : AccountCategory) :
  adminAt ownerId w m = true ->
  includes ":" accountDetails = true ->
  fst (selectCategoryByName serviceName w) = Some c ->
  exists email password rest w',
    splitOn ":" accountDetails = email :: password :: rest /\
    run (handleAddCommand ownerId m (serviceName :: accountDetails :: more) s) w
      = (Ok tt, w') /\
    In c (categories w) /\
    toLowerCase (cat_name c) = toLowerCase serviceName /\
    categories w' = categories w /\
    accounts w' = accounts w ++
      [mkAccount (nextAccountId w) email password (cat_id c) "available"
                 None None None (clock w) (clock w)] /\
    outbox w' = outbox w ++ [Reply (author_id m) (RAccountAdded serviceName email)].
Proof.
  intros A I C.
  destruct (run_add_accepted ownerId m serviceName accountDetails more s w A I)
    as (email & password & rest & l1 & l2 & Sp & R).
  cbv zeta in R. rewrite C in R.
  exists email, password, rest. eexists.
  split; [exact Sp|]. split; [exact R|].
  unfold selectCategoryByName in C. simpl in C.
  apply find_some in C. destruct C as [Hin Hn]. apply String.eqb_eq in Hn.
  repeat split; auto.
Qed.

Lemma find_app_none {A : Type} (f : A -> bool) (l : list A) (x : A) :
  find f l = None -> f x = true -> find f (l ++ [x]) = Some x.
Proof.
  induction l as [|y ys IH]; simpl; intros H Fx.
  - rewrite Fx. reflexivity.
  - destruct (f y); [discriminate|]. apply IH; auto.
Qed.


(** ** Properties of the message handler *)

(** X12.  The settings of a guild are created once.  The first message
    of a guild without a row stores the defaults (prefix "!", no role lists,
    cooldown 3600 s) under the guild's id; resolving again, or for a guild
    that has a row, returns the stored row and writes nothing. *)
Theorem resolveSettings_creates_once (m : Message) (g : Guild) (w : World) :
  guild m = Some g ->
  exists s w1,
    run (resolveSettings m) w = (Ok s, w1) /\
    bs_guildId s = guild_id g /\
    run (resolveSettings m) w1 = (Ok s, w1) /\
    (fst (selectBotSettings (guild_id g) w) = None ->
     s = mkBotSettings (nextSettingsId w) (guild_id g) "!" (Some []) (Some []) 3600
                       (clock w) (clock w) /\
     botSettings w1 = botSettings w ++ [s]) /\
    (forall t, fst (selectBotSettings (guild_id g) w) = Some t -> s = t /\ w1 = w).
Proof.
  intros G. unfold resolveSettings. rewrite G. simpl.
  destruct (find (fun s => String.eqb (bs_guildId s) (guild_id g)) (botSettings w))
    as [t|] eqn:F.
  - exists t, w. simpl. rewrite F. simpl.
    pose proof (find_some _ _ F) as [_ Hg]. apply String.eqb_eq in Hg.
    split; [reflexivity|]. split; [exact Hg|]. split; [reflexivity|].
    split; [discriminate|]. intros t' Ht. inversion Ht. auto.
  - eexists. eexists. simpl. split; [reflexivity|]. split; [reflexivity|].
    split.
    + simpl.
      rewrite (find_app_none _ _ _ F) by (simpl; apply String.eqb_refl).
      reflexivity.
    + split; [intros _; split; reflexivity | discriminate].
Qed.

(** X13.  A message written by a bot is dropped before anything is
    read: the world stays as it is.  A message that does not start with the
    prefix of its scope runs no handler either: beyond the resolution of the
    scope's settings nothing is called, replied or logged. *)
Theorem onMessage_ignores_bots_and_plain_text
    (sqlLike : string -> string -> bool) (ownerId : option string)
    (handleStock : Message -> list string -> Prog unit)
    (handleStatus : Message -> Prog unit)
    (handleHelp : Message -> string -> Prog unit)
    (handleProfile : Message -> Prog unit)
    (handleCooldown : Message -> BotSettings -> Prog unit)
    (handleInfo : Message -> list string -> Prog unit)
    (handleRemove : Message -> list string -> BotSettings -> Prog unit)
    (handleBlacklist : Message -> list string -> Prog unit)
    (handleSetCooldown : Message -> list string -> BotSettings -> Prog unit)
    (m : Message) (w : World) (settings : BotSettings) (w1 : World) :
  run (resolveSettings m) w = (Ok settings, w1) ->
  author_bot m = true \/ startsWith (content m) (bs_prefix settings) = false ->
  let handler :=
    onMessage sqlLike ownerId handleStock handleStatus handleHelp handleProfile
              handleCooldown handleInfo handleRemove handleBlacklist
              handleSetCooldown m in
  run handler w = (Ok tt, if author_bot m then w else w1) /\
  calls handler w = (if author_bot m then 0%nat else calls (resolveSettings m) w) /\
  outbox w1 = outbox w /\ logs w1 = logs w /\ accounts w1 = accounts w /\
  categories w1 = categories w /\ users w1 = users w.
Proof.
  intros R H handler.
  destruct (run_resolveSettings m w) as (s' & w1' & R' & Hu & Ha & Hc & Hl & Ho & _).
  rewrite R in R'. inversion R'; subst s' w1'.
  split; [|split; [|repeat split; assumption]].
  - unfold handler, onMessage. rewrite run_tryCatch.
    destruct (author_bot m) eqn:B; [reflexivity|].
    destruct H as [H | H]; [discriminate|].
    rewrite run_bind, R. cbv iota. rewrite H. reflexivity.
  - unfold handler, onMessage. rewrite calls_tryCatch.
    destruct (author_bot m) eqn:B; [reflexivity|].
    destruct H as [H | H]; [discriminate|].
    rewrite run_bind, calls_bind, R. cbv iota. rewrite H. simpl. lia.
Qed.

Lemma slice_append (p t : string) : slice (String.length p) (p +++ t) = t.
Proof. induction p as [|c r IH]; simpl; auto. Qed.

Lemma startsWith_append (p t : string) : startsWith (p +++ t) p = true.
Proof.
  unfold startsWith. induction p as [|c r IH]; simpl.
  - destruct t; reflexivity.
  - rewrite IH. destruct (ascii_dec c c); [reflexivity | contradiction].
Qed.

Lemma lowerAscii_isWhite (c : ascii) : isWhite (lowerAscii c) = isWhite c.
Proof. destruct c as [[] [] [] [] [] [] [] []]; vm_compute; reflexivity. Qed.

Lemma lowerAscii_space (c : ascii) :
  Ascii.eqb (lowerAscii c) " "%char = Ascii.eqb c " "%char.
Proof. destruct c as [[] [] [] [] [] [] [] []]; vm_compute; reflexivity. Qed.

Lemma toLowerCase_trimStart (s : string) :
  trimStart (toLowerCase s) = toLowerCase (trimStart s).
Proof.
  induction s as [|c r IH]; simpl; auto.
  rewrite lowerAscii_isWhite. destruct (isWhite c); auto.
Qed.

Lemma toLowerCase_trimEnd (s : string) :
  trimEnd (toLowerCase s) = toLowerCase (trimEnd s).
Proof.
  induction s as [|c r IH]; simpl; auto.
  rewrite lowerAscii_isWhite, IH, toLowerCase_isEmpty.
  destruct (isWhite c && isEmpty (trimEnd r)); reflexivity.
Qed.

Lemma toLowerCase_splitSpacesFrom (inRun : bool) (s : string) :
  splitSpacesFrom inRun (toLowerCase s) = map toLowerCase (splitSpacesFrom inRun s).
Proof.
  revert inRun. induction s as [|c r IH]; intros inRun; simpl; auto.
  rewrite lowerAscii_space. destruct (Ascii.eqb c " "%char).
  - destruct inRun; rewrite IH; reflexivity.
  - rewrite IH. destruct (splitSpacesFrom false r); reflexivity.
Qed.

Lemma toLowerCase_splitSpaces (s : string) :
  splitSpaces (toLowerCase s) = map toLowerCase (splitSpaces s).
Proof.
  destruct s as [|c r]; [reflexivity|].
  unfold splitSpaces. cbn [toLowerCase]. rewrite lowerAscii_space.
  destruct (Ascii.eqb c " "%char).
  - rewrite toLowerCase_splitSpacesFrom. reflexivity.
  - change (String (lowerAscii c) (toLowerCase r)) with (toLowerCase (String c r)).
    apply toLowerCase_splitSpacesFrom.
Qed.

(** X14.  Command names are matched without regard to letter case: a
    text and its lower-case form, after the same prefix, parse to the same
    command, and the arguments of the second are those of the first in lower
    case.  A text that begins with the prefix passes the prefix test. *)
Theorem parseCommand_ignores_case (prefix text : string) :
  startsWith (prefix +++ text) prefix = true /\
  parseCommand prefix (prefix +++ toLowerCase text) =
  (fst (parseCommand prefix (prefix +++ text)),
   map toLowerCase (snd (parseCommand prefix (prefix +++ text)))).
Proof.
  split; [apply startsWith_append|].
  unfold parseCommand. rewrite !slice_append. unfold trim.
  rewrite toLowerCase_trimStart, toLowerCase_trimEnd, toLowerCase_splitSpaces.
  simpl. f_equal.
  - destruct (splitSpaces (trimEnd (trimStart text))) as [|x xs]; simpl; auto.
    rewrite toLowerCase_idem. reflexivity.
  - destruct (splitSpaces (trimEnd (trimStart text))); reflexivity.
Qed.

(** ** Properties of the admin commands *)

Lemma run_getAccounts (sqlLike : string -> string -> bool)
    (filters : option AccountFilters) (w : World) :
  run (getAccounts sqlLike filters) w =
  (Ok (filter (matchesFilters sqlLike filters) (accounts w)), w).
Proof. reflexivity. Qed.

(** The ways [handleRemoveCommand] ends. *)
Lemma remove_cases (sqlLike : string -> string -> bool) (ownerId : option string)
    (m : Message) (args : list string) (s : BotSettings) (w : World) :
  (exists r, run (handleRemoveCommand sqlLike ownerId m args s) w = (Ok r, w) /\
             forall email serviceName, r <> RmRemoved email serviceName)
  \/
  (exists serviceName email more c a l1 l2,
     args = serviceName :: email :: more /\
     adminAt ownerId w m = true /\
     fst (selectCategoryByName serviceName w) = Some c /\
     In a (accounts w) /\ acc_email a = email /\
     run (handleRemoveCommand sqlLike ownerId m args s) w =
     (Ok (RmRemoved email serviceName),
      setLogs (logs w ++ [l1; l2]) (nextLogId w + 2)
        (setAccounts (filter (fun b => negb (Z.eqb (acc_id b) (acc_id a))) (accounts w))
                     (nextAccountId w) w)) /\
     log_action l1 = "ACCOUNT_DELETED" /\ log_action l2 = "ACCOUNT_REMOVED").
Proof.
  unfold handleRemoveCommand. rewrite run_bind, run_isAdmin.
  destruct (adminAt ownerId w m) eqn:A; simpl negb; cbv iota.
  2:{ left. exists RmDenied. split; [reflexivity | discriminate]. }
  destruct args as [|serviceName [|email more]].
  1,2: left; eexists; split; [reflexivity | discriminate].
  rewrite run_tryCatch, run_bind. unfold getCategoryByName. rewrite run_await.
  destruct (fst (selectCategoryByName serviceName w)) as [c|] eqn:C; cbv iota; simpl snd.
  2:{ left. eexists. split; [reflexivity | discriminate]. }
  rewrite run_bind, run_getAccounts. cbv iota.
  destruct (find (fun a => String.eqb (acc_email a) email)
              (filter (matchesFilters sqlLike
                         (Some (mkFilters (Some (cat_id c)) None (Some email))))
                      (accounts w))) as [a|] eqn:F.
  2:{ left. eexists. split; [reflexivity | discriminate]. }
  apply find_some in F. destruct F as [Hin He]. apply String.eqb_eq in He.
  apply filter_In in Hin. destruct Hin as [Hin _].
  rewrite run_bind.
  destruct (run_deleteAccount_cases (acc_id a) w) as [[H _] | (a0 & l1 & _ & _ & R)].
  { exfalso. exact (H a Hin eq_refl). }
  rewrite R. cbv iota.
  right. exists serviceName, email, more, c, a, l1. eexists.
  split; [reflexivity|]. split; [reflexivity|]. split; [exact C|].
  split; [exact Hin|]. split; [exact He|].
  split.
  - simpl. unfold setLogs, setAccounts. simpl. rewrite <- app_assoc. simpl.
    replace (nextLogId w + 1 + 1) with (nextLogId w + 2) by lia. reflexivity.
  - split; [|reflexivity].
    unfold deleteAccount in R. simpl in R.
    destruct (filter (fun b => Z.eqb (acc_id b) (acc_id a)) (accounts w)); simpl in R.
    + discriminate.
    + inversion R as [[Hl]].
      apply app_inv_head in Hl. inversion Hl. reflexivity.
Qed.

(** X15.  [handleRemoveCommand] deletes nothing unless it answers that
    the account was removed, and then the requester is an admin, a category
    of the service's name exists, and what is gone are the rows with the id
    of a stored account that has exactly the given email; all other accounts,
    and the categories, users and settings, stay.  (The account need not
    belong to the category named: the search is the last [where] of the
    query.)  A removal logs ACCOUNT_DELETED and ACCOUNT_REMOVED; every other
    outcome logs nothing. *)
Theorem remove_deletes_only_the_named_account
    (sqlLike : string -> string -> bool) (ownerId : option string)
    (m : Message) (args : list string) (s : BotSettings) (w : World) :
  exists r w',
    run (handleRemoveCommand sqlLike ownerId m args s) w = (Ok r, w') /\
    users w' = users w /\ categories w' = categories w /\
    botSettings w' = botSettings w /\
    ((accounts w' = accounts w /\ logs w' = logs w /\
      forall email serviceName, r <> RmRemoved email serviceName)
     \/
     (exists serviceName email more c a,
        args = serviceName :: email :: more /\
        r = RmRemoved email serviceName /\
        adminAt ownerId w m = true /\
        fst (selectCategoryByName serviceName w) = Some c /\
        In a (accounts w) /\ acc_email a = email /\
        accounts w' =
          filter (fun b => negb (Z.eqb (acc_id b) (acc_id a))) (accounts w) /\
        map log_action (logs w') =
          map log_action (logs w) ++ ["ACCOUNT_DELETED"; "ACCOUNT_REMOVED"])).
Proof.
  destruct (remove_cases sqlLike ownerId m args s w)
    as [(r & R & N) | (sn & em & more & c & a & l1 & l2 & -> & A & C & Hin & He & R & L1 & L2)].
  - exists r, w. split; [exact R|]. do 3 (split; [reflexivity|]). left. auto.
  - eexists. eexists. split; [exact R|]. do 3 (split; [reflexivity|]).
    right. exists sn, em, more, c, a.
    do 6 (split; [reflexivity || assumption|]).
    split; [reflexivity|].
    simpl. rewrite map_app. simpl. rewrite L1, L2. reflexivity.
Qed.

Lemma run_blacklist (ownerId : option string) (m : Message) (args : list string)
    (w : World) :
  (exists r, run (handleBlacklistCommand ownerId m args) w = (Ok r, w) /\
             (r = BlDenied \/ r = BlUsage))
  \/
  (exists userId more l,
     args = userId :: more /\ more <> [] /\ adminAt ownerId w m = true /\
     log_action l = "USER_BLACKLISTED" /\ log_type l = "warning" /\
     run (handleBlacklistCommand ownerId m args) w =
     (Ok (BlListed userId (String.concat " " more)),
      setLogs (logs w ++ [l]) (nextLogId w + 1) w)).
Proof.
  unfold handleBlacklistCommand. rewrite run_bind, run_isAdmin.
  destruct (adminAt ownerId w m) eqn:A; simpl negb; cbv iota.
  2:{ left. exists BlDenied. split; auto. }
  destruct args as [|userId [|x more]].
  1,2: left; exists BlUsage; split; auto.
  right. exists userId, (x :: more). eexists.
  split; [reflexivity|]. split; [discriminate|]. split; [reflexivity|].
  split; [|split; [|reflexivity]]; reflexivity.
Qed.

(** A claim reads the settings, the categories, the accounts and the clock;
    worlds that agree on these give the same outbox and accounts. *)
Lemma generate_reads (sqlLike : string -> string -> bool) (ownerId : option string)
    (m : Message) (args : list string) (s : BotSettings) (w1 w2 : World) :
  botSettings w1 = botSettings w2 -> categories w1 = categories w2 ->
  accounts w1 = accounts w2 -> clock w1 = clock w2 -> outbox w1 = outbox w2 ->
  fst (run (handleGenerateCommand sqlLike ownerId m args s) w1) =
  fst (run (handleGenerateCommand sqlLike ownerId m args s) w2) /\
  outbox (snd (run (handleGenerateCommand sqlLike ownerId m args s) w1)) =
  outbox (snd (run (handleGenerateCommand sqlLike ownerId m args s) w2)) /\
  accounts (snd (run (handleGenerateCommand sqlLike ownerId m args s) w1)) =
  accounts (snd (run (handleGenerateCommand sqlLike ownerId m args s) w2)).
Proof.
  intros B C A T O.
  pose proof (permittedAt_settings ownerId w1 w2 m B) as PP.
  destruct (permittedAt ownerId w1 m) eqn:P1.
  2:{ rewrite (generate_denied sqlLike ownerId m args s w1 P1).
      rewrite (generate_denied sqlLike ownerId m args s w2) by congruence.
      simpl. rewrite O, A. auto. }
  assert (permittedAt ownerId w2 m = true) as P2 by congruence.
  destruct (serviceName_cases args) as [(n & H & E) | H].
  2:{ rewrite (generate_usage sqlLike ownerId m args s w1 P1 H).
      rewrite (generate_usage sqlLike ownerId m args s w2 P2 H).
      simpl. rewrite O, A. auto. }
  pose proof (selectCategoryByName_categories w1 w2 n C) as CC.
  destruct (fst (selectCategoryByName n w1)) as [c|] eqn:C1.
  2:{ rewrite (generate_not_found sqlLike ownerId m args s w1 n P1 H E C1).
      rewrite (generate_not_found sqlLike ownerId m args s w2 n P2 H E) by congruence.
      simpl. rewrite O, A, C. auto. }
  assert (fst (selectCategoryByName n w2) = Some c) as C2 by congruence.
  assert (candidates sqlLike w1 c = candidates sqlLike w2 c) as KK
    by (rewrite !candidates_accounts, A; reflexivity).
  destruct (candidates sqlLike w1 c) as [|a rest] eqn:K1.
  { destruct (generate_exhausted sqlLike ownerId m args s w1 n c P1 H E C1 K1)
      as (l & R1 & _).
    destruct (generate_exhausted sqlLike ownerId m args s w2 n c P2 H E C2 (eq_sym KK))
      as (l' & R2 & _).
    rewrite R1, R2. simpl. rewrite O, A. auto. }
  destruct (acceptsDM m) eqn:D.
  - destruct (generate_delivered sqlLike ownerId m args s w1 n c a rest P1 H E C1 K1 D)
      as (l1 & l2 & R1 & _).
    destruct (generate_delivered sqlLike ownerId m args s w2 n c a rest P2 H E C2
                (eq_sym KK) D) as (k1 & k2 & R2 & _).
    rewrite R1, R2. simpl. rewrite O, A, T. auto.
  - destruct (generate_undelivered sqlLike ownerId m args s w1 n c a rest P1 H E C1 K1 D)
      as (l1 & l2 & l3 & R1 & _).
    destruct (generate_undelivered sqlLike ownerId m args s w2 n c a rest P2 H E C2
                (eq_sym KK) D) as (k1 & k2 & k3 & R2 & _).
    rewrite R1, R2. simpl. rewrite O, A, T. auto.
Qed.

(** X16.  [handleBlacklistCommand] stores no blacklist.  The most it
    does is append one warning entry USER_BLACKLISTED to the log, for an admin
    who gives a user id and a reason; accounts, categories, users and settings
    stay as they were, so afterwards every requester, the listed one
    included, is permitted as before, and a claim sends the replies and
    private messages, and leaves the accounts, it would have without the
    command. *)
Theorem blacklist_only_logs (sqlLike : string -> string -> bool)
    (ownerId : option string) (m : Message) (args : list string) (w : World) :
  exists r w',
    run (handleBlacklistCommand ownerId m args) w = (Ok r, w') /\
    users w' = users w /\ accounts w' = accounts w /\ categories w' = categories w /\
    botSettings w' = botSettings w /\
    (logs w' = logs w \/
     exists l, logs w' = logs w ++ [l] /\ log_action l = "USER_BLACKLISTED" /\
               exists userId reason, r = BlListed userId reason) /\
    (forall who, permittedAt ownerId w' who = permittedAt ownerId w who) /\
    (forall who args' s',
       exists news,
         outbox (snd (run (handleGenerateCommand sqlLike ownerId who args' s') w')) =
           outbox w' ++ news /\
         outbox (snd (run (handleGenerateCommand sqlLike ownerId who args' s') w)) =
           outbox w ++ news /\
         accounts (snd (run (handleGenerateCommand sqlLike ownerId who args' s') w')) =
         accounts (snd (run (handleGenerateCommand sqlLike ownerId who args' s') w))).
Proof.
  destruct (run_blacklist ownerId m args w)
    as [(r & R & _) | (u & more & l & -> & _ & _ & La & _ & R)].
  - exists r, w. split; [exact R|]. do 4 (split; [reflexivity|]).
    split; [left; reflexivity|]. split; [reflexivity|].
    intros who args' s'.
    destruct (generate_cases sqlLike ownerId who args' s' w) as (w2 & news & G & O & _).
    exists news. rewrite G. simpl snd. auto.
  - eexists. eexists. split; [exact R|]. do 4 (split; [reflexivity|]).
    split.
    { right. exists l. split; [reflexivity|]. split; [exact La|].
      eexists. eexists. reflexivity. }
    split.
    { intros who. apply permittedAt_settings. reflexivity. }
    intros who args' s'.
    destruct (generate_cases sqlLike ownerId who args' s' w) as (w2 & news & G & O & _).
    exists news.
    match goal with |- context [run _ ?W] =>
      destruct (generate_reads sqlLike ownerId who args' s' W w) as (_ & Ho & Ha)
    end; try reflexivity.
    rewrite Ho, Ha, G. simpl snd. auto.
Qed.

(** The table of settings with the cooldown of one guild set where its
    rows stand. *)
Definition withCooldown (guildId : string) (seconds now : Z)
    (rows : list BotSettings) : list BotSettings :=
  map (fun s =>
         if String.eqb (bs_guildId s) guildId
         then applySettingsUpdate (cooldownUpdate seconds) now s else s) rows.

Lemma updatedSettings_withCooldown (guildId : string) (seconds now : Z)
    (rows : list BotSettings) :
  Permutation (withCooldown guildId seconds now rows)
              (updatedSettings guildId (cooldownUpdate seconds) now rows).
Proof.
  unfold withCooldown, updatedSettings.
  induction rows as [|x l IH]; simpl; [constructor|].
  destruct (String.eqb (bs_guildId x) guildId); simpl.
  - apply Permutation_cons_app. exact IH.
  - apply perm_skip. exact IH.
Qed.

(** X17.  An admin's [setcooldown n] in a guild that has settings, for
    a parsed number [n >= 0] (zero included) with [60 * n] in the range of
    the integer column, stores [60 * n] seconds as the cooldown of that
    guild.  Up to the order of the rows, the settings are the former ones
    with the cooldown and the update time of the guild's rows set: these rows
    keep their id, prefix and role lists, and the rows of other guilds are
    untouched.  One COOLDOWN_UPDATED entry is logged, and accounts,
    categories and users stay. *)
Theorem setcooldown_stores_seconds (ownerId : option string)
    (parseInt : string -> option Z) (m : Message) (first : string)
    (more : list string) (s : BotSettings) (w : World) (g : Guild)
    (t : BotSettings) (minutes : Z) :
  adminAt ownerId w m = true ->
  parseInt first = Some minutes -> 0 <= minutes -> minutes * 60 <= 2147483647 ->
  guild m = Some g ->
  fst (selectBotSettings (guild_id g) w) = Some t ->
  exists w' l,
    run (handleSetCooldownCommand ownerId parseInt m (first :: more) s) w
      = (Ok (ScUpdated minutes), w') /\
    Permutation (withCooldown (guild_id g) (minutes * 60) (clock w) (botSettings w))
                (botSettings w') /\
    (forall r, In r (botSettings w') -> bs_guildId r = guild_id g ->
               bs_cooldown r = minutes * 60) /\
    (forall r, In r (botSettings w) -> bs_guildId r <> guild_id g ->
               In r (botSettings w')) /\
    Permutation
      (map (fun r => (bs_id r, bs_guildId r, bs_prefix r, bs_allowedRoles r,
                      bs_adminRoles r)) (botSettings w))
      (map (fun r => (bs_id r, bs_guildId r, bs_prefix r, bs_allowedRoles r,
                      bs_adminRoles r)) (botSettings w')) /\
    logs w' = logs w ++ [l] /\ log_action l = "COOLDOWN_UPDATED" /\
    accounts w' = accounts w /\ categories w' = categories w /\ users w' = users w.
Proof.
  intros A Pi Nn Up G F.
  assert (acceptedSettings (cooldownUpdate (minutes * 60)) = true) as Acc.
  { unfold acceptedSettings, cooldownUpdate, int4. simpl.
    apply andb_true_iff. split; apply Z.leb_le; lia. }
  unfold handleSetCooldownCommand. rewrite run_bind, run_isAdmin, A.
  simpl negb. cbv iota. rewrite Pi.
  assert ((minutes <? 0)%Z = false) as Lt by (apply Z.ltb_ge; exact Nn).
  rewrite Lt. rewrite run_tryCatch. cbv zeta. rewrite G.
  rewrite run_bind. unfold updateBotSettings.
  rewrite run_bind. unfold getBotSettings. rewrite run_await, F. cbv iota. simpl snd.
  unfold updateBotSettingsByGuild. rewrite Acc.
  rewrite run_bind, run_await. cbv iota.
  unfold selectBotSettings in F. simpl in F.
  pose proof (find_some _ _ F) as [Hin Hg].
  destruct (filter (fun s0 => String.eqb (bs_guildId s0) (guild_id g)) (botSettings w))
    as [|x xs] eqn:Q.
  { exfalso.
    assert (In t (filter (fun s0 => String.eqb (bs_guildId s0) (guild_id g))
                         (botSettings w))) as HI by (apply filter_In; auto).
    rewrite Q in HI. inversion HI. }
  unfold updateSettingsRows. simpl fst. simpl snd. rewrite Q.
  simpl map at 1. simpl hd_error. simpl run at 2. cbv iota.
  eexists. eexists. split; [simpl; reflexivity|]. simpl.
  pose proof (updatedSettings_withCooldown (guild_id g) (minutes * 60) (clock w)
                (botSettings w)) as Pm.
  split; [exact Pm|].
  split.
  { intros r Hr Hr'.
    apply (Permutation_in _ (Permutation_sym Pm)) in Hr.
    unfold withCooldown in Hr.
    apply in_map_iff in Hr. destruct Hr as (r0 & Hr0 & _).
    destruct (String.eqb (bs_guildId r0) (guild_id g)) eqn:Q0.
    - subst r. reflexivity.
    - subst r. apply String.eqb_neq in Q0. contradiction. }
  split.
  { intros r Hr Hn. apply (Permutation_in _ Pm).
    unfold withCooldown. apply in_map_iff. exists r. split; auto.
    apply String.eqb_neq in Hn. rewrite Hn. reflexivity. }
  split.
  { eapply Permutation_trans; [|apply Permutation_map; exact Pm].
    unfold withCooldown. rewrite map_map.
    erewrite map_ext; [apply Permutation_refl|].
    intros r. simpl. destruct (String.eqb (bs_guildId r) (guild_id g)); reflexivity. }
  repeat split; reflexivity.
Qed.

(** A cooldown beyond the integer column: the update is rejected, an error
    is logged and nothing is stored. *)
Example setcooldown_out_of_range :
  let w := mkWorld [] [] [] [mkBotSettings 1 "g1" "!" (Some []) (Some []) 3600 0 0]
                   [] 1 1 2 1 100000 [] in
  let m := mkMessage false "U5" "U5#0005" (Some (mkGuild "g1" "Guild One"))
                     (Some (mkMember [] true)) "!setcooldown 40000000" true in
  let after :=
    run (handleSetCooldownCommand None (fun _ => Some 40000000) m ["40000000"]
           (mkBotSettings 1 "g1" "!" (Some []) (Some []) 3600 0 0)) w in
  fst after = Ok ScSystemError /\
  botSettings (snd after) = botSettings w /\
  map log_action (logs (snd after)) = ["COOLDOWN_UPDATE_ERROR"].
Proof. vm_compute. repeat split. Qed.

(** X18.  A [setcooldown] that is not carried out changes nothing: the
    requester is not an admin, the argument is missing, it does not parse or
    is negative, the message is a direct message, or the guild has no row of
    settings. *)
Theorem setcooldown_rejected_changes_nothing (ownerId : option string)
    (parseInt : string -> option Z) (m : Message) (args : list string)
    (s : BotSettings) (w : World) :
  adminAt ownerId w m = false \/
  args = [] \/
  (exists first more, args = first :: more /\
     (parseInt first = None \/
      (exists n, parseInt first = Some n /\
         (n < 0 \/ guild m = None \/
          exists g, guild m = Some g /\
                    fst (selectBotSettings (guild_id g) w) = None)))) ->
  exists r,
    run (handleSetCooldownCommand ownerId parseInt m args s) w = (Ok r, w) /\
    forall minutes, r <> ScUpdated minutes.
Proof.
  intros H. unfold handleSetCooldownCommand. rewrite run_bind, run_isAdmin.
  destruct (adminAt ownerId w m) eqn:A; simpl negb; cbv iota.
  2:{ exists ScDenied. split; [reflexivity | discriminate]. }
  destruct H as [H | [-> | (first & more & -> & H)]]; [discriminate| |].
  { eexists. split; [reflexivity | discriminate]. }
  destruct H as [Pi | (n & Pi & H)]; rewrite Pi.
  { eexists. split; [reflexivity | discriminate]. }
  destruct (n <? 0)%Z eqn:Lt.
  { eexists. split; [reflexivity | discriminate]. }
  destruct H as [H | [G | (g & G & F)]].
  - apply Z.ltb_ge in Lt. lia.
  - rewrite run_tryCatch. cbv zeta. rewrite G.
    eexists. split; [reflexivity | discriminate].
  - rewrite run_tryCatch. cbv zeta. rewrite G.
    rewrite run_bind. unfold updateBotSettings.
    rewrite run_bind. unfold getBotSettings. rewrite run_await, F.
    eexists. split; [reflexivity | discriminate].
Qed.

(** X19.  The answer of [handleCooldownCommand] to a permitted
    requester depends on the cooldown of the settings alone, not on who asks
    or on any account: the last claim is taken to be two hours before now, so
    the cooldown is reported over exactly when it is at most 7200 s, and
    otherwise the remaining time is the cooldown less two hours.  The world is
    left as it is. *)
Theorem cooldown_command_assumes_two_hours (ownerId : option string)
    (m : Message) (s : BotSettings) (w : World) :
  permittedAt ownerId w m = true ->
  let remaining := bs_cooldown s * 1000 - 7200000 in
  run (handleCooldownCommand ownerId m s) w =
  (Ok (if (bs_cooldown s <=? 7200)%Z then CdOver
       else CdActive (remaining / 60000) ((remaining mod 60000) / 1000)
                     (bs_cooldown s) (clock w + remaining)),
   w).
Proof.
  intros P remaining. unfold handleCooldownCommand.
  rewrite run_bind, run_hasPermission, P. simpl negb. cbv iota.
  rewrite run_tryCatch, run_bind. unfold newDate. rewrite run_await.
  simpl fst. simpl snd. cbv iota. cbv zeta.
  rewrite run_bind, run_await. simpl fst. simpl snd. cbv iota. cbv zeta.
  replace (clock w - (clock w - 1000 * 60 * 60 * 2)) with 7200000 by lia.
  replace (bs_cooldown s * 1000 - 7200000) with remaining by reflexivity.
  replace (clock w - 1000 * 60 * 60 * 2 + bs_cooldown s * 1000)
    with (clock w + remaining) by (unfold remaining; lia).
  change (1000 * 60) with 60000.
  destruct (bs_cooldown s <=? 7200)%Z eqn:Q.
  - apply Z.leb_le in Q.
    assert (Z.max 0 remaining = 0) as M by (unfold remaining; lia).
    rewrite M. reflexivity.
  - apply Z.leb_gt in Q.
    assert (Z.max 0 remaining = remaining) as M by (unfold remaining; lia).
    rewrite M.
    assert ((remaining <=? 0)%Z = false) as Q2 by (apply Z.leb_gt; unfold remaining; lia).
    rewrite Q2. reflexivity.
Qed.

(** ** Properties of the stock command *)

(** The accounts of a category, whatever their status. *)
Definition accountsOf (w : World) (c : AccountCategory) : list Account :=
  filter (fun a => Z.eqb (acc_categoryId a) (cat_id c)) (accounts w).

(** The line of the inventory for a category: the number of its accounts,
    and of those whose stored status is 'available'. *)
Definition stockLine (w : World) (c : AccountCategory) : StockInfo :=
  mkStockInfo (cat_name c)
    (Z.of_nat (List.length (accountsOf w c)))
    (Z.of_nat (List.length (availableOf w c))).

Lemma filter_filter {A : Type} (f g : A -> bool) (l : list A) :
  filter g (filter f l) = filter (fun x => f x && g x) l.
Proof.
  induction l as [|x xs IH]; simpl; auto.
  destruct (f x); simpl; [destruct (g x)|]; rewrite IH; reflexivity.
Qed.

(** The query of the stock command has the category as its only filter. *)
Lemma run_stockOf (sqlLike : string -> string -> bool)
    (cs : list AccountCategory) (w : World) :
  run (stockOf sqlLike cs) w = (Ok (map (stockLine w) cs), w).
Proof.
  induction cs as [|c rest IH]; [reflexivity|].
  cbn [stockOf]. rewrite run_bind, run_getAccounts. cbv iota.
  rewrite run_bind, IH. cbv iota. simpl run. cbn [map]. f_equal. f_equal. f_equal.
  unfold stockLine, accountsOf, availableOf. f_equal.
  f_equal. f_equal. rewrite filter_filter. reflexivity.
Qed.

Lemma stock_totals (infos : list StockInfo) (a b : Z) :
  Forall (fun i => 0 <= si_available i <= si_total i) infos -> a <= b ->
  fold_left (fun sum info => sum + si_available info) infos a <=
  fold_left (fun sum info => sum + si_total info) infos b.
Proof.
  revert a b. induction infos as [|i rest IH]; intros a b F L; simpl; auto.
  inversion F; subst. apply IH; auto. lia.
Qed.

Lemma stock_sums (w : World) (cs : list AccountCategory) (z : Z) :
  fold_left (fun sum info => sum + si_available info) (map (stockLine w) cs) z =
  fold_left Z.add (map (fun c => Z.of_nat (List.length (availableOf w c))) cs) z /\
  fold_left (fun sum info => sum + si_total info) (map (stockLine w) cs) z =
  fold_left Z.add (map (fun c => Z.of_nat (List.length (accountsOf w c))) cs) z.
Proof.
  revert z. induction cs as [|c rest IH]; intros z; simpl; auto.
  split; [apply (proj1 (IH _)) | apply (proj2 (IH _))].
Qed.

(** X20.  For a permitted requester, [handleStockCommand] changes
    nothing and reports, for every category it lists, the number of accounts
    of the category and, as available, the number of those whose stored
    status is 'available' (expired or not); the totals are the sums over the
    listed categories, and the total available never exceeds the total.
    Without a service name it lists every category; with one, the categories
    of that name in any letter case, and it answers that the service is not
    found when there is none. *)
Theorem stock_counts_by_category (sqlLike : string -> string -> bool)
    (ownerId : option string) (m : Message) (args : list string) (w : World) :
  permittedAt ownerId w m = true ->
  let wanted :=
    match option_map toLowerCase (nth_error args 0) with
    | Some n => if isEmpty n then None else Some n
    | None => None
    end in
  let target :=
    match wanted with
    | Some n => filter (fun c => String.eqb (toLowerCase (cat_name c)) n) (categories w)
    | None => categories w
    end in
  exists r,
    run (handleStockCommand sqlLike ownerId m args) w = (Ok r, w) /\
    match wanted, target with
    | Some n, [] => r = StServiceNotFound n
    | _, _ =>
        exists totalAvailable totalAccounts,
          r = StInventory (map (stockLine w) target) totalAvailable totalAccounts /\
          totalAvailable =
            fold_left Z.add
              (map (fun c => Z.of_nat (List.length (availableOf w c))) target) 0 /\
          totalAccounts =
            fold_left Z.add
              (map (fun c => Z.of_nat (List.length (accountsOf w c))) target) 0 /\
          0 <= totalAvailable <= totalAccounts
    end.
Proof.
  intros P wanted target.
  assert (forall cs : list AccountCategory,
            exists ta tt_,
              run (stockInfo <- stockOf sqlLike cs ;;
                   Ret (StInventory stockInfo
                          (fold_left (fun sum info => sum + si_available info) stockInfo 0)
                          (fold_left (fun sum info => sum + si_total info) stockInfo 0))) w
              = (Ok (StInventory (map (stockLine w) cs) ta tt_), w) /\
              ta = fold_left Z.add
                     (map (fun c => Z.of_nat (List.length (availableOf w c))) cs) 0 /\
              tt_ = fold_left Z.add
                      (map (fun c => Z.of_nat (List.length (accountsOf w c))) cs) 0 /\
              0 <= ta <= tt_) as Inv.
  { intros cs. rewrite run_bind, run_stockOf. cbv iota.
    eexists. eexists. split; [reflexivity|].
    assert (Forall (fun i => 0 <= si_available i <= si_total i)
                   (map (stockLine w) cs)) as FA.
    { apply Forall_forall. intros i Hi. apply in_map_iff in Hi.
      destruct Hi as (c & <- & _). simpl. split; [lia|].
      apply inj_le. unfold availableOf, accountsOf.
      rewrite <- (filter_filter (fun a => Z.eqb (acc_categoryId a) (cat_id c))
                    (fun a => String.eqb (acc_status a) "available")).
      apply filter_length_le. }
    destruct (stock_sums w cs 0) as [Sa St].
    split; [exact Sa|]. split; [exact St|].
    split.
    + assert (forall l z, Forall (fun i => 0 <= si_available i <= si_total i) l ->
                0 <= z ->
                0 <= fold_left (fun sum info => sum + si_available info) l z) as NN.
      { induction l as [|i l IH]; intros z F Hz; simpl; auto.
        inversion F; subst. apply IH; auto. lia. }
      apply NN; auto. lia.
    + apply stock_totals; auto. lia. }
  unfold handleStockCommand.
  rewrite run_bind, run_hasPermission, P. simpl negb. cbv iota. cbv zeta.
  fold wanted. rewrite run_tryCatch, run_bind. unfold getCategories.
  rewrite run_await. simpl fst. simpl snd. cbv iota.
  fold target.
  destruct wanted as [n|] eqn:W.
  - destruct target as [|c cs] eqn:T.
    + eexists. split; reflexivity.
    + destruct (Inv (c :: cs)) as (ta & tt_ & R & Hta & Htt & Hle).
      rewrite R. eexists. split; [reflexivity|].
      exists ta, tt_. auto.
  - destruct (Inv target) as (ta & tt_ & R & Hta & Htt & Hle).
    rewrite R. eexists. split; [reflexivity|].
    exists ta, tt_. auto.
Qed.

(** ** Properties of password hashing, login and registration *)

Lemma hexDigit_ok (n : Z) :
  0 <= n < 16 ->
  hexVal (hexDigit n) = Some n /\ Ascii.eqb (hexDigit n) "."%char = false.
Proof.
  intros H. rewrite <- (Z2Nat.id n) by lia.
  assert (Z.to_nat n < 16)%nat as K by lia.
  revert K. generalize (Z.to_nat n). intros k K.
  do 16 (destruct k as [|k]; [vm_compute; split; reflexivity|]).
  lia.
Qed.

Lemma toHex_no_dot (buf : list Z) :
  Forall isByte buf -> includes "." (toHex buf) = false.
Proof.
  induction 1 as [|b rest Hb _ IH]; simpl; auto.
  unfold isByte in Hb.
  destruct (hexDigit_ok (b / 16)) as [_ H1].
  { split; [apply Z.div_pos; lia | apply Z.div_lt_upper_bound; lia]. }
  destruct (hexDigit_ok (b mod 16)) as [_ H2].
  { apply Z.mod_pos_bound. lia. }
  rewrite H1, H2, IH. reflexivity.
Qed.

Lemma bufferFromHex_toHex (buf : list Z) :
  Forall isByte buf -> bufferFromHex (toHex buf) = buf.
Proof.
  induction 1 as [|b rest Hb _ IH]; [reflexivity|].
  unfold isByte in Hb. cbn [toHex bufferFromHex].
  destruct (hexDigit_ok (b / 16)) as [H1 _].
  { split; [apply Z.div_pos; lia | apply Z.div_lt_upper_bound; lia]. }
  destruct (hexDigit_ok (b mod 16)) as [H2 _].
  { apply Z.mod_pos_bound. lia. }
  rewrite H1, H2, IH. f_equal.
  rewrite (Z.div_mod b 16) at 3 by lia. reflexivity.
Qed.

Lemma splitOn_no_sep (sep : ascii) (s : string) :
  includes sep s = false -> splitOn sep s = [s].
Proof.
  induction s as [|c r IH]; simpl; auto.
  intros H. apply orb_false_iff in H. destruct H as [H1 H2].
  rewrite H1, (IH H2). reflexivity.
Qed.

Lemma splitOn_append (sep : ascii) (h t : string) :
  includes sep h = false ->
  splitOn sep (h +++ String sep t) = h :: splitOn sep t.
Proof.
  induction h as [|c r IH]; simpl.
  - intros _. rewrite Ascii.eqb_refl. reflexivity.
  - intros H. apply orb_false_iff in H. destruct H as [H1 H2].
    rewrite H1, (IH H2). reflexivity.
Qed.

Lemma includes_append (sep : ascii) (h t : string) :
  includes sep (h +++ String sep t) = true.
Proof.
  induction h as [|c r IH]; simpl.
  - rewrite Ascii.eqb_refl. reflexivity.
  - rewrite IH. apply orb_true_r.
Qed.

Lemma bufferEqb_refl (a : list Z) : bufferEqb a a = true.
Proof. induction a as [|x xs IH]; simpl; auto. rewrite Z.eqb_refl. exact IH. Qed.

Lemma bufferEqb_eq (a b : list Z) : bufferEqb a b = true <-> a = b.
Proof.
  revert b. induction a as [|x xs IH]; intros [|y ys]; simpl;
    try (split; [discriminate | congruence]); try tauto.
  rewrite andb_true_iff, Z.eqb_eq, IH. split.
  - intros [-> ->]. reflexivity.
  - intros H. inversion H. auto.
Qed.

(** Comparing against a hash made by [hashPassword] compares the two
    [scrypt] outputs under the stored salt. *)
Lemma run_comparePasswords_hashed (scrypt : string -> string -> list Z)
    (random : list Z) (password supplied : string) (w : World) :
  (forall p s, Forall isByte (scrypt p s)) -> Forall isByte random ->
  run (comparePasswords scrypt supplied (hashPassword scrypt random password)) w =
  run (timingSafeEqual (scrypt password (toHex random))
                       (scrypt supplied (toHex random))) w.
Proof.
  intros Hs Hr. unfold comparePasswords, hashPassword.
  change (toHex (scrypt password (toHex random)) +++ "." +++ toHex random)
    with (toHex (scrypt password (toHex random)) +++ String "." (toHex random)).
  rewrite includes_append. simpl negb. cbv iota. cbv zeta.
  rewrite splitOn_append by (apply toHex_no_dot; apply Hs).
  rewrite splitOn_no_sep by (apply toHex_no_dot; exact Hr).
  simpl nth. rewrite bufferFromHex_toHex by apply Hs. reflexivity.
Qed.

(** X21.  A password hashed by [hashPassword] is accepted by
    [comparePasswords], whatever the random salt bytes; another password is
    accepted exactly when [scrypt] gives it the same key under that salt, and
    the comparison throws when the two keys differ in length.  ([scrypt]
    yields bytes.) *)
Theorem hashPassword_then_comparePasswords (scrypt : string -> string -> list Z)
    (random : list Z) (password supplied : string) (w : World) :
  (forall p s, Forall isByte (scrypt p s)) -> Forall isByte random ->
  let stored := hashPassword scrypt random password in
  let salt := toHex random in
  run (comparePasswords scrypt password stored) w = (Ok true, w) /\
  (List.length (scrypt supplied salt) = List.length (scrypt password salt) ->
   exists accepted,
     run (comparePasswords scrypt supplied stored) w = (Ok accepted, w) /\
     (accepted = true <-> scrypt supplied salt = scrypt password salt)) /\
  (List.length (scrypt supplied salt) <> List.length (scrypt password salt) ->
   exists e, run (comparePasswords scrypt supplied stored) w = (Err e, w)).
Proof.
  intros Hs Hr stored salt. unfold stored, salt.
  rewrite !run_comparePasswords_hashed by assumption.
  unfold timingSafeEqual. rewrite Nat.eqb_refl, bufferEqb_refl.
  split; [reflexivity|]. split.
  - intros L. rewrite <- L, Nat.eqb_refl. eexists. split; [reflexivity|].
    rewrite bufferEqb_eq. split; congruence.
  - intros L. apply not_eq_sym in L. apply Nat.eqb_neq in L. rewrite L.
    eexists. reflexivity.
Qed.

Lemma run_comparePasswords_world (scrypt : string -> string -> list Z)
    (supplied stored : string) (w : World) :
  snd (run (comparePasswords scrypt supplied stored) w) = w.
Proof.
  unfold comparePasswords, timingSafeEqual.
  destruct (negb (includes "." stored)); [reflexivity|]. cbv zeta.
  destruct (Nat.eqb _ _); reflexivity.
Qed.

(** X22.  A stored password that contains a '.' is read as hash and
    salt.  When the text before the first '.' does not decode to as many
    bytes as [scrypt] yields (a plain-text password with a dot in it, say),
    every login of that user is answered 500, with the stored text itself as
    with any other password, and nothing is logged. *)
Theorem login_dotted_plaintext_fails (scrypt : string -> string -> list Z)
    (username supplied : string) (user : User) (w : World) :
  isEmpty username = false -> isEmpty supplied = false ->
  fst (selectUserByUsername username w) = Some user ->
  includes "." (usr_password user) = true ->
  (forall p s,
     List.length (scrypt p s) <>
     List.length (bufferFromHex (nth 0 (splitOn "." (usr_password user)) ""))) ->
  run (login scrypt (mkLoginBody (Some username) (Some supplied))) w =
  (Ok (Status500, None), w).
Proof.
  intros Eu Es F I L.
  unfold login. rewrite run_tryCatch, run_bind.
  rewrite run_loginSchema_parse by assumption. cbv iota.
  rewrite run_bind. unfold getUserByUsername. rewrite run_await, F. cbv iota.
  rewrite run_bind. unfold comparePasswords. rewrite I. simpl negb. cbv iota. cbv zeta.
  unfold timingSafeEqual.
  match goal with |- context [Nat.eqb ?a ?b] =>
    assert (Nat.eqb a b = false) as Q
  end.
  { apply Nat.eqb_neq. apply not_eq_sym. apply L. }
  rewrite Q. reflexivity.
Qed.

Lemma run_comparePasswords_result (scrypt : string -> string -> list Z)
    (supplied stored : string) (w : World) :
  exists r, run (comparePasswords scrypt supplied stored) w = (r, w) /\
            forall e, r = Err e -> exists text, e = Error text.
Proof.
  unfold comparePasswords, timingSafeEqual.
  destruct (negb (includes "." stored)).
  - eexists. split; [reflexivity | discriminate].
  - cbv zeta. destruct (Nat.eqb _ _).
    + eexists. split; [reflexivity | discriminate].
    + eexists. split; [reflexivity|]. intros e H. inversion H. eexists. reflexivity.
Qed.

(** X23.  What [login] answers to a well-formed body.  An unknown
    username and a password that does not compare equal get the same answer,
    401, and leave the world as it is; a comparison that throws gives 500,
    again without a trace; only an accepted password sets the session, to the
    id, name and admin flag of the stored user, and appends one USER_LOGIN
    entry that carries the user's id. *)
Theorem login_outcomes (scrypt : string -> string -> list Z)
    (username password : string) (w : World) :
  isEmpty username = false -> isEmpty password = false ->
  let attempt := run (login scrypt (mkLoginBody (Some username) (Some password))) w in
  match fst (selectUserByUsername username w) with
  | None => attempt = (Ok (Status401, None), w)
  | Some user =>
      match fst (run (comparePasswords scrypt password (usr_password user)) w) with
      | Ok false => attempt = (Ok (Status401, None), w)
      | Ok true =>
          let sessionUser :=
            mkSessionUser (usr_id user) (usr_username user) (usr_isAdmin user) in
          exists l,
            attempt = (Ok (Status200 sessionUser, Some sessionUser),
                       setLogs (logs w ++ [l]) (nextLogId w + 1) w) /\
            log_action l = "USER_LOGIN" /\ log_userId l = Some (usr_id user)
      | Err _ => attempt = (Ok (Status500, None), w)
      end
  end.
Proof.
  intros Eu Ep attempt. unfold attempt, login.
  rewrite run_tryCatch, run_bind.
  rewrite run_loginSchema_parse by assumption. cbv iota.
  rewrite run_bind. unfold getUserByUsername. rewrite run_await.
  destruct (fst (selectUserByUsername username w)) as [user|] eqn:F; cbv iota.
  2:{ reflexivity. }
  simpl snd. rewrite run_bind.
  destruct (run_comparePasswords_result scrypt password (usr_password user) w)
    as (r & R & He).
  rewrite R. simpl fst.
  destruct r as [[|]|e]; cbv iota.
  - cbv zeta. eexists. split; [reflexivity|]. split; reflexivity.
  - reflexivity.
  - destruct (He e eq_refl) as (text & ->). reflexivity.
Qed.

(** X24.  A login body without a username or a password, or with an
    empty one, is answered 400 with the message of the first failing field,
    before any call is made: no user is looked up, nothing is compared and
    nothing is logged. *)
Theorem login_rejects_incomplete_body (scrypt : string -> string -> list Z)
    (body : LoginBody) (w : World) :
  body_username body = None \/ body_username body = Some "" \/
  body_password body = None \/ body_password body = Some "" ->
  exists message,
    run (login scrypt body) w = (Ok (Status400 message, None), w) /\
    calls (login scrypt body) w = 0%nat /\
    (message = "Required" \/ message = "Username is required" \/
     message = "Password is required").
Proof.
  intros H. unfold login. rewrite run_tryCatch, calls_tryCatch, run_bind, calls_bind.
  unfold loginSchema_parse.
  destruct (body_username body) as [u|] eqn:U.
  2:{ exists "Required". simpl. auto. }
  destruct (isEmpty u) eqn:Eu.
  { exists "Username is required". simpl. auto. }
  destruct (body_password body) as [p|] eqn:P.
  2:{ exists "Required". simpl. auto. }
  destruct (isEmpty p) eqn:Ep.
  { exists "Password is required". simpl. auto. }
  exfalso. destruct H as [H | [H | [H | H]]]; try discriminate.
  - inversion H; subst. discriminate.
  - inversion H; subst. discriminate.
Qed.

Lemma run_registerSchema_parse (username password : string) (w : World) :
  (3 <= String.length username)%nat -> (6 <= String.length password)%nat ->
  run (registerSchema_parse (mkRegisterBody (Some username) (Some password))) w =
  (Ok (username, password), w).
Proof.
  intros Hu Hp. unfold registerSchema_parse. simpl.
  apply Nat.ltb_ge in Hu. apply Nat.ltb_ge in Hp. rewrite Hu, Hp. reflexivity.
Qed.

Lemma run_register_new (scrypt : string -> string -> list Z) (id : Z)
    (random : list Z) (username password : string) (w : World) :
  (3 <= String.length username)%nat -> (6 <= String.length password)%nat ->
  fst (selectUserByUsername username w) = None ->
  exists l,
    run (register scrypt id random (mkRegisterBody (Some username) (Some password))) w =
    (Ok (Status201 (mkSessionUser id username false),
         Some (mkSessionUser id username false)),
     setLogs (logs w ++ [l]) (nextLogId w + 1)
       (snd (insertUser id
               (mkInsertUser username (hashPassword scrypt random password) false) w))) /\
    log_action l = "USER_REGISTERED" /\ log_userId l = Some id.
Proof.
  intros Hu Hp F. unfold register.
  rewrite run_tryCatch, run_bind, run_registerSchema_parse by assumption. cbv iota.
  rewrite run_bind. unfold getUserByUsername. rewrite run_await, F. cbv iota.
  eexists. split; [reflexivity|]. split; reflexivity.
Qed.

(** X25.  Registering a free username with a long enough name and
    password stores one user who is not an admin, with the password hashed,
    opens the session for that user and logs USER_REGISTERED; a login with the
    same name and password is then answered 200 for the same user.  ([scrypt]
    and the random salt are bytes.) *)
Theorem register_then_login (scrypt : string -> string -> list Z) (id : Z)
    (random : list Z) (username password : string) (w : World) :
  (3 <= String.length username)%nat -> (6 <= String.length password)%nat ->
  fst (selectUserByUsername username w) = None ->
  (forall p s, Forall isByte (scrypt p s)) -> Forall isByte random ->
  let sessionUser := mkSessionUser id username false in
  exists w1,
    run (register scrypt id random (mkRegisterBody (Some username) (Some password))) w =
      (Ok (Status201 sessionUser, Some sessionUser), w1) /\
    users w1 = users w ++
      [mkUser id username (hashPassword scrypt random password) false (clock w)] /\
    includes "." (hashPassword scrypt random password) = true /\
    accounts w1 = accounts w /\ categories w1 = categories w /\
    botSettings w1 = botSettings w /\
    (exists l, logs w1 = logs w ++ [l] /\ log_action l = "USER_REGISTERED" /\
               log_userId l = Some id) /\
    fst (run (login scrypt (mkLoginBody (Some username) (Some password))) w1) =
      Ok (Status200 sessionUser, Some sessionUser).
Proof.
  intros Hu Hp F Hs Hr sessionUser.
  destruct (run_register_new scrypt id random username password w Hu Hp F)
    as (l & R & La & Lu).
  eexists. split; [exact R|].
  split; [reflexivity|].
  split.
  { unfold hashPassword.
    change (toHex (scrypt password (toHex random)) +++ "." +++ toHex random)
      with (toHex (scrypt password (toHex random)) +++ String "." (toHex random)).
    apply includes_append. }
  split; [reflexivity|]. split; [reflexivity|]. split; [reflexivity|].
  split; [exists l; split; [reflexivity | split; assumption]|].
  set (newUser := mkUser id username (hashPassword scrypt random password) false (clock w)).
  match type of R with _ = (_, ?W) => set (w1 := W) in * end.
  assert (isEmpty username = false) as Eu by (destruct username; simpl in *; [lia | reflexivity]).
  assert (isEmpty password = false) as Ep by (destruct password; simpl in *; [lia | reflexivity]).
  unfold login. rewrite run_tryCatch, run_bind.
  rewrite run_loginSchema_parse by assumption. cbv iota.
  rewrite run_bind. unfold getUserByUsername. rewrite run_await.
  assert (fst (selectUserByUsername username w1) = Some newUser) as F1.
  { unfold selectUserByUsername in *. simpl in *.
    apply find_app_none; auto. simpl. apply String.eqb_refl. }
  rewrite F1. cbv iota. simpl snd. rewrite run_bind.
  simpl usr_password.
  rewrite run_comparePasswords_hashed by assumption.
  unfold timingSafeEqual. rewrite Nat.eqb_refl, bufferEqb_refl. reflexivity.
Qed.

(** X26.  A registration that is refused leaves no trace: a missing or
    too short username or password is answered 400 with the message of the
    first failing field, a username that is taken (compared exactly, letter
    case included) is answered 400 as taken, and in both cases no user is
    stored, no session is opened and nothing is logged. *)
Theorem register_refused_without_trace (scrypt : string -> string -> list Z)
    (id : Z) (random : list Z) (body : RegisterBody) (w : World) :
  reg_username body = None \/
  (exists u, reg_username body = Some u /\ (String.length u < 3)%nat) \/
  reg_password body = None \/
  (exists p, reg_password body = Some p /\ (String.length p < 6)%nat) \/
  (exists u existing, reg_username body = Some u /\
     fst (selectUserByUsername u w) = Some existing) ->
  exists response,
    run (register scrypt id random body) w = (Ok (response, None), w) /\
    (response = Taken400 \/ exists message, response = Invalid400 message).
Proof.
  intros H. unfold register. rewrite run_tryCatch, run_bind.
  unfold registerSchema_parse.
  destruct (reg_username body) as [u|] eqn:U.
  2:{ eexists. split; [reflexivity|]. right. eexists. reflexivity. }
  destruct (String.length u <? 3)%nat eqn:Lu.
  { eexists. split; [reflexivity|]. right. eexists. reflexivity. }
  destruct (reg_password body) as [p|] eqn:P.
  2:{ eexists. split; [reflexivity|]. right. eexists. reflexivity. }
  destruct (String.length p <? 6)%nat eqn:Lp.
  { eexists. split; [reflexivity|]. right. eexists. reflexivity. }
  apply Nat.ltb_ge in Lu. apply Nat.ltb_ge in Lp.
  destruct H as [H | [(u' & H & L) | [H | [(p' & H & L) | (u' & ex & H & F)]]]];
    try discriminate.
  - inversion H; subst. lia.
  - inversion H; subst. lia.
  - inversion H; subst u'.
    change (run (Ret (u, p)) w) with (@Ok (string * string) (u, p), w).
    cbv iota. cbv beta.
    rewrite run_bind. unfold getUserByUsername. rewrite run_await, F.
    eexists. split; [reflexivity|]. left. reflexivity.
Qed.

(** ** The ids of the accounts stay fresh *)

Lemma fresh_same_ids (w w' : World) :
  Permutation (map acc_id (accounts w)) (map acc_id (accounts w')) ->
  nextAccountId w' = nextAccountId w ->
  accountIdsFresh w -> accountIdsFresh w'.
Proof.
  intros M N [D F]. split.
  - exact (Permutation_NoDup M D).
  - apply Forall_forall. intros a Ha.
    assert (In (acc_id a) (map acc_id (accounts w))) as Hi
      by (apply (Permutation_in _ (Permutation_sym M)); apply in_map; exact Ha).
    apply in_map_iff in Hi. destruct Hi as (b & Hb & Hin).
    rewrite Forall_forall in F. specialize (F b Hin). rewrite N. lia.
Qed.

Lemma NoDup_map_filter {A B : Type} (g : A -> B) (f : A -> bool) (l : list A) :
  NoDup (map g l) -> NoDup (map g (filter f l)).
Proof.
  induction l as [|x xs IH]; simpl; auto.
  intros H. inversion H as [|y ys Hn Hd]; subst.
  destruct (f x); simpl; auto.
  constructor; auto.
  intros Hin. apply Hn. apply in_map_iff in Hin. destruct Hin as (z & Hz & Hin).
  apply in_map_iff. exists z. split; auto.
  apply filter_In in Hin. tauto.
Qed.

Lemma fresh_filter (w w' : World) (f : Account -> bool) :
  accounts w' = filter f (accounts w) ->
  nextAccountId w' = nextAccountId w ->
  accountIdsFresh w -> accountIdsFresh w'.
Proof.
  intros M N [D F]. split.
  - rewrite M. apply NoDup_map_filter. exact D.
  - rewrite M, N. apply Forall_forall. intros a Ha.
    apply filter_In in Ha. destruct Ha as [Ha _].
    rewrite Forall_forall in F. exact (F a Ha).
Qed.

Lemma fresh_append (w w' : World) (row : Account) :
  accounts w' = accounts w ++ [row] -> acc_id row = nextAccountId w ->
  nextAccountId w' = nextAccountId w + 1 ->
  accountIdsFresh w -> accountIdsFresh w'.
Proof.
  intros M I N [D F]. split.
  - rewrite M, map_app. simpl. apply NoDup_app; auto.
    + apply NoDup_cons; [intros []|constructor].
    + intros x Hx [Hy | []]. subst x.
      apply in_map_iff in Hx. destruct Hx as (a & Ha & Hin).
      rewrite Forall_forall in F. specialize (F a Hin). lia.
  - rewrite M, N. apply Forall_app. split.
    + eapply Forall_impl; [|exact F]. intros a Ha. simpl in Ha. lia.
    + constructor; [lia | constructor].
Qed.

Lemma add_accounts_cases (ownerId : option string) (m : Message)
    (args : list string) (s : BotSettings) (w : World) :
  exists w',
    run (handleAddCommand ownerId m args s) w = (Ok tt, w') /\
    ((accounts w' = accounts w /\ nextAccountId w' = nextAccountId w) \/
     (exists row, acc_id row = nextAccountId w /\
                  accounts w' = accounts w ++ [row] /\
                  nextAccountId w' = nextAccountId w + 1)).
Proof.
  destruct (adminAt ownerId w m) eqn:A.
  2:{ unfold handleAddCommand. rewrite run_bind, run_isAdmin, A.
      eexists. split; [reflexivity|]. left. split; reflexivity. }
  destruct args as [|sn [|ad more]].
  1,2: unfold handleAddCommand; rewrite run_bind, run_isAdmin, A;
       eexists; (split; [reflexivity|]); left; split; reflexivity.
  destruct (includes ":" ad) eqn:I.
  2:{ unfold handleAddCommand. rewrite run_bind, run_isAdmin, A.
      simpl negb. cbv iota. rewrite I.
      eexists. split; [reflexivity|]. left. split; reflexivity. }
  destruct (run_add_accepted ownerId m sn ad more s w A I)
    as (email & password & rest & l1 & l2 & Sp & R).
  cbv zeta in R. eexists. split; [exact R|].
  right. eexists. split; [|split]; [| reflexivity |].
  - reflexivity.
  - simpl. destruct (fst (selectCategoryByName sn w)); reflexivity.
Qed.

(** X27.  When the ids of the accounts are pairwise different and
    below the counter of the table, they are so again after a claim, an add
    and a remove command, whatever their arguments and outcome, and after
    [updateAccount] and [deleteAccount] on any id. *)
Theorem account_ids_stay_fresh (sqlLike : string -> string -> bool)
    (ownerId : option string) (m : Message) (args : list string)
    (s : BotSettings) (id : Z) (u : AccountUpdate) (w : World) :
  accountIdsFresh w ->
  accountIdsFresh (snd (run (handleGenerateCommand sqlLike ownerId m args s) w)) /\
  accountIdsFresh (snd (run (handleAddCommand ownerId m args s) w)) /\
  accountIdsFresh (snd (run (handleRemoveCommand sqlLike ownerId m args s) w)) /\
  accountIdsFresh (snd (run (updateAccount id u) w)) /\
  accountIdsFresh (snd (run (deleteAccount id) w)).
Proof.
  intros Fr. split; [|split; [|split; [|split]]].
  - destruct (generate_cases sqlLike ownerId m args s w)
      as (w' & news & R & _ & _ & _ & _ & _ & NA & _ & _ & Hacc).
    rewrite R. simpl snd. apply (fresh_same_ids w w'); auto.
    destruct Hacc as [[Ha _] | (c & a & rest & _ & [[Ha _] | [Ha _]])]; rewrite Ha.
    + apply Permutation_refl.
    + apply updatedTable_ids.
    + eapply Permutation_trans; apply updatedTable_ids.
  - destruct (add_accounts_cases ownerId m args s w)
      as (w' & R & [[Ha Hn] | (row & Hi & Ha & Hn)]); rewrite R; simpl snd.
    + apply (fresh_same_ids w w'); auto. rewrite Ha. apply Permutation_refl.
    + apply (fresh_append w w' row); auto.
  - destruct (remove_cases sqlLike ownerId m args s w)
      as [(r & R & _) | (sn & em & more & c & a & l1 & l2 & _ & _ & _ & _ & _ & R & _)];
      rewrite R; simpl snd; auto.
    eapply fresh_filter; [reflexivity | reflexivity | exact Fr].
  - destruct (run_updateAccount_cases id u w)
      as [[_ R] | [(a & e & _ & _ & _ & R) | (a & a' & l & _ & _ & _ & R)]];
      rewrite R; simpl snd; auto.
    apply (fresh_same_ids w); auto. simpl. apply updatedTable_ids.
  - destruct (run_deleteAccount_cases id w) as [[_ R] | (a & l & _ & _ & R)];
      rewrite R; simpl snd; auto.
    eapply fresh_filter; [reflexivity | reflexivity | exact Fr].
Qed.

(** ** Returning an account to stock *)

Lemma same_id_same_row (rows : list Account) (a b : Account) :
  NoDup (map acc_id rows) -> In a rows -> In b rows -> acc_id b = acc_id a -> b = a.
Proof.
  induction rows as [|x xs IH]; simpl; [tauto|].
  intros N Ha Hb E. inversion N as [|y ys Hn Hd]; subst.
  destruct Ha as [-> | Ha], Hb as [-> | Hb]; auto.
  - exfalso. apply Hn. rewrite <- E. apply in_map. exact Hb.
  - exfalso. apply Hn. rewrite E. apply in_map. exact Ha.
Qed.








(** ** The properties of this part on the scenarios *)

(** [parseInt] on the one numeral the scenarios use. *)
Definition parseThirty (s : string) : option Z :=
  if String.eqb s "30" then Some 30 else None.

(** A stand-in for [scrypt]: 64 bytes that depend on the length of the
    password. *)
Definition lengthKey (password salt : string) : list Z :=
  repeat (Z.of_nat (String.length password) mod 256) 64.

Lemma lengthKey_bytes (p s : string) : Forall isByte (lengthKey p s).
Proof.
  apply Forall_forall. intros x Hx. apply repeat_spec in Hx. subst x.
  unfold isByte. apply Z.mod_pos_bound. lia.
Qed.

(** A user whose stored password is plain text with a dot. *)
Definition dottedUser : User := mkUser 2 "dot" "my.password" false 0.

Definition office : World :=
  mkWorld [legacyAdmin; dottedUser] [accountA; accountB] [streaming]
          [openSettings; membersOnly] [] 10 2 3 1 100000 [].


Definition saltBytes : list Z :=
  [23; 250; 3; 64; 171; 9; 0; 255; 18; 77; 201; 5; 132; 48; 99; 16].

Lemma office_ids_fresh : accountIdsFresh office.
Proof.
  split.
  - simpl. repeat constructor; simpl; intuition discriminate.
  - repeat constructor; simpl; lia.
Qed.



Lemma admin_is_permitted_witness : permittedAt None office guildAdmin = true.
Proof.
  apply (admin_is_permitted None office guildAdmin). reflexivity.
Defined.

Lemma add_rejected_changes_nothing_witness :
  exists text,
    run (handleAddCommand None userOne ["netflix"; "a:b"] openSettings) office =
      (Ok tt, setOutbox (outbox office ++ [Reply (author_id userOne) text]) office) /\
    (text = RAdminDenied \/ text = RAddUsage (bs_prefix openSettings) \/
     text = RAddBadFormat).
Proof.
  apply (add_rejected_changes_nothing None userOne ["netflix"; "a:b"] openSettings office).
  left. reflexivity.
Defined.

Lemma add_into_existing_category_witness :
  exists email password rest w',
    splitOn ":" "d@x.com:pw4" = email :: password :: rest /\
    run (handleAddCommand None guildAdmin ("STREAMING" :: "d@x.com:pw4" :: []) openSettings)
        office = (Ok tt, w') /\
    In streaming (categories office) /\
    toLowerCase (cat_name streaming) = toLowerCase "STREAMING" /\
    categories w' = categories office /\
    accounts w' = accounts office ++
      [mkAccount (nextAccountId office) email password (cat_id streaming) "available"
                 None None None (clock office) (clock office)] /\
    outbox w' = outbox office ++
      [Reply (author_id guildAdmin) (RAccountAdded "STREAMING" email)].
Proof.
  apply (add_into_existing_category None guildAdmin "STREAMING" "d@x.com:pw4" []
           openSettings office streaming); reflexivity.
Defined.


(** The same two commands, evaluated: with [accountA] in stock the requester
    of Netflix is sent [accountA]; with an empty table, the account that was
    added. *)
Example add_then_generate_on_stock :
  outbox (snd (run (handleGenerateCommand noLike None userOne ["NETFLIX"] openSettings)
        (snd (run (handleAddCommand None guildAdmin
                     ["Netflix"; "john@example.com:password123"] openSettings) office))))
  = [Reply "U5" (RAccountAdded "Netflix" "john@example.com");
     DirectMessage "U1" (mkDm "Netflix" "a@x.com" "pw1" None);
     Reply "U1" (RGenerated "Netflix")] /\
  outbox (snd (run (handleGenerateCommand noLike None userOne ["NETFLIX"] openSettings)
        (snd (run (handleAddCommand None guildAdmin
                     ["Netflix"; "john@example.com:password123"] openSettings)
                  (stock [])))))
  = [Reply "U5" (RAccountAdded "Netflix" "john@example.com");
     DirectMessage "U1" (mkDm "Netflix" "john@example.com" "password123" None);
     Reply "U1" (RGenerated "Netflix")].
Proof. vm_compute. split; reflexivity. Qed.

Lemma resolveSettings_creates_once_witness :
  exists s w1,
    run (resolveSettings newcomer) office = (Ok s, w1) /\
    bs_guildId s = "g3" /\
    run (resolveSettings newcomer) w1 = (Ok s, w1) /\
    (fst (selectBotSettings "g3" office) = None ->
     s = mkBotSettings (nextSettingsId office) "g3" "!" (Some []) (Some []) 3600
                       (clock office) (clock office) /\
     botSettings w1 = botSettings office ++ [s]) /\
    (forall t, fst (selectBotSettings "g3" office) = Some t -> s = t /\ w1 = office).
Proof.
  apply (resolveSettings_creates_once newcomer (mkGuild "g3" "Guild Three") office).
  reflexivity.
Defined.

(** A message without the prefix, the first one of its guild. *)
Definition smallTalk : Message :=
  mkMessage false "U1" "U1#0001" (Some (mkGuild "g3" "Guild Three"))
            (Some (mkMember [] false)) "generate streaming" true.

Lemma onMessage_ignores_bots_and_plain_text_witness :
  let w1 := snd (run (resolveSettings smallTalk) office) in
  let handler :=
    onMessage noLike None idle2 idle1 idle2 idle1 idle2 idle2 idle3 idle2 idle3
              smallTalk in
  run handler office = (Ok tt, w1) /\
  calls handler office = calls (resolveSettings smallTalk) office /\
  outbox w1 = outbox office /\ logs w1 = logs office /\
  accounts w1 = accounts office /\ categories w1 = categories office /\
  users w1 = users office.
Proof.
  apply (onMessage_ignores_bots_and_plain_text noLike None idle2 idle1 idle2 idle1
           idle2 idle2 idle3 idle2 idle3 smallTalk office
           (mkBotSettings 3 "g3" "!" (Some []) (Some []) 3600 100000 100000)
           (snd (run (resolveSettings smallTalk) office))).
  - reflexivity.
  - right. reflexivity.
Defined.

Lemma setcooldown_stores_seconds_witness :
  exists w' l,
    run (handleSetCooldownCommand None parseThirty guildAdmin ("30" :: []) openSettings)
        office = (Ok (ScUpdated 30), w') /\
    Permutation (withCooldown "g1" (30 * 60) (clock office) (botSettings office))
                (botSettings w') /\
    (forall r, In r (botSettings w') -> bs_guildId r = "g1" -> bs_cooldown r = 30 * 60) /\
    (forall r, In r (botSettings office) -> bs_guildId r <> "g1" ->
               In r (botSettings w')) /\
    Permutation
      (map (fun r => (bs_id r, bs_guildId r, bs_prefix r, bs_allowedRoles r,
                      bs_adminRoles r)) (botSettings office))
      (map (fun r => (bs_id r, bs_guildId r, bs_prefix r, bs_allowedRoles r,
                      bs_adminRoles r)) (botSettings w')) /\
    logs w' = logs office ++ [l] /\ log_action l = "COOLDOWN_UPDATED" /\
    accounts w' = accounts office /\ categories w' = categories office /\
    users w' = users office.
Proof.
  apply (setcooldown_stores_seconds None parseThirty guildAdmin "30" [] openSettings
           office guildOne openSettings 30); try reflexivity; lia.
Defined.

(** The rows of the settings afterwards, as the store returns them: the
    guild that was updated comes last. *)
Example setcooldown_row_order :
  map (fun r => (bs_guildId r, bs_cooldown r))
      (botSettings
         (snd (run (handleSetCooldownCommand None parseThirty guildAdmin ["30"]
                      openSettings) office)))
  = [("g2", 3600); ("g1", 1800)].
Proof. vm_compute. reflexivity. Qed.

Lemma setcooldown_rejected_changes_nothing_witness :
  exists r,
    run (handleSetCooldownCommand None parseThirty guildAdmin ("soon" :: []) openSettings)
        office = (Ok r, office) /\
    forall minutes, r <> ScUpdated minutes.
Proof.
  apply (setcooldown_rejected_changes_nothing None parseThirty guildAdmin ["soon"]
           openSettings office).
  right. right. exists "soon", []. split; [reflexivity|]. left. reflexivity.
Defined.

Lemma cooldown_command_assumes_two_hours_witness :
  run (handleCooldownCommand None userOne (mkBotSettings 1 "g1" "!" (Some []) (Some [])
                                             10800 0 0)) office =
  (Ok (CdActive 60 0 10800 (clock office + 3600000)), office).
Proof.
  exact (cooldown_command_assumes_two_hours None userOne
           (mkBotSettings 1 "g1" "!" (Some []) (Some []) 10800 0 0) office eq_refl).
Defined.

Lemma stock_counts_by_category_witness :
  exists r,
    run (handleStockCommand noLike None userOne []) office = (Ok r, office) /\
    exists totalAvailable totalAccounts,
      r = StInventory (map (stockLine office) (categories office))
                      totalAvailable totalAccounts /\
      totalAvailable =
        fold_left Z.add
          (map (fun c => Z.of_nat (List.length (availableOf office c)))
               (categories office)) 0 /\
      totalAccounts =
        fold_left Z.add
          (map (fun c => Z.of_nat (List.length (accountsOf office c)))
               (categories office)) 0 /\
      0 <= totalAvailable <= totalAccounts.
Proof.
  exact (stock_counts_by_category noLike None userOne [] office eq_refl).
Defined.

Lemma hashPassword_then_comparePasswords_witness :
  run (comparePasswords lengthKey "hunter22"
         (hashPassword lengthKey saltBytes "hunter22")) office = (Ok true, office).
Proof.
  refine (proj1 (hashPassword_then_comparePasswords lengthKey saltBytes
                   "hunter22" "hunter2" office lengthKey_bytes _)).
  repeat constructor; unfold isByte; lia.
Defined.

Lemma login_dotted_plaintext_fails_witness :
  run (login lengthKey (mkLoginBody (Some "dot") (Some "my.password"))) office =
  (Ok (Status500, None), office).
Proof.
  apply (login_dotted_plaintext_fails lengthKey "dot" "my.password" dottedUser office);
    try reflexivity.
  intros p s. unfold lengthKey. rewrite repeat_length. vm_compute.
  intro H. discriminate H.
Defined.

Lemma login_outcomes_witness :
  let sessionUser := mkSessionUser 1 "admin" true in
  exists l,
    run (login lengthKey (mkLoginBody (Some "admin") (Some "admin123"))) office =
      (Ok (Status200 sessionUser, Some sessionUser),
       setLogs (logs office ++ [l]) (nextLogId office + 1) office) /\
    log_action l = "USER_LOGIN" /\ log_userId l = Some 1.
Proof.
  exact (login_outcomes lengthKey "admin" "admin123" office eq_refl eq_refl).
Defined.

Lemma login_rejects_incomplete_body_witness :
  exists message,
    run (login lengthKey (mkLoginBody (Some "admin") None)) office =
      (Ok (Status400 message, None), office) /\
    calls (login lengthKey (mkLoginBody (Some "admin") None)) office = 0%nat /\
    (message = "Required" \/ message = "Username is required" \/
     message = "Password is required").
Proof.
  apply (login_rejects_incomplete_body lengthKey (mkLoginBody (Some "admin") None) office).
  right. right. left. reflexivity.
Defined.

Lemma register_then_login_witness :
  let sessionUser := mkSessionUser 3 "alice" false in
  exists w1,
    run (register lengthKey 3 saltBytes (mkRegisterBody (Some "alice") (Some "secret1")))
        office = (Ok (Status201 sessionUser, Some sessionUser), w1) /\
    users w1 = users office ++
      [mkUser 3 "alice" (hashPassword lengthKey saltBytes "secret1") false
              (clock office)] /\
    includes "." (hashPassword lengthKey saltBytes "secret1") = true /\
    accounts w1 = accounts office /\ categories w1 = categories office /\
    botSettings w1 = botSettings office /\
    (exists l, logs w1 = logs office ++ [l] /\ log_action l = "USER_REGISTERED" /\
               log_userId l = Some 3) /\
    fst (run (login lengthKey (mkLoginBody (Some "alice") (Some "secret1"))) w1) =
      Ok (Status200 sessionUser, Some sessionUser).
Proof.
  apply (register_then_login lengthKey 3 saltBytes "alice" "secret1" office).
  - simpl. lia.
  - simpl. lia.
  - reflexivity.
  - exact lengthKey_bytes.
  - repeat constructor; unfold isByte; lia.
Defined.

Lemma register_refused_without_trace_witness :
  exists response,
    run (register lengthKey 3 saltBytes (mkRegisterBody (Some "Admin") (Some "short")))
        office = (Ok (response, None), office) /\
    (response = Taken400 \/ exists message, response = Invalid400 message).
Proof.
  apply (register_refused_without_trace lengthKey 3 saltBytes
           (mkRegisterBody (Some "Admin") (Some "short")) office).
  right. right. right. left. exists "short". split; [reflexivity | simpl; lia].
Defined.

Lemma account_ids_stay_fresh_witness :
  accountIdsFresh
    (snd (run (handleGenerateCommand noLike None userOne ["streaming"] openSettings)
              office)) /\
  accountIdsFresh
    (snd (run (handleAddCommand None userOne ["streaming"] openSettings) office)) /\
  accountIdsFresh
    (snd (run (handleRemoveCommand noLike None userOne ["streaming"] openSettings)
              office)) /\
  accountIdsFresh (snd (run (updateAccount 1 restockUpdate) office)) /\
  accountIdsFresh (snd (run (deleteAccount 1) office)).
Proof.
  exact (account_ids_stay_fresh noLike None userOne ["streaming"] openSettings 1
           restockUpdate office office_ids_fresh).
Defined.




(** ** The query of [getAccounts] on two categories

    A second category with one account in stock.  The claim and the remove
    command name Streaming; the condition that reaches the database is the
    status, respectively the search, and the account of the other category
    is served, respectively deleted. *)

Definition vpn : AccountCategory := mkCategory 2 "VPN" None 0.

Definition accountV : Account :=
  mkAccount 3 "v@x.com" "pwv" 2 "available" None None None 30000 30000.

Definition shelves (rows : list Account) : World :=
  mkWorld [legacyAdmin] rows [streaming; vpn] [openSettings; membersOnly] []
          10 3 3 1 100000 [].

(** [needle] occurs in [hay]. *)
Fixpoint occursIn (needle hay : string) : bool :=
  String.prefix needle hay ||
  match hay with
  | EmptyString => false
  | String _ r => occursIn needle r
  end.

(** [LIKE] on the patterns of [getAccounts], ['%' + text + '%'], for a text
    without wildcards. *)
Definition likeInfix (subject pattern : string) : bool :=
  occursIn (substring 1 (String.length pattern - 2) pattern) subject.

Example getAccounts_last_where :
  map acc_id (fst (selectAccounts likeInfix (availableIn streaming)
                     (shelves [accountA; accountB; accountV]))) = [1; 2; 3] /\
  map acc_id (fst (selectAccounts likeInfix
                     (Some (mkFilters (Some 1) None (Some "v@x.com")))
                     (shelves [accountA; accountB; accountV]))) = [3] /\
  map acc_id (fst (selectAccounts likeInfix (Some (mkFilters (Some 1) None None))
                     (shelves [accountA; accountB; accountV]))) = [1; 2].
Proof. vm_compute. repeat split. Qed.

Example generate_serves_other_category :
  availableOf (shelves [accountV]) streaming = [] /\
  outbox (snd (run (handleGenerateCommand likeInfix None userOne ["streaming"]
                      openSettings) (shelves [accountV])))
  = [DirectMessage "U1" (mkDm "Streaming" "v@x.com" "pwv" None);
     Reply "U1" (RGenerated "Streaming")].
Proof. vm_compute. split; reflexivity. Qed.

Example remove_crosses_categories :
  run (handleRemoveCommand likeInfix None guildAdmin ["streaming"; "v@x.com"]
         openSettings) (shelves [accountA; accountV])
  = (Ok (RmRemoved "v@x.com" "streaming"),
     snd (run (handleRemoveCommand likeInfix None guildAdmin ["streaming"; "v@x.com"]
                 openSettings) (shelves [accountA; accountV]))) /\
  accounts (snd (run (handleRemoveCommand likeInfix None guildAdmin
                        ["streaming"; "v@x.com"] openSettings)
                     (shelves [accountA; accountV])))
  = [accountA].
Proof. vm_compute. split; reflexivity. Qed.

(** The rows of the accounts after an update, as the store returns them. *)
Example updateAccount_row_order :
  map acc_id (accounts (snd (run (updateAccount 1 restockUpdate)
                               (stock [accountA; accountB; accountC]))))
  = [2; 3; 1].
Proof. vm_compute. reflexivity. Qed.
